(** * DataPartStorageOnDisk: on-disk lifecycle of MergeTree data parts

    A shallow embedding of
    [src/Storages/MergeTree/DataPartStorageOnDisk.cpp].  The storage object is
    a pair of path strings; every method talks to a disk through the virtual
    [IDisk] interface, which is rendered here as a type class over an abstract
    disk state.  C++ exceptions become an explicit result type, and methods
    become functions in a state-and-exception monad whose state also records
    the mutating disk calls that were issued and the lines that were logged. *)

From Stdlib Require Import ZArith Lia Ascii String DecimalString.
From stdpp Require Import base option list strings gmap fin_maps.

Set Default Proof Using "Type".
Local Open Scope string_scope.
Local Open Scope list_scope.
Local Open Scope nat_scope.

(** ** Exceptions *)

Module ErrorCodes.
Inductive t :=
| FILE_DOESNT_EXIST
| DIRECTORY_ALREADY_EXISTS
| NOT_ENOUGH_SPACE
| LOGICAL_ERROR.
End ErrorCodes.

(** [std::errc] values carried by [fs::filesystem_error]. *)
Inductive errc :=
| no_such_file_or_directory
| file_exists
| directory_not_empty
| not_a_directory
| is_a_directory
| io_error.

(** The exception classes that the file distinguishes in its handlers:
    [DB::Exception] (thrown by the file itself, with an error code),
    other [Poco::Exception]s coming from a backend, [fs::filesystem_error]
    (caught by [remove]), and anything else that only [catch (...)] sees. *)
Inductive exn :=
| DBException (code : ErrorCodes.t)
| PocoException (what : string)
| FilesystemError (code : errc)
| StdException (what : string).

(** [DB::Exception] derives from [Poco::Exception]; the standard library
    exceptions do not. *)
Definition is_poco (e : exn) : bool :=
  match e with
  | DBException _ | PocoException _ => true
  | FilesystemError _ | StdException _ => false
  end.

Definition exn_what (e : exn) : string :=
  match e with
  | DBException _ => "DB::Exception"
  | PocoException s => s
  | FilesystemError _ => "filesystem error"
  | StdException s => s
  end.

Inductive Res (A : Type) :=
| Ok (a : A)
| Exc (e : exn).
Arguments Ok {A} a.
Arguments Exc {A} e.

(** ** State-and-exception monad

    A C++ exception does not roll the world back: the state reached at the
    throw point is kept. *)

Definition M (S A : Type) : Type := S → Res A * S.

Definition ret {S A} (a : A) : M S A := λ s, (Ok a, s).
Definition throw {S A} (e : exn) : M S A := λ s, (Exc e, s).
Definition bind {S A B} (m : M S A) (k : A → M S B) : M S B :=
  λ s, match m s with
       | (Ok a, s') => k a s'
       | (Exc e, s') => (Exc e, s')
       end.

Global Instance M_ret {S} : MRet (M S) := λ A, @ret S A.
Global Instance M_bind {S} : MBind (M S) := λ A B k m, bind m k.

(** [try { body } catch (T & e) { handler }]: the handler table answers
    [None] for an exception that its [catch] clause does not match, which then
    propagates. *)
Definition try_catch {S A} (body : M S A) (handler : exn → option (M S A)) : M S A :=
  λ s, match body s with
       | (Ok a, s') => (Ok a, s')
       | (Exc e, s') =>
           match handler e with
           | Some h => h s'
           | None => (Exc e, s')
           end
       end.

(** [catch (...)] *)
Definition catch_all {S A} (h : exn → M S A) : exn → option (M S A) :=
  λ e, Some (h e).

(** [catch (Poco::Exception & e)] *)
Definition catch_poco {S A} (h : exn → M S A) : exn → option (M S A) :=
  λ e, if is_poco e then Some (h e) else None.

(** [catch (const fs::filesystem_error & e)] *)
Definition catch_filesystem_error {S A} (h : errc → M S A) : exn → option (M S A) :=
  λ e, match e with
       | FilesystemError c => Some (h c)
       | _ => None
       end.

Definition when {S} (b : bool) (m : M S unit) : M S unit :=
  if b then m else ret ().

Fixpoint for_each {S A} (l : list A) (body : A → M S unit) : M S unit :=
  match l with
  | [] => ret ()
  | x :: l' => bind (body x) (λ _, for_each l' body)
  end.

(** Run a computation on the second component of a larger state. *)
Definition on_snd {X S A} (m : M S A) : M (X * S) A :=
  λ '(x, s), let '(r, s') := m s in (r, (x, s')).

Definition on_fst {X S A} (m : M X A) : M (X * S) A :=
  λ '(x, s), let '(r, x') := m x in (r, (x', s)).

Definition get_fst {X S} : M (X * S) X := λ '(x, s), (Ok x, (x, s)).
Definition put_fst {X S} (x : X) : M (X * S) unit := λ '(_, s), (Ok (), (x, s)).

(** ** Paths

    Paths are the strings the code builds with [fs::path::operator/]. *)

Definition slash : ascii := "/"%char.

Fixpoint after_last_slash (s : string) : option string :=
  match s with
  | EmptyString => None
  | String c s' =>
      match after_last_slash s' with
      | Some f => Some f
      | None => if Ascii.eqb c slash then Some s' else None
      end
  end.

(** [fs::path::filename]: what follows the last separator. *)
Definition filename (p : string) : string :=
  default p (after_last_slash p).

(** [fs::path::has_filename] *)
Definition has_filename (p : string) : bool :=
  negb (String.eqb (filename p) "").

(** [fs::path::remove_filename]: the path up to and including the last
    separator. *)
Fixpoint remove_filename (p : string) : string :=
  match p with
  | EmptyString => ""
  | String c p' =>
      match after_last_slash p with
      | Some _ => String c (remove_filename p')
      | None => ""
      end
  end.

Definition is_absolute (p : string) : bool :=
  match p with
  | String c _ => Ascii.eqb c slash
  | EmptyString => false
  end.

(** [fs::path::operator/]: an absolute right operand replaces the left one;
    otherwise a separator is inserted when the left operand has a filename. *)
Definition path_append (p q : string) : string :=
  if is_absolute q then q
  else if has_filename p then p +:+ "/" +:+ q
  else p +:+ q.

Infix "//" := path_append (at level 40, left associativity).
Global Arguments path_append : simpl never.

(** A name without separators, as a part directory normally is. *)
Fixpoint no_slash (s : string) : bool :=
  match s with
  | EmptyString => true
  | String c s' => negb (Ascii.eqb c slash) && no_slash s'
  end.

(** [DB::toString] on a non-negative [int]. *)
Definition toString (n : nat) : string :=
  NilEmpty.string_of_uint (Nat.to_uint n).


(** ** Data passed to the storage *)

Abbreviation NameSet := (gset string).

Record Checksum := { file_size : N; file_hash : N * N }.

(** [MergeTreeDataPartChecksums::files] is a [std::map]: the loop over it
    visits the entries in key order, which the list keeps. *)
Module MergeTreeDataPartChecksums.
Record t := { files : list (string * Checksum) }.

Definition empty (c : t) : bool :=
  match files c with
  | [] => true
  | _ :: _ => false
  end.
End MergeTreeDataPartChecksums.

Module ProjectionChecksums.
Record t := { name : string; checksums : MergeTreeDataPartChecksums.t }.
End ProjectionChecksums.

(** [IDisk::RemoveRequest]; [if_exists] defaults to [false]. *)
Record RemoveRequest := { path : string; if_exists : bool }.

Inductive WriteMode := Rewrite | Append.

Global Instance RemoveRequest_eq_dec : EqDecision RemoveRequest.
Proof. solve_decision. Defined.
Global Instance WriteMode_eq_dec : EqDecision WriteMode.
Proof. solve_decision. Defined.

(** ** The disk

    The mutating methods of [IDisk] that the file calls, reified so that a
    run can record them.  [WriteFile] stands for opening a write buffer,
    writing the given bytes, and finalizing and syncing it. *)
Inductive Call :=
| CreateFile (p : string)
| WriteFile (p : string) (mode : WriteMode) (content : string)
| ReplaceFile (from to : string)
| RemoveFile (p : string)
| RemoveFileIfExists (p : string)
| RemoveDirectory (p : string)
| RemoveRecursive (p : string)
| RemoveSharedRecursive (p : string) (keep_all_batch_data : bool) (names : NameSet)
| RemoveSharedFiles (request : list RemoveRequest) (keep_all_batch_data : bool) (names : NameSet)
| MoveDirectory (from to : string)
| SetLastModified (p : string) (timestamp : Z)
| CreateDirectories (p : string)
| Copy (from to : string)
| GetDirectorySyncGuard (p : string).

Global Instance Call_eq_dec : EqDecision Call.
Proof. solve_decision. Defined.

(** The part of [IDisk] used by the storage: [const] queries read the disk
    state, every other method may change it and may throw. *)
Class IDisk (D : Type) := {
  disk_getPath : D → string;
  disk_exists : D → string → bool;
  disk_getLastModified : D → string → Res Z;
  disk_getFileSize : D → string → Res N;
  disk_readFile : D → string → Res string;
  disk_listFiles : D → string → Res (list string);
  disk_call : Call → D → Res unit * D
}.

Inductive LogLevel := Warning | Error.

Record LogLine := { level : LogLevel; format : string; args : list string }.

Record World (D : Type) := {
  disk : D;
  trace : list Call;
  logged : list LogLine
}.
Arguments disk {D} _.
Arguments trace {D} _.
Arguments logged {D} _.
Arguments Build_World {D} _ _ _.

(** ** Transactions *)

Record TransactionID := { start_csn : N; local_tid : N; host_id : N }.

Abbreviation CSN := N.

Record VersionMetadata := {
  creation_tid : TransactionID;
  removal_tid : TransactionID;
  creation_csn : CSN;
  removal_csn : CSN
}.

(** The sentinel values of namespace [Tx]; their header is not part of the
    sources at hand, so they are taken as given. *)
Class TxSentinels := {
  PrehistoricTID : TransactionID;
  DummyTID : TransactionID;
  PrehistoricCSN : CSN;
  RolledBackCSN : CSN
}.

(** [VersionMetadata::write] and [VersionMetadata::read], likewise taken as
    given: [write] renders a value as the bytes of the version file, [read]
    parses such bytes into an existing object and may throw. *)
Class VersionCodec := {
  version_write : VersionMetadata → string;
  version_read : string → M VersionMetadata unit
}.

(** Modelled from the spec: [VersionMetadata::setCreationTID], whose source
    ([TransactionVersionMetadata.cpp]) is not at hand.  Called with a null
    context it only stores the creation TID ("sets the part's state"). *)
Definition setCreationTID (tid : TransactionID) : M VersionMetadata unit :=
  λ version, (Ok (), {| creation_tid := tid;
                        removal_tid := removal_tid version;
                        creation_csn := creation_csn version;
                        removal_csn := removal_csn version |}).

(** The assignment [version.creation_csn = csn]. *)
Definition set_creation_csn (csn : CSN) : M VersionMetadata unit :=
  λ version, (Ok (), {| creation_tid := creation_tid version;
                        removal_tid := removal_tid version;
                        creation_csn := csn;
                        removal_csn := removal_csn version |}).

(** ** The storage object *)

Record DataPartStorageOnDisk := { root_path : string; part_dir : string }.

Section Storage.
Context {D : Type} `{!IDisk D}.

Abbreviation W := (World D).

(** *** Talking to the disk *)

Definition call (c : Call) : M W unit :=
  λ w, let '(r, d) := disk_call c (disk w) in
       (r, Build_World d (trace w ++ [c]) (logged w)).

Definition query {A} (f : D → Res A) : M W A :=
  λ w, (f (disk w), w).

Definition ask {A} (f : D → A) : M W A :=
  λ w, (Ok (f (disk w)), w).

Definition LOG (lvl : LogLevel) (fmt : string) (a : list string) : M W unit :=
  λ w, (Ok (), Build_World (disk w) (trace w) (logged w ++ [Build_LogLine lvl fmt a])).

Definition fullPath (d : D) (p : string) : string := disk_getPath d // p.

(** *** Paths of a part *)

Definition getFullRelativePath (this : DataPartStorageOnDisk) : string :=
  root_path this // part_dir this // "".

Definition candidate (this : DataPartStorageOnDisk) (prefix : string) (try_no : nat) : string :=
  (if String.eqb prefix "" then "" else prefix +:+ "_") +:+ part_dir this
  +:+ (match try_no with 0 => "" | _ => "_try" +:+ toString try_no end).

Fixpoint getRelativePathForPrefix_loop (this : DataPartStorageOnDisk) (prefix : string)
    (full_relative_path : string) (tries : list nat) (res : string) : M W string :=
  match tries with
  | [] => ret res
  | try_no :: tries' =>
      let res := candidate this prefix try_no in
      found ← ask (λ d, disk_exists d (full_relative_path // res));
      if negb found then ret res
      else
        LOG Warning "Directory {} (to detach to) already exists. Will detach to directory with '_tryN' suffix." [res];;
        getRelativePathForPrefix_loop this prefix full_relative_path tries' res
  end.

Definition getRelativePathForPrefix (this : DataPartStorageOnDisk)
    (prefix : string) (detached : bool) : M W string :=
  let full_relative_path := root_path this in
  let full_relative_path :=
    if detached then full_relative_path // "detached" else full_relative_path in
  getRelativePathForPrefix_loop this prefix full_relative_path (seq 0 10) "".

Definition exists_ (this : DataPartStorageOnDisk) : M W bool :=
  ask (λ d, disk_exists d (root_path this // part_dir this)).

(** *** remove *)

(** The request that the fast path of [clearDirectory] hands to
    [removeSharedFiles], built in the order of the [emplace_back] calls. *)
Definition clearDirectory_request (dir : string)
    (checksums : MergeTreeDataPartChecksums.t) (skip_directories : gset string)
    (is_projection : bool) : list RemoveRequest :=
  let request : list RemoveRequest := [] in
  let request :=
    fold_left (λ (request : list RemoveRequest) '(file, _),
                 if decide (file ∈ skip_directories) then request
                 else request ++ [Build_RemoveRequest (dir // file) false])
              (MergeTreeDataPartChecksums.files checksums) request in
  let request :=
    fold_left (λ (request : list RemoveRequest) file, request ++ [Build_RemoveRequest (dir // file) false])
              ["checksums.txt"; "columns.txt"] request in
  let request := request ++ [Build_RemoveRequest (dir // "default_compression_codec.txt") true] in
  let request := request ++ [Build_RemoveRequest (dir // "delete-on-destroy.txt") true] in
  if negb is_projection
  then request ++ [Build_RemoveRequest (dir // "txn_version.txt") true]
  else request.

Definition clearDirectory (dir : string) (can_remove_shared_data : bool)
    (names_not_to_remove : NameSet) (checksums : MergeTreeDataPartChecksums.t)
    (skip_directories : gset string) (is_projection : bool) : M W unit :=
  if MergeTreeDataPartChecksums.empty checksums then
    when is_projection
      (d ← ask id;
       LOG Error "Cannot quickly remove directory {} by removing files; fallback to recursive removal. Reason: checksums.txt is missing"
           [fullPath d dir]);;
    (* If the part is not completely written, we cannot use fast path by listing files. *)
    call (RemoveSharedRecursive (dir // "") (negb can_remove_shared_data) names_not_to_remove)
  else
    try_catch
      (* Remove each expected file in directory, then remove directory itself. *)
      (let request := clearDirectory_request dir checksums skip_directories is_projection in
       call (RemoveSharedFiles request (negb can_remove_shared_data) names_not_to_remove);;
       call (RemoveDirectory dir))
      (catch_all (λ e,
         d ← ask id;
         LOG Error "Cannot quickly remove directory {} by removing files; fallback to recursive removal. Reason: {}"
             [fullPath d dir; exn_what e];;
         call (RemoveSharedRecursive (dir // "") (negb can_remove_shared_data) names_not_to_remove))).

(** The first half of [remove]: clear a stale [delete_tmp_] sibling, then
    move the part there.  The answer is [false] when the method has already
    returned because the part directory was gone. *)
Definition remove_rename_to_delete_tmp (this : DataPartStorageOnDisk)
    (can_remove_shared_data : bool) (names_not_to_remove : NameSet) : M W bool :=
  let from := root_path this // part_dir this in
  let to := root_path this // ("delete_tmp_" +:+ part_dir this) in
  to_exists ← ask (λ d, disk_exists d to);
  when to_exists
    (d ← ask id;
     LOG Warning "Directory {} (to which part must be renamed before removing) already exists. Most likely this is due to unclean restart or race condition. Removing it."
         [fullPath d to];;
     try_catch
       (call (RemoveSharedRecursive (to // "") (negb can_remove_shared_data) names_not_to_remove))
       (catch_all (λ e,
          d ← ask id;
          LOG Error "Cannot recursively remove directory {}. Exception: {}" [fullPath d to; exn_what e];;
          throw e)));;
  try_catch
    (call (MoveDirectory from to);; ret true)
    (catch_filesystem_error (λ code,
       match code with
       | no_such_file_or_directory =>
           d ← ask id;
           LOG Error "Directory {} (part to remove) doesn't exist or one of nested files has gone. Most likely this is due to manual removing. This should be discouraged. Ignoring."
               [fullPath d to];;
           ret false
       | _ => throw (FilesystemError code)
       end)).

(** Record existing projection directories so we don't remove them twice. *)
Definition projection_directories (projections : list ProjectionChecksums.t) : gset string :=
  list_to_set (map (λ projection, ProjectionChecksums.name projection +:+ ".proj") projections).

(** The loop of [remove] over the projections of the part. *)
Definition remove_projections (to : string) (can_remove_shared_data : bool)
    (names_not_to_remove : NameSet) (projections : list ProjectionChecksums.t) : M W unit :=
  for_each projections (λ projection,
    let proj_dir_name := ProjectionChecksums.name projection +:+ ".proj" in
    clearDirectory (to // proj_dir_name) can_remove_shared_data names_not_to_remove
      (ProjectionChecksums.checksums projection) ∅ true).

Definition remove (this : DataPartStorageOnDisk) (can_remove_shared_data : bool)
    (names_not_to_remove : NameSet) (checksums : MergeTreeDataPartChecksums.t)
    (projections : list ProjectionChecksums.t) : M W unit :=
  let to := root_path this // ("delete_tmp_" +:+ part_dir this) in
  moved ← remove_rename_to_delete_tmp this can_remove_shared_data names_not_to_remove;
  if moved : bool then
    remove_projections to can_remove_shared_data names_not_to_remove projections;;
    clearDirectory to can_remove_shared_data names_not_to_remove checksums
      (projection_directories projections) false
  else ret ().

(** *** Version metadata *)

Section Version.
Context `{!TxSentinels} `{!VersionCodec}.

Definition writeVersionMetadata (this : DataPartStorageOnDisk)
    (version : VersionMetadata) (fsync_part_dir : bool) : M W unit :=
  let path := root_path this // part_dir this // "txn_version.txt" in
  try_catch
    (call (WriteFile (path +:+ ".tmp") Rewrite (version_write version));;
     when fsync_part_dir (call (GetDirectorySyncGuard (getFullRelativePath this)));;
     call (ReplaceFile (path +:+ ".tmp") path))
    (catch_all (λ e,
       try_catch
         (tmp_exists ← ask (λ d, disk_exists d (path +:+ ".tmp"));
          when tmp_exists (call (RemoveFile (path +:+ ".tmp"))))
         (catch_all (λ e', LOG Error "DataPartStorageOnDisk" [exn_what e']));;
       throw e)).

Definition openForReading (d : D) (path : string) : Res string :=
  match disk_getFileSize d path with
  | Ok file_size => disk_readFile d path
  | Exc e => Exc e
  end.

Definition remove_tmp_file (tmp_version_file_name : string) : M W unit :=
  last_modified ← query (λ d, disk_getLastModified d tmp_version_file_name);
  content ← query (λ d, openForReading d tmp_version_file_name);
  LOG Warning "Found file {} that was last modified on {}, has size {} and the following content: {}"
      [tmp_version_file_name; toString (Z.to_nat last_modified);
       toString (String.length content); content];;
  call (RemoveFile tmp_version_file_name).

(** [version] is an out-parameter: the method runs on the pair of the
    caller's object and the world. *)
Definition loadVersionMetadata (this : DataPartStorageOnDisk) : M (VersionMetadata * W) unit :=
  let version_file_name := root_path this // part_dir this // "txn_version.txt" in
  let tmp_version_file_name := version_file_name +:+ ".tmp" in
  version_exists ← on_snd (ask (λ d, disk_exists d version_file_name));
  if version_exists : bool then
    buf ← on_snd (query (λ d, openForReading d version_file_name));
    on_fst (version_read buf);;
    tmp_exists ← on_snd (ask (λ d, disk_exists d tmp_version_file_name));
    when tmp_exists (on_snd (remove_tmp_file tmp_version_file_name))
  else
    tmp_exists ← on_snd (ask (λ d, disk_exists d tmp_version_file_name));
    if negb tmp_exists then
      (* Case 1. *)
      on_fst (setCreationTID PrehistoricTID);;
      on_fst (set_creation_csn PrehistoricCSN)
    else
      (* Case 2. *)
      on_fst (setCreationTID DummyTID);;
      on_fst (set_creation_csn RolledBackCSN);;
      on_snd (remove_tmp_file tmp_version_file_name).
End Version.

Definition writeDeleteOnDestroyMarker (this : DataPartStorageOnDisk) : M W unit :=
  let marker_path := root_path this // part_dir this // "delete-on-destroy.txt" in
  try_catch
    (call (CreateFile marker_path))
    (catch_poco (λ e,
       d ← ask id;
       LOG Error "{} (while creating DeleteOnDestroy marker: {})" [exn_what e; fullPath d marker_path])).

(** *** rename

    The method rewrites [root_path] and [part_dir] of its own object, so it
    runs on the pair of the object and the world.  [now] is the value of
    [time(nullptr)]. *)
Definition rename (new_relative_path : string) (remove_new_dir_if_exists : bool)
    (fsync_part_dir : bool) (now : Z) : M (DataPartStorageOnDisk * W) unit :=
  this ← get_fst;
  part_exists ← on_snd (exists_ this);
  if negb part_exists then throw (DBException ErrorCodes.FILE_DOESNT_EXIST)
  else
    let new_path := root_path this // new_relative_path in
    if negb (has_filename new_path) then throw (DBException ErrorCodes.LOGICAL_ERROR)
    else
      let to := root_path this // new_relative_path // "" in
      to_exists ← on_snd (ask (λ d, disk_exists d to));
      (if to_exists : bool then
         if remove_new_dir_if_exists then
           files ← on_snd (query (λ d, disk_listFiles d to));
           d ← on_snd (ask id);
           on_snd (LOG Warning "Part directory {} already exists and contains {} files. Removing it."
                       [fullPath d to; toString (length files)]);;
           on_snd (call (RemoveRecursive to))
         else throw (DBException ErrorCodes.DIRECTORY_ALREADY_EXISTS)
       else ret ());;
      let from := getFullRelativePath this in
      on_snd (call (SetLastModified from now));;
      on_snd (call (MoveDirectory from to));;
      put_fst {| root_path := remove_filename new_path; part_dir := filename new_path |};;
      this ← get_fst;
      when fsync_part_dir (on_snd (call (GetDirectorySyncGuard (getFullRelativePath this)))).


(** *** Vocabulary of the statements

    Nothing below is called by the storage; these definitions name what the
    properties further down talk about. *)

Definition collision_warning (res : string) : LogLine :=
  Build_LogLine Warning
    "Directory {} (to detach to) already exists. Will detach to directory with '_tryN' suffix."
    [res].

(** The request as the specification words it: the files that the manifest
    enumerates, except the names recorded as projection directories; then
    [checksums.txt] and [columns.txt], which must be there; then the files
    whose absence is tolerated. *)
Definition targeted_request (dir : string) (checksums : MergeTreeDataPartChecksums.t)
    (skip_directories : gset string) (is_projection : bool) : list RemoveRequest :=
  ((λ file, Build_RemoveRequest (dir // file) false)
     <$> filter (λ file, file ∉ skip_directories) (MergeTreeDataPartChecksums.files checksums).*1)
  ++ [Build_RemoveRequest (dir // "checksums.txt") false;
      Build_RemoveRequest (dir // "columns.txt") false;
      Build_RemoveRequest (dir // "default_compression_codec.txt") true;
      Build_RemoveRequest (dir // "delete-on-destroy.txt") true]
  ++ (if is_projection then [] else [Build_RemoveRequest (dir // "txn_version.txt") true]).

(** What [clearDirectory] does once the fast path has failed. *)
Definition recursive_fallback (dir : string) (can_remove_shared_data : bool)
    (names_not_to_remove : NameSet) (e : exn) : M W unit :=
  λ w, let '(r, d) := disk_call (RemoveSharedRecursive (dir // "")
                                   (negb can_remove_shared_data) names_not_to_remove) (disk w) in
       (r, Build_World d
             (trace w ++ [RemoveSharedRecursive (dir // "")
                            (negb can_remove_shared_data) names_not_to_remove])
             (logged w ++ [Build_LogLine Error
                "Cannot quickly remove directory {} by removing files; fallback to recursive removal. Reason: {}"
                [fullPath (disk w) dir; exn_what e]])).

(** The protocol that [rename] follows once the destination is free. *)
Definition rename_move_protocol (this : DataPartStorageOnDisk) (new_relative_path : string)
    (fsync_part_dir : bool) (now : Z) : M (DataPartStorageOnDisk * W) unit :=
  let new_path := root_path this // new_relative_path in
  let to := root_path this // new_relative_path // "" in
  on_snd (call (SetLastModified (getFullRelativePath this) now));;
  on_snd (call (MoveDirectory (getFullRelativePath this) to));;
  put_fst {| root_path := remove_filename new_path; part_dir := filename new_path |};;
  when fsync_part_dir
    (on_snd (call (GetDirectorySyncGuard (remove_filename new_path // filename new_path // "")))).

Section VersionStatements.
Context `{!TxSentinels} `{!VersionCodec}.

(** The two sentinel states, as updates of the caller's object. *)
Definition Prehistoric (version : VersionMetadata) : VersionMetadata :=
  {| creation_tid := PrehistoricTID; removal_tid := removal_tid version;
     creation_csn := PrehistoricCSN; removal_csn := removal_csn version |}.

Definition RolledBack (version : VersionMetadata) : VersionMetadata :=
  {| creation_tid := DummyTID; removal_tid := removal_tid version;
     creation_csn := RolledBackCSN; removal_csn := removal_csn version |}.

(** The assumption on the codec, whose code is not at hand: parsing what
    [write] produced for [version] into the object [into] succeeds and
    yields the creation fields of [version]. *)
Definition reads_back_creation (version into : VersionMetadata) : Prop :=
  ∃ loaded,
    version_read (version_write version) into = (Ok (), loaded)
    ∧ creation_tid loaded = creation_tid version
    ∧ creation_csn loaded = creation_csn version.

End VersionStatements.

End Storage.

(** ** An in-memory disk *)

Module MemDisk.

(** Modelled from the spec: the disk collaborator ([IDisk] and its local
    implementation are not among the sources at hand).  Section 6 of the
    specification lists it as a path-addressable store with POSIX-like
    semantics; this is such a store, kept as a finite map from the components
    of a path to the file or directory found there.  The root directory is
    implicit.  A path is read by its components alone: [.] and [..] are names
    like any other and there are no links, so the store answers as a POSIX
    disk does on the paths that have no such component. *)
Inductive node :=
| File (content : string) (mtime : Z)
| Directory (mtime : Z).

#[global] Instance node_eq_dec : EqDecision node.
Proof. solve_decision. Defined.

Abbreviation key := (list string).

Definition emit (cur : string) : key :=
  if String.eqb cur "" then [] else [cur].

Fixpoint components_go (cur : string) (s : string) : key :=
  match s with
  | EmptyString => emit cur
  | String c s' =>
      if Ascii.eqb c slash then emit cur ++ components_go "" s'
      else components_go (cur +:+ String c "") s'
  end.

(** A path names the same node whatever its empty components (doubled or
    trailing separators) are. *)
Definition components (p : string) : key := components_go "" p.

Fixpoint strip_prefix (p k : key) : option key :=
  match p, k with
  | [], _ => Some k
  | x :: p', y :: k' => if decide (x = y) then strip_prefix p' k' else None
  | _ :: _, [] => None
  end.

(** [k] is [p] or lies below it. *)
Definition under (p k : key) : bool :=
  match strip_prefix p k with Some _ => true | None => false end.

Definition strictly_under (p k : key) : bool :=
  match strip_prefix p k with Some (_ :: _) => true | _ => false end.

Definition overlapping (p q : key) : bool := under p q || under q p.

Definition parent (k : key) : key := removelast k.

Fixpoint prefixes (k : key) : list key :=
  match k with
  | [] => []
  | x :: k' => [x] :: map (cons x) (prefixes k')
  end.

Definition node_at (m : gmap key node) (k : key) : option node :=
  match k with
  | [] => Some (Directory 0)
  | _ :: _ => m !! k
  end.

Definition is_dir (m : gmap key node) (k : key) : bool :=
  match node_at m k with Some (Directory _) => true | _ => false end.

Definition is_file (m : gmap key node) (k : key) : bool :=
  match node_at m k with Some (File _ _) => true | _ => false end.

Definition present (m : gmap key node) (k : key) : bool :=
  match node_at m k with Some _ => true | None => false end.

Definition has_children (m : gmap key node) (k : key) : bool :=
  existsb (λ kv, strictly_under k kv.1) (map_to_list m).

Definition set_mtime (t : Z) (n : node) : node :=
  match n with
  | File c _ => File c t
  | Directory _ => Directory t
  end.

(** Exchange the subtrees below two unrelated keys; on related keys, do
    nothing.  Either way the function is its own inverse. *)
Definition retarget (p q : key) (k : key) : key :=
  if overlapping p q then k
  else match strip_prefix p k with
       | Some s => q ++ s
       | None => match strip_prefix q k with
                 | Some s => p ++ s
                 | None => k
                 end
       end.

Definition ok (m : gmap key node) : Res unit * gmap key node := (Ok (), m).
Definition fail (e : exn) (m : gmap key node) : Res unit * gmap key node := (Exc e, m).

(** *** Queries *)

Definition exists_ (m : gmap key node) (p : string) : bool :=
  present m (components p).

Definition getLastModified (m : gmap key node) (p : string) : Res Z :=
  match node_at m (components p) with
  | Some (File _ t) | Some (Directory t) => Ok t
  | None => Exc (PocoException "Cannot stat file")
  end.

Definition getFileSize (m : gmap key node) (p : string) : Res N :=
  match node_at m (components p) with
  | Some (File c _) => Ok (N.of_nat (String.length c))
  | _ => Exc (PocoException "Cannot stat file")
  end.

Definition readFile (m : gmap key node) (p : string) : Res string :=
  match node_at m (components p) with
  | Some (File c _) => Ok c
  | _ => Exc (PocoException "Cannot open file")
  end.

Definition listFiles (m : gmap key node) (p : string) : Res (list string) :=
  if is_dir m (components p) then
    Ok (omap (λ kv, match strip_prefix (components p) kv.1 with
                    | Some [name] => Some name
                    | _ => None
                    end) (map_to_list m))
  else Exc (FilesystemError not_a_directory).

(** *** Mutating calls *)

Definition createFile (k : key) (m : gmap key node) : Res unit * gmap key node :=
  if is_dir m (parent k) && negb (present m k)
  then ok (<[k := File "" 0]> m)
  else fail (PocoException "Cannot create file") m.

Definition writeFile (k : key) (mode : WriteMode) (content : string)
    (m : gmap key node) : Res unit * gmap key node :=
  if is_dir m (parent k) then
    match node_at m k with
    | Some (Directory _) => fail (PocoException "Cannot open file") m
    | Some (File old t) =>
        ok (<[k := File (match mode with
                         | Rewrite => content
                         | Append => old +:+ content
                         end) t]> m)
    | None => ok (<[k := File content 0]> m)
    end
  else fail (PocoException "Cannot open file") m.

Definition replaceFile (from to : key) (m : gmap key node) : Res unit * gmap key node :=
  match node_at m from with
  | Some (File c t) =>
      if is_dir m (parent to) && negb (is_dir m to)
      then ok (<[to := File c t]> (delete from m))
      else fail (FilesystemError is_a_directory) m
  | _ => fail (FilesystemError no_such_file_or_directory) m
  end.

Definition removeFile (k : key) (m : gmap key node) : Res unit * gmap key node :=
  if is_file m k then ok (delete k m)
  else fail (PocoException "Cannot remove file") m.

Definition removeFileIfExists (k : key) (m : gmap key node) : Res unit * gmap key node :=
  match node_at m k with
  | None => ok m
  | Some (File _ _) => ok (delete k m)
  | Some (Directory _) => fail (PocoException "Cannot remove file") m
  end.

Definition removeDirectory (k : key) (m : gmap key node) : Res unit * gmap key node :=
  if is_dir m k && negb (has_children m k) then ok (delete k m)
  else fail (PocoException "Cannot remove directory") m.

Definition removeRecursive (k : key) (m : gmap key node) : Res unit * gmap key node :=
  ok (filter (λ kv, under k kv.1 = false) m).

(** The default [IDisk::removeSharedFiles]: one removal per request, in
    order; a local disk has no shared data to keep. *)
Fixpoint removeSharedFiles (request : list RemoveRequest)
    (m : gmap key node) : Res unit * gmap key node :=
  match request with
  | [] => ok m
  | r :: request' =>
      match (if if_exists r then removeFileIfExists else removeFile) (components (path r)) m with
      | (Ok _, m') => removeSharedFiles request' m'
      | (Exc e, m') => (Exc e, m')
      end
  end.

(** A rename: the source must exist, the target must not. *)
Definition moveDirectory (from to : key) (m : gmap key node) : Res unit * gmap key node :=
  if negb (present m from) then fail (FilesystemError no_such_file_or_directory) m
  else if present m to then fail (FilesystemError directory_not_empty) m
  else if overlapping from to then fail (FilesystemError io_error) m
  else if negb (is_dir m (parent to)) then fail (FilesystemError no_such_file_or_directory) m
  else ok (kmap (retarget from to) (filter (λ kv, under to kv.1 = false) m)).

Definition setLastModified (k : key) (t : Z) (m : gmap key node) : Res unit * gmap key node :=
  if present m k then ok (alter (set_mtime t) k m)
  else fail (PocoException "Cannot set modification time") m.

(** The directories that [createDirectories] may add. *)
Definition dirs (k : key) : gmap key node :=
  list_to_map ((λ p, (p, Directory 0)) <$> prefixes k).

Definition createDirectories (k : key) (m : gmap key node) : Res unit * gmap key node :=
  if existsb (is_file m) (prefixes k) then fail (FilesystemError not_a_directory) m
  else ok (m ∪ dirs k).

(** The contents of directory [from] appear below [to], which is created
    when missing. *)
Definition copy (from to : key) (m : gmap key node) : Res unit * gmap key node :=
  if is_dir m from && negb (overlapping from to) then
    match createDirectories to m with
    | (Ok _, m') =>
        ok (kmap (retarget from to) (filter (λ kv, strictly_under from kv.1 = true) m) ∪ m')
    | (Exc e, m') => (Exc e, m')
    end
  else fail (FilesystemError no_such_file_or_directory) m.

(** Modelled from the spec: the mutating methods of [IDisk] (section 6),
    whose implementations are not among the sources at hand, dispatched on
    the reified call. *)
Definition run (c : Call) (m : gmap key node) : Res unit * gmap key node :=
  match c with
  | CreateFile p => createFile (components p) m
  | WriteFile p mode content => writeFile (components p) mode content m
  | ReplaceFile from to => replaceFile (components from) (components to) m
  | RemoveFile p => removeFile (components p) m
  | RemoveFileIfExists p => removeFileIfExists (components p) m
  | RemoveDirectory p => removeDirectory (components p) m
  | RemoveRecursive p => removeRecursive (components p) m
  | RemoveSharedRecursive p _ _ => removeRecursive (components p) m
  | RemoveSharedFiles request _ _ => removeSharedFiles request m
  | MoveDirectory from to => moveDirectory (components from) (components to) m
  | SetLastModified p t => setLastModified (components p) t m
  | CreateDirectories p => createDirectories (components p) m
  | Copy from to => copy (components from) (components to) m
  | GetDirectorySyncGuard p =>
      if is_dir m (components p) then ok m
      else fail (PocoException "Cannot open directory") m
  end.

(** Modelled from the spec: an [IDisk] (section 6) backed by the store
    above. *)
#[global] Instance mem_disk : IDisk (gmap key node) := {
  disk_getPath := λ _, "/";
  disk_exists := exists_;
  disk_getLastModified := getLastModified;
  disk_getFileSize := getFileSize;
  disk_readFile := readFile;
  disk_listFiles := listFiles;
  disk_call := run
}.

(** Every node sits in a directory. *)
Definition well_formed (m : gmap key node) : bool :=
  forallb (λ kv, is_dir m (parent kv.1)) (map_to_list m).

(** What a directory holds at a path relative to it. *)
Definition entry (m : gmap key node) (dir : string) (rel : key) : option node :=
  m !! (components dir ++ rel).

(** A world on this disk with nothing called or logged yet. *)
Definition fresh (m : gmap key node) : World (gmap key node) := Build_World m [] [].

(** Build a disk from the listed directories and files. *)
Definition of_list (dirs : list string) (fs : list (string * string)) : gmap key node :=
  list_to_map (((λ d, (components d, Directory 0)) <$> dirs)
               ++ ((λ f, (components f.1, File f.2 0)) <$> fs)).

End MemDisk.


(** * The rest of the storage interface *)

(** ** changeRootPath *)

(** [std::string::back], for a string that is not empty. *)
Fixpoint back (s : string) : option ascii :=
  match s with
  | EmptyString => None
  | String c s' =>
      match s' with
      | EmptyString => Some c
      | String _ _ => back s'
      end
  end.

(** [s.substr(pos, n)] with [pos <= s.size()]: the count is cut at the end
    of the string. *)
Definition substr (pos n : nat) (s : string) : string := String.substring pos n s.

(** [s.substr(pos)] with [pos <= s.size()]. *)
Definition substr_from (pos : nat) (s : string) : string :=
  String.substring pos (String.length s - pos) s.

(** The method rewrites [root_path] of its own object and talks to no
    disk. *)
Definition changeRootPath (from_root to_root : string) : M DataPartStorageOnDisk unit :=
  λ this,
    let prefix_size := String.length from_root in
    let prefix_size :=
      if (0 <? prefix_size) && bool_decide (back from_root = Some slash)
      then prefix_size - 1 else prefix_size in
    if (String.length (root_path this) <? prefix_size)
       || negb (String.eqb (substr 0 prefix_size from_root)
                           (substr 0 prefix_size (root_path this)))
    then throw (DBException ErrorCodes.LOGICAL_ERROR) this
    else
      let dst_size := String.length to_root in
      let dst_size :=
        if (0 <? dst_size) && bool_decide (back to_root = Some slash)
        then dst_size - 1 else dst_size in
      (Ok (), {| root_path := substr 0 dst_size to_root
                              +:+ substr_from prefix_size (root_path this);
                 part_dir := part_dir this |}).

(** [setRelativePath] *)
Definition setRelativePath (path : string) : M DataPartStorageOnDisk unit :=
  λ this, (Ok (), {| root_path := root_path this; part_dir := path |}).

(** [getProjection]: the storage of the projection directory [name] of this
    part. *)
Definition getProjection (this : DataPartStorageOnDisk) (name : string)
    : DataPartStorageOnDisk :=
  {| root_path := root_path this // part_dir this; part_dir := name |}.

(** ** More of the disk and of the codecs *)

(** Two more methods of [IDisk]: the query [isFile], and [moveFile], which
    is not among the reified calls, so that a run does not record it in its
    trace. *)
Class IDiskMore (D : Type) := {
  disk_isFile : D → string → bool;
  disk_moveFile : string → string → D → Res unit * D
}.

(** A [NamesAndTypesList], as the names of the columns and of their types. *)
Abbreviation NamesAndTypesList := (list (string * string)).

(** [MergeTreeDataPartChecksums::write] and [NamesAndTypesList::writeText],
    taken as given: each renders its value as the bytes of a file. *)
Class PartCodec := {
  checksums_write : MergeTreeDataPartChecksums.t → string;
  columns_writeText : NamesAndTypesList → string
}.

(** [VersionMetadata::WhichCSN] *)
Inductive WhichCSN := CREATION | REMOVAL.

(** [VersionMetadata::writeCSN] and [VersionMetadata::writeRemovalTID],
    taken as given: each renders one record of the version file. *)
Class VersionRecordCodec := {
  version_writeCSN : VersionMetadata → WhichCSN → string;
  version_writeRemovalTID : VersionMetadata → bool → string
}.

(** [UInt64] addition. *)
Definition UInt64_add (a b : N) : N := ((a + b) mod 2 ^ 64)%N.

Section FurtherMethods.
Context {D : Type} `{!IDisk D}.

Abbreviation W := (World D).

(** *** Markers and version records *)

Definition removeDeleteOnDestroyMarker (this : DataPartStorageOnDisk) : M W unit :=
  let delete_on_destroy_file_name :=
    root_path this // part_dir this // "delete-on-destroy.txt" in
  call (RemoveFileIfExists delete_on_destroy_file_name).

Definition removeVersionMetadata (this : DataPartStorageOnDisk) : M W unit :=
  let version_file_name := root_path this // part_dir this // "txn_version.txt" in
  call (RemoveFileIfExists version_file_name).

Section VersionRecords.
Context `{!VersionRecordCodec}.

(** Small enough appends to file are usually atomic, so we append new
    metadata instead of rewriting file to reduce number of fsyncs. *)
Definition appendCSNToVersionMetadata (this : DataPartStorageOnDisk)
    (version : VersionMetadata) (which_csn : WhichCSN) : M W unit :=
  let version_file_name := root_path this // part_dir this // "txn_version.txt" in
  call (WriteFile version_file_name Append (version_writeCSN version which_csn)).

(** The [fsync] that is skipped when [clear] holds has no counterpart in
    the disk state. *)
Definition appendRemovalTIDToVersionMetadata (this : DataPartStorageOnDisk)
    (version : VersionMetadata) (clear : bool) : M W unit :=
  let version_file_name := root_path this // part_dir this // "txn_version.txt" in
  call (WriteFile version_file_name Append (version_writeRemovalTID version clear)).

End VersionRecords.

(** *** Checksums and columns *)

Section WithMoreDisk.
Context `{!IDiskMore D}.

Definition move_file (from to : string) : M W unit :=
  λ w, let '(r, d) := disk_moveFile from to (disk w) in
       (r, Build_World d (trace w) (logged w)).

Section PartFiles.
Context `{!PartCodec}.

Definition writeChecksums (this : DataPartStorageOnDisk)
    (checksums : MergeTreeDataPartChecksums.t) : M W unit :=
  let path := root_path this // part_dir this // "checksums.txt" in
  try_catch
    (call (WriteFile (path +:+ ".tmp") Rewrite (checksums_write checksums));;
     move_file (path +:+ ".tmp") path)
    (catch_all (λ e,
       try_catch
         (tmp_exists ← ask (λ d, disk_exists d (path +:+ ".tmp"));
          when tmp_exists (call (RemoveFile (path +:+ ".tmp"))))
         (catch_all (λ e', LOG Error "DataPartStorageOnDisk" [exn_what e']));;
       throw e)).

Definition writeColumns (this : DataPartStorageOnDisk)
    (columns : NamesAndTypesList) : M W unit :=
  let path := root_path this // part_dir this // "columns.txt" in
  try_catch
    (call (WriteFile (path +:+ ".tmp") Rewrite (columns_writeText columns));;
     move_file (path +:+ ".tmp") path)
    (catch_all (λ e,
       try_catch
         (tmp_exists ← ask (λ d, disk_exists d (path +:+ ".tmp"));
          when tmp_exists (call (RemoveFile (path +:+ ".tmp"))))
         (catch_all (λ e', LOG Error "DataPartStorageOnDisk" [exn_what e']));;
       throw e)).

End PartFiles.

(** *** Size on disk *)

(** The recursion of [calculateTotalSizeOnDiskImpl] follows the directory
    tree, which the disk decides; [fuel] bounds its depth, and [None] means
    that the bound was hit. *)
Fixpoint calculateTotalSizeOnDiskImpl (fuel : nat) (d : D) (from : string)
    : option (Res N) :=
  match fuel with
  | 0 => None
  | S fuel =>
      if disk_isFile d from then Some (disk_getFileSize d from)
      else
        match disk_listFiles d from with
        | Exc e => Some (Exc e)
        | Ok files =>
            fold_left
              (λ (res : option (Res N)) file,
                 match res with
                 | Some (Ok res) =>
                     match calculateTotalSizeOnDiskImpl fuel d (from // file) with
                     | Some (Ok size) => Some (Ok (UInt64_add res size))
                     | Some (Exc e) => Some (Exc e)
                     | None => None
                     end
                 | Some (Exc e) => Some (Exc e)
                 | None => None
                 end)
              files (Some (Ok 0%N))
        end
  end.

Definition calculateTotalSizeOnDisk (fuel : nat) (this : DataPartStorageOnDisk) (d : D)
    : option (Res N) :=
  calculateTotalSizeOnDiskImpl fuel d (root_path this // part_dir this).

End WithMoreDisk.

End FurtherMethods.

(** ** The builder *)

Module DataPartStorageBuilderOnDisk.

Record t := { root_path : string; part_dir : string }.

Section Methods.
Context {D : Type} `{!IDisk D}.

Definition readFile (this : t) (path : string) : M (World D) string :=
  query (λ d, disk_readFile d (root_path this // part_dir this // path)).

Definition writeFile (this : t) (path : string) (content : string) : M (World D) unit :=
  call (WriteFile (root_path this // part_dir this // path) Rewrite content).

Definition removeFile (this : t) (path : string) : M (World D) unit :=
  call (RemoveFile (root_path this // part_dir this // path)).

Definition removeRecursive (this : t) : M (World D) unit :=
  call (RemoveRecursive (root_path this // part_dir this)).

Definition removeSharedRecursive (this : t) (keep_in_remote_fs : bool) : M (World D) unit :=
  call (RemoveSharedRecursive (root_path this // part_dir this) keep_in_remote_fs ∅).

Definition getDirectorySyncGuard (this : t) : M (World D) unit :=
  call (GetDirectorySyncGuard (root_path this // part_dir this)).

Definition exists_ (this : t) : M (World D) bool :=
  ask (λ d, disk_exists d (root_path this // part_dir this)).

(** The overload [exists(path)]. *)
Definition exists_path (this : t) (path : string) : M (World D) bool :=
  ask (λ d, disk_exists d (root_path this // part_dir this // path)).

Definition getFullPath (this : t) (d : D) : string :=
  disk_getPath d // root_path this // part_dir this.

Definition getFullRelativePath (this : t) : string :=
  root_path this // part_dir this.

Definition createDirectories (this : t) : M (World D) unit :=
  call (CreateDirectories (root_path this // part_dir this)).

Definition getProjection (this : t) (name : string) : t :=
  {| root_path := root_path this // part_dir this; part_dir := name |}.

Definition getStorage (this : t) : DataPartStorageOnDisk :=
  Build_DataPartStorageOnDisk (root_path this) (part_dir this).

Definition setRelativePath (path : string) : M t unit :=
  λ this, (Ok (), {| root_path := root_path this; part_dir := path |}).

End Methods.

End DataPartStorageBuilderOnDisk.

(** ** The in-memory disk, continued *)

Module MemDiskMore.
Import MemDisk.

(** Modelled from the spec: [IDisk::moveFile] (section 6), whose
    implementation is not among the sources at hand.  A rename of a file that
    does not replace: the source must be a file, the target must not
    exist. *)
Definition moveFile (from to : key) (m : gmap key node) : Res unit * gmap key node :=
  match node_at m from with
  | Some (File c t) =>
      if present m to then fail (FilesystemError file_exists) m
      else if is_dir m (parent to) then ok (<[to := File c t]> (delete from m))
      else fail (FilesystemError no_such_file_or_directory) m
  | _ => fail (FilesystemError no_such_file_or_directory) m
  end.

(** Modelled from the spec: the rest of the [IDisk] (section 6) backed by
    the in-memory store. *)
#[global] Instance mem_disk_more : IDiskMore (gmap key node) := {
  disk_isFile := λ m p, is_file m (components p);
  disk_moveFile := λ from to, moveFile (components from) (components to)
}.

(** The bytes held by the files at or below a key. *)
Definition file_bytes (n : node) : nat :=
  match n with
  | File c _ => String.length c
  | Directory _ => 0
  end.

Definition size_below (m : gmap key node) (k : key) : nat :=
  sum_list_with (λ kv : key * node, if under k kv.1 then file_bytes kv.2 else 0)
                (map_to_list m).

(** The length of the longest key. *)
Definition depth (m : gmap key node) : nat :=
  max_list ((λ kv : key * node, length kv.1) <$> map_to_list m).

(** The name under which an entry is listed in directory [k], if it is. *)
Definition child (k : key) (kv : key * node) : option string :=
  match strip_prefix k kv.1 with
  | Some [name] => Some name
  | _ => None
  end.

(** Names as a directory listing can return them: not empty, and without a
    separator. *)
Definition plain_names (m : gmap key node) : bool :=
  forallb (λ kv, forallb (λ name, no_slash name && negb (String.eqb name "")) kv.1)
          (map_to_list m).

End MemDiskMore.

(** ** Vocabulary of the further statements *)

(** A root path as [changeRootPath] reads it: without one trailing
    separator. *)
Fixpoint without_trailing_slash (s : string) : string :=
  match s with
  | EmptyString => ""
  | String c s' =>
      match s' with
      | EmptyString => if Ascii.eqb c slash then "" else s
      | String _ _ => String c (without_trailing_slash s')
      end
  end.

(** Manifests and projections whose names are relative paths. *)
Definition relative_manifest (checksums : MergeTreeDataPartChecksums.t) : bool :=
  forallb (λ f : string * Checksum, negb (is_absolute f.1))
          (MergeTreeDataPartChecksums.files checksums).

Definition relative_projections (projections : list ProjectionChecksums.t) : bool :=
  forallb (λ projection,
             negb (is_absolute (ProjectionChecksums.name projection))
             && relative_manifest (ProjectionChecksums.checksums projection))
          projections.

(** A path that spells out the node it names: none of its components is
    [.] or [..].  The in-memory disk reads paths by their components alone,
    so it is on such paths that it answers as a POSIX disk does. *)
Definition no_dot_components (p : string) : bool :=
  forallb (λ c, negb (String.eqb c ".") && negb (String.eqb c ".."))
          (MemDisk.components p).

Definition spelled_out_manifest (checksums : MergeTreeDataPartChecksums.t) : bool :=
  forallb (λ f : string * Checksum, no_dot_components f.1)
          (MergeTreeDataPartChecksums.files checksums).

Definition spelled_out_projections (projections : list ProjectionChecksums.t) : bool :=
  forallb (λ projection,
             no_dot_components (ProjectionChecksums.name projection +:+ ".proj")
             && spelled_out_manifest (ProjectionChecksums.checksums projection))
          projections.

Section FurtherVocabulary.
Import MemDisk.
Context `{!TxSentinels} `{!VersionCodec}.

Abbreviation MW := (World (gmap key node)).

(** A file of the part written through its temporary sibling: if the
    method returns, the file holds the new bytes; if it throws, the file is as
    it was; either way no temporary file is left and nothing else has
    changed. *)
Definition written_atomically (path content : string) (w : MW) (res : Res unit * MW) : Prop :=
  (∀ j, j ≠ components path → j ≠ components (path +:+ ".tmp") →
        disk res.2 !! j = disk w !! j)
  ∧ is_file (disk res.2) (components (path +:+ ".tmp")) = false
  ∧ match res.1 with
    | Ok _ => ∃ t, disk res.2 !! components path = Some (File content t)
    | Exc _ => disk res.2 !! components path = disk w !! components path
    end.

(** What appending [record] to the version file written for [version] does:
    the call returns, the file holds the written bytes followed by the
    record, nothing else changes, and [loadVersionMetadata] parses exactly
    these bytes, without touching the world. *)
Definition appends_record (this : DataPartStorageOnDisk) (version into : VersionMetadata)
    (record : string) (w1 : MW) (res : Res unit * MW) : Prop :=
  let path := root_path this // part_dir this // "txn_version.txt" in
  res.1 = Ok ()
  ∧ (∃ t, disk res.2 !! components path
          = Some (File (version_write version +:+ record) t))
  ∧ (∀ j, j ≠ components path → disk res.2 !! j = disk w1 !! j)
  ∧ loadVersionMetadata this (into, res.2)
    = (let '(r, loaded) := version_read (version_write version +:+ record) into in
       (r, (loaded, res.2))).

End FurtherVocabulary.

(** ** Sample parts and disks *)

Module Examples.
Import MemDisk.

(** Sample values for the sentinels. *)
#[export] Instance tx_sentinels : TxSentinels := {|
  PrehistoricTID := {| start_csn := 1; local_tid := 1; host_id := 0 |};
  DummyTID := {| start_csn := 1; local_tid := 2; host_id := 0 |};
  PrehistoricCSN := 1%N;
  RolledBackCSN := 18446744073709551615%N
|}.

(** A sample codec: a line-oriented text rendering, one record a line:
    [creation_tid: a b c], [creation_csn: n], [removal_tid: a b c],
    [removal_csn: n].  A record that is missing leaves its field alone. *)
Definition show_N (n : N) : string := NilEmpty.string_of_uint (N.to_uint n).

Definition read_N (s : string) : option N := N.of_uint <$> NilEmpty.uint_of_string s.

Fixpoint split_on_go (sep : ascii) (cur : string) (s : string) : list string :=
  match s with
  | EmptyString => [cur]
  | String c s' =>
      if Ascii.eqb c sep then cur :: split_on_go sep "" s'
      else split_on_go sep (cur +:+ String c "") s'
  end.

Definition split_on (sep : ascii) (s : string) : list string := split_on_go sep "" s.

Definition newline : ascii := Ascii.ascii_of_nat 10.

Definition show_tid (tid : TransactionID) : string :=
  show_N (start_csn tid) +:+ " " +:+ show_N (local_tid tid) +:+ " " +:+ show_N (host_id tid).

Definition read_tid (a b c : string) : option TransactionID :=
  a ← read_N a; b ← read_N b; c ← read_N c;
  Some {| start_csn := a; local_tid := b; host_id := c |}.

Definition text_write (version : VersionMetadata) : string :=
  "version: 1"
  +:+ String newline ("creation_tid: " +:+ show_tid (creation_tid version))
  +:+ (if N.eqb (creation_csn version) 0 then ""
       else String newline ("creation_csn: " +:+ show_N (creation_csn version)))
  +:+ (if N.eqb (removal_csn version) 0 then ""
       else String newline ("removal_tid: " +:+ show_tid (removal_tid version))
            +:+ String newline ("removal_csn: " +:+ show_N (removal_csn version))).

Definition read_line (line : string) (version : VersionMetadata) : option VersionMetadata :=
  match split_on " " line with
  | [k; n] =>
      if String.eqb k "version:" then Some version
      else
        n ← read_N n;
        if String.eqb k "creation_csn:" then
          Some {| creation_tid := creation_tid version; removal_tid := removal_tid version;
                  creation_csn := n; removal_csn := removal_csn version |}
        else if String.eqb k "removal_csn:" then
          Some {| creation_tid := creation_tid version; removal_tid := removal_tid version;
                  creation_csn := creation_csn version; removal_csn := n |}
        else None
  | [k; a; b; c] =>
      tid ← read_tid a b c;
      if String.eqb k "creation_tid:" then
        Some {| creation_tid := tid; removal_tid := removal_tid version;
                creation_csn := creation_csn version; removal_csn := removal_csn version |}
      else if String.eqb k "removal_tid:" then
        Some {| creation_tid := creation_tid version; removal_tid := tid;
                creation_csn := creation_csn version; removal_csn := removal_csn version |}
      else None
  | _ => None
  end.

Fixpoint read_lines (lines : list string) : M VersionMetadata unit :=
  match lines with
  | [] => ret ()
  | line :: lines' =>
      λ version,
        match read_line line version with
        | Some version' => read_lines lines' version'
        | None => (Exc (DBException ErrorCodes.LOGICAL_ERROR), version)
        end
  end.

#[export] Instance text_codec : VersionCodec := {|
  version_write := text_write;
  version_read := λ buf, read_lines (split_on newline buf)
|}.

(** A committed part, as in the example scenario of the specification. *)
Definition part : DataPartStorageOnDisk :=
  {| root_path := "store/tbl"; part_dir := "all_1_1_0" |}.

Definition committed : gmap key node :=
  of_list ["store"; "store/tbl"; "store/tbl/all_1_1_0"]
    [("store/tbl/all_1_1_0/data.bin", "0123456789");
     ("store/tbl/all_1_1_0/data.mrk", "01234567");
     ("store/tbl/all_1_1_0/checksums.txt", "checksums");
     ("store/tbl/all_1_1_0/columns.txt", "columns");
     ("store/tbl/all_1_1_0/delete-on-destroy.txt", "")].

Definition manifest : MergeTreeDataPartChecksums.t :=
  MergeTreeDataPartChecksums.Build_t
    [("data.bin", Build_Checksum 100 (1, 1)%N); ("data.mrk", Build_Checksum 8 (2, 2)%N)].

Definition no_manifest : MergeTreeDataPartChecksums.t :=
  MergeTreeDataPartChecksums.Build_t [].

(** A part that no longer exists on the disk. *)
Definition lost_part : DataPartStorageOnDisk :=
  {| root_path := "store/tbl"; part_dir := "all_9_9_0" |}.

(** The committed part next to a stale copy of its detached name. *)
Definition with_stale_detached : gmap key node :=
  of_list ["store"; "store/tbl"; "store/tbl/all_1_1_0"; "store/tbl/detached";
           "store/tbl/detached/all_1_1_0"]
    [("store/tbl/all_1_1_0/data.bin", "0123456789");
     ("store/tbl/all_1_1_0/delete-on-destroy.txt", "");
     ("store/tbl/detached/all_1_1_0/stale.bin", "old")].

(** A part whose version file was being written when the server stopped. *)
Definition interrupted : gmap key node :=
  of_list ["store"; "store/tbl"; "store/tbl/all_1_1_0"]
    [("store/tbl/all_1_1_0/txn_version.txt.tmp", "version: 1")].

(** A part that was still being written: no checksums, no columns. *)
Definition unfinished_part : DataPartStorageOnDisk :=
  {| root_path := "store/tbl"; part_dir := "tmp_insert_all_3_3_0" |}.

Definition unfinished : gmap key node :=
  of_list ["store"; "store/tbl"; "store/tbl/tmp_insert_all_3_3_0"]
    [("store/tbl/tmp_insert_all_3_3_0/data.bin", "01234")].


(** The part was detached as broken twice before. *)
Definition detached_twice : gmap key node :=
  of_list ["store"; "store/tbl"; "store/tbl/all_1_1_0"; "store/tbl/detached";
           "store/tbl/detached/broken_all_1_1_0"; "store/tbl/detached/broken_all_1_1_0_try1"]
    [].

Definition version : VersionMetadata :=
  {| creation_tid := {| start_csn := 42; local_tid := 7; host_id := 3 |};
     removal_tid := {| start_csn := 0; local_tid := 0; host_id := 0 |};
     creation_csn := 43%N; removal_csn := 0%N |}.

Definition blank : VersionMetadata :=
  {| creation_tid := {| start_csn := 0; local_tid := 0; host_id := 0 |};
     removal_tid := {| start_csn := 0; local_tid := 0; host_id := 0 |};
     creation_csn := 0%N; removal_csn := 0%N |}.

End Examples.

(** ** More sample data *)

Module MoreExamples.
Import MemDisk Examples.

(** A disk on which everything seems to exist and which refuses every
    call. *)
#[export] Instance refusing_disk : IDisk unit := {|
  disk_getPath := λ _, "/";
  disk_exists := λ _ _, true;
  disk_getLastModified := λ _ _, Ok 0%Z;
  disk_getFileSize := λ _ _, Ok 0%N;
  disk_readFile := λ _ _, Ok "";
  disk_listFiles := λ _ _, Ok [];
  disk_call := λ _ d, (Exc (PocoException "Read-only file system"), d)
|}.

(** The records of the sample text codec. *)
#[export] Instance text_record_codec : VersionRecordCodec := {|
  version_writeCSN := λ version which_csn,
    String newline
      match which_csn with
      | CREATION => "creation_csn: " +:+ show_N (creation_csn version)
      | REMOVAL => "removal_csn: " +:+ show_N (removal_csn version)
      end;
  version_writeRemovalTID := λ version clear,
    String newline
      ("removal_tid: "
       +:+ show_tid (if clear then {| start_csn := 0; local_tid := 0; host_id := 0 |}
                     else removal_tid version))
|}.

(** The sample version, once the part has been removed by a transaction. *)
Definition removed_version : VersionMetadata :=
  {| creation_tid := {| start_csn := 42; local_tid := 7; host_id := 3 |};
     removal_tid := {| start_csn := 50; local_tid := 9; host_id := 3 |};
     creation_csn := 43%N; removal_csn := 51%N |}.

(** A part with a projection, next to another part. *)
Definition with_projection : gmap key node :=
  of_list ["store"; "store/tbl"; "store/tbl/all_1_1_0"; "store/tbl/all_1_1_0/p.proj";
           "store/tbl/all_2_2_0"]
    [("store/tbl/all_1_1_0/data.bin", "0123456789");
     ("store/tbl/all_1_1_0/checksums.txt", "checksums");
     ("store/tbl/all_1_1_0/columns.txt", "columns");
     ("store/tbl/all_1_1_0/p.proj/data.bin", "012");
     ("store/tbl/all_1_1_0/p.proj/checksums.txt", "sums");
     ("store/tbl/all_1_1_0/p.proj/columns.txt", "cols");
     ("store/tbl/all_2_2_0/data.bin", "01234")].

Definition projection_manifest : list ProjectionChecksums.t :=
  [ProjectionChecksums.Build_t "p"
     (MergeTreeDataPartChecksums.Build_t [("data.bin", Build_Checksum 3 (3, 3)%N)])].

(** The manifest of that part: its data file and, as the manifest of a
    part with projections does, the directory of its projection. *)
Definition manifest_with_projection : MergeTreeDataPartChecksums.t :=
  MergeTreeDataPartChecksums.Build_t
    [("data.bin", Build_Checksum 10 (1, 1)%N); ("p.proj", Build_Checksum 3 (4, 4)%N)].

(** A manifest that knows only one of the two data files. *)
Definition short_manifest : MergeTreeDataPartChecksums.t :=
  MergeTreeDataPartChecksums.Build_t [("data.bin", Build_Checksum 10 (1, 1)%N)].

Definition builder : DataPartStorageBuilderOnDisk.t :=
  DataPartStorageBuilderOnDisk.Build_t "store/tbl" "all_1_1_0".

End MoreExamples.



(** * Properties *)

(** ** Path algebra *)

Lemma string_app_cons (c : ascii) (s t : string) : String c s +:+ t = String c (s +:+ t).
Proof. reflexivity. Qed.

Lemma string_app_nil_l (t : string) : "" +:+ t = t.
Proof. reflexivity. Qed.

Lemma string_app_nil_r (s : string) : s +:+ "" = s.
Proof. induction s as [|c s IH]; [done | by rewrite string_app_cons, IH]. Qed.

Lemma string_app_assoc (a b c : string) : (a +:+ b) +:+ c = a +:+ (b +:+ c).
Proof. induction a as [|x a IH]; [done | by rewrite !string_app_cons, IH]. Qed.

Lemma after_last_slash_app (a b : string) :
  after_last_slash (a +:+ b) =
    match after_last_slash b with
    | Some f => Some f
    | None => (λ f, f +:+ b) <$> after_last_slash a
    end.
Proof.
  induction a as [|c a IH].
  - rewrite string_app_nil_l. by destruct (after_last_slash b).
  - rewrite string_app_cons. simpl. rewrite IH. destruct (after_last_slash b) as [f|]; [done |].
    destruct (after_last_slash a) as [g|]; simpl; [done |].
    by destruct (Ascii.eqb c slash).
Qed.

Lemma has_filename_false (p : string) :
  has_filename p = false ↔ p = "" ∨ after_last_slash p = Some "".
Proof.
  unfold has_filename, filename. rewrite negb_false_iff, String.eqb_eq.
  destruct (after_last_slash p) as [f|] eqn:E; simpl.
  - split; [intros ->; by right | intros [-> | [= ->]]; [by simpl in E | done]].
  - split; [by left | intros [-> | ?]; done].
Qed.

(** Appending a path that has no last component yields a path that has no
    last component. *)
Lemma path_append_no_filename (p q : string) :
  has_filename q = false → has_filename (p // q) = false.
Proof.
  intros Hq. unfold path_append.
  destruct (is_absolute q); [done |].
  apply has_filename_false in Hq as [-> | Hq].
  - destruct (has_filename p) eqn:Hp.
    + apply has_filename_false. right.
      rewrite after_last_slash_app. reflexivity.
    + by rewrite string_app_nil_r.
  - apply has_filename_false. right.
    destruct (has_filename p);
      rewrite ?after_last_slash_app, Hq; reflexivity.
Qed.

Example path_examples :
  "a" // "b" = "a/b" ∧ "a/" // "b" = "a/b" ∧ "a" // "" = "a/" ∧ "" // "b" = "b"
  ∧ "a" // "/b" = "/b" ∧ filename "a/b" = "b" ∧ filename "a/b/" = ""
  ∧ remove_filename "a/b" = "a/" ∧ has_filename "a/b/" = false
  ∧ has_filename "" = false ∧ toString 7 = "7".
Proof. repeat split; reflexivity. Qed.

(** ** Running monadic code *)

Ltac unfold_monad :=
  unfold mbind, M_bind, mret, M_ret, bind, ret, throw, when, try_catch, catch_all,
    catch_poco, catch_filesystem_error, on_snd, on_fst, get_fst, put_fst in *.

Lemma result_eta {S A} (p : Res A * S) (a : A) : p.1 = Ok a → p = (Ok a, p.2).
Proof. destruct p as [r s]. simpl. by intros ->. Qed.

Lemma bind_Ok {S A B} (m : M S A) (k : A → M S B) (s s' : S) (b : B) :
  (m ≫= k) s = (Ok b, s') → ∃ a s1, m s = (Ok a, s1) ∧ k a s1 = (Ok b, s').
Proof.
  unfold_monad. destruct (m s) as [[a|e] s1]; [eauto | done].
Qed.

Lemma when_Ok {S} (b : bool) (m : M S unit) (s s' : S) :
  when b m s = (Ok (), s') → if b then m s = (Ok (), s') else s' = s.
Proof. destruct b; unfold when, ret; [done | by intros [= ->]]. Qed.

(** A handler that ends in [throw;] never turns a failure into a normal
    return. *)
Lemma try_catch_rethrow_Ok {S A} (body : M S A) (cleanup : exn → M S unit)
    (s s' : S) (a : A) :
  try_catch body (catch_all (λ e, cleanup e;; throw e)) s = (Ok a, s') →
  body s = (Ok a, s').
Proof.
  unfold_monad. destruct (body s) as [[a0|e] s1]; [done |].
  by destruct (cleanup e s1) as [[[]|?] ?].
Qed.

Section Properties.
Context {D : Type} `{!IDisk D}.

Abbreviation W := (World D).

Lemma call_unfold (c : Call) (w : W) :
  call c w = ((disk_call c (disk w)).1,
              Build_World (disk_call c (disk w)).2 (trace w ++ [c]) (logged w)).
Proof. unfold call. by destruct (disk_call c (disk w)). Qed.

Lemma call_Ok (c : Call) (w w' : W) :
  call c w = (Ok (), w') →
  ∃ d, disk_call c (disk w) = (Ok (), d) ∧ w' = Build_World d (trace w ++ [c]) (logged w).
Proof.
  unfold call. destruct (disk_call c (disk w)) as [[[]|e] d]; [| done].
  intros [= <-]. eauto.
Qed.

(** ** rename *)

(** C9.  [rename] looks at the source first: when the part directory does
    not exist it throws [FILE_DOESNT_EXIST] and leaves the storage object and
    the world as they were, whatever the destination is (malformed, already
    present, or fine) and whatever the flags are. *)
Theorem rename_missing_source (this : DataPartStorageOnDisk) (w : W)
    (new_relative_path : string) (remove_new_dir_if_exists fsync_part_dir : bool) (now : Z) :
  disk_exists (disk w) (root_path this // part_dir this) = false →
  rename new_relative_path remove_new_dir_if_exists fsync_part_dir now (this, w)
  = (Exc (DBException ErrorCodes.FILE_DOESNT_EXIST), (this, w)).
Proof.
  intros Hmissing. unfold rename, exists_, ask. unfold_monad.
  simpl. by rewrite Hmissing.
Qed.

(** C8.  For an existing part, a destination whose last component is empty
    makes [rename] throw [LOGICAL_ERROR]; no disk call is issued, the disk is
    untouched, and [root_path] and [part_dir] keep their values. *)
Theorem rename_trailing_slash (this : DataPartStorageOnDisk) (w : W)
    (new_relative_path : string) (remove_new_dir_if_exists fsync_part_dir : bool) (now : Z) :
  disk_exists (disk w) (root_path this // part_dir this) = true →
  has_filename new_relative_path = false →
  rename new_relative_path remove_new_dir_if_exists fsync_part_dir now (this, w)
  = (Exc (DBException ErrorCodes.LOGICAL_ERROR), (this, w)).
Proof.
  intros Hpart Hslash. unfold rename, exists_, ask. unfold_monad.
  simpl. rewrite Hpart. simpl.
  by rewrite (path_append_no_filename _ _ Hslash).
Qed.

(** C7.  When the destination directory already exists: without
    [remove_new_dir_if_exists] the method throws [DIRECTORY_ALREADY_EXISTS]
    and nothing changes, so the source stays in place; with it, the
    destination is listed, removed recursively, and the method carries on
    with the move from the world that the removal left. *)
Theorem rename_destination_exists (this : DataPartStorageOnDisk) (w : W)
    (new_relative_path : string) (fsync_part_dir : bool) (now : Z) :
  let to := root_path this // new_relative_path // "" in
  disk_exists (disk w) (root_path this // part_dir this) = true →
  has_filename (root_path this // new_relative_path) = true →
  disk_exists (disk w) to = true →
  rename new_relative_path false fsync_part_dir now (this, w)
  = (Exc (DBException ErrorCodes.DIRECTORY_ALREADY_EXISTS), (this, w))
  ∧ ∀ files d',
      disk_listFiles (disk w) to = Ok files →
      disk_call (RemoveRecursive to) (disk w) = (Ok (), d') →
      ∃ line,
        rename new_relative_path true fsync_part_dir now (this, w)
        = rename_move_protocol this new_relative_path fsync_part_dir now
            (this, Build_World d' (trace w ++ [RemoveRecursive to]) (logged w ++ [line]))
        ∧ level line = Warning.
Proof.
  intros to Hpart Hname Hto. split.
  - unfold rename, exists_, ask. unfold_monad. simpl.
    rewrite Hpart. simpl. rewrite Hname. simpl. fold to. by rewrite Hto.
  - intros files d' Hlist Hrm. eexists.
    unfold rename, rename_move_protocol, exists_, ask, query, LOG. unfold_monad. simpl.
    rewrite Hpart. simpl. rewrite Hname. simpl. fold to. rewrite Hto, Hlist. simpl.
    rewrite !call_unfold. simpl. rewrite Hrm. simpl. split; [reflexivity | done].
Qed.

(** ** writeDeleteOnDestroyMarker *)

(** C10.  Whatever [createFile] does, short of throwing something that is
    not a [Poco::Exception], [writeDeleteOnDestroyMarker] returns normally.
    It leaves the disk as [createFile] left it (so possibly without the
    marker), records that one call, and logs one error line exactly when
    [createFile] threw. *)
Theorem writeDeleteOnDestroyMarker_swallows (this : DataPartStorageOnDisk) (w : W)
    (r : Res unit) (d' : D) :
  let marker_path := root_path this // part_dir this // "delete-on-destroy.txt" in
  disk_call (CreateFile marker_path) (disk w) = (r, d') →
  (∀ e, r = Exc e → is_poco e = true) →
  ∃ lines,
    writeDeleteOnDestroyMarker this w
    = (Ok (), Build_World d' (trace w ++ [CreateFile marker_path]) (logged w ++ lines))
    ∧ match r with
      | Ok _ => lines = []
      | Exc e => ∃ line, lines = [line] ∧ level line = Error
      end.
Proof.
  intros marker_path Hcreate Hpoco.
  unfold writeDeleteOnDestroyMarker. fold marker_path. unfold_monad.
  rewrite call_unfold, Hcreate. simpl.
  destruct r as [[]|e].
  - exists []. by rewrite app_nil_r.
  - rewrite (Hpoco e eq_refl). unfold ask, LOG; simpl.
    eexists [_]. split; [reflexivity | eauto].
Qed.

(** The handler is selective: an exception outside the Poco hierarchy
    leaves the method. *)
Lemma writeDeleteOnDestroyMarker_propagates (this : DataPartStorageOnDisk) (w : W)
    (e : exn) (d' : D) :
  let marker_path := root_path this // part_dir this // "delete-on-destroy.txt" in
  disk_call (CreateFile marker_path) (disk w) = (Exc e, d') →
  is_poco e = false →
  writeDeleteOnDestroyMarker this w
  = (Exc e, Build_World d' (trace w ++ [CreateFile marker_path]) (logged w)).
Proof.
  intros marker_path Hcreate Hpoco.
  unfold writeDeleteOnDestroyMarker. fold marker_path. unfold_monad.
  by rewrite call_unfold, Hcreate; simpl; rewrite Hpoco.
Qed.


(** ** getRelativePathForPrefix *)

Lemma getRelativePathForPrefix_loop_nil (this : DataPartStorageOnDisk)
    (prefix base res : string) (w : W) :
  getRelativePathForPrefix_loop this prefix base [] res w = (Ok res, w).
Proof. reflexivity. Qed.

Lemma getRelativePathForPrefix_loop_cons (this : DataPartStorageOnDisk)
    (prefix base : string) (try_no : nat) (tries : list nat) (res : string) (w : W) :
  getRelativePathForPrefix_loop this prefix base (try_no :: tries) res w
  = if disk_exists (disk w) (base // candidate this prefix try_no)
    then getRelativePathForPrefix_loop this prefix base tries (candidate this prefix try_no)
           (Build_World (disk w) (trace w)
              (logged w ++ [collision_warning (candidate this prefix try_no)]))
    else (Ok (candidate this prefix try_no), w).
Proof.
  destruct (disk_exists (disk w) (base // candidate this prefix try_no)) eqn:E;
    cbn [getRelativePathForPrefix_loop]; unfold ask, LOG; unfold_monad;
    cbn beta iota; rewrite E; reflexivity.
Qed.

Lemma getRelativePathForPrefix_loop_spec (this : DataPartStorageOnDisk)
    (prefix base : string) (n a : nat) (res : string) (w : W) :
  ∃ i lines,
    a ≤ i ≤ a + n
    ∧ getRelativePathForPrefix_loop this prefix base (seq a (S n)) res w
      = (Ok (candidate this prefix i), Build_World (disk w) (trace w) (logged w ++ lines))
    ∧ (∀ j, a ≤ j < i → disk_exists (disk w) (base // candidate this prefix j) = true)
    ∧ (disk_exists (disk w) (base // candidate this prefix i) = false ∧ length lines = i - a
       ∨ i = a + n ∧ disk_exists (disk w) (base // candidate this prefix i) = true
         ∧ length lines = S n)
    ∧ Forall (λ line, level line = Warning) lines.
Proof.
  revert a res w. induction n as [|n IH]; intros a res w;
    cbn [seq]; rewrite getRelativePathForPrefix_loop_cons;
    destruct (disk_exists (disk w) (base // candidate this prefix a)) eqn:E.
  - exists a. eexists [_]. rewrite getRelativePathForPrefix_loop_nil.
    split; [lia |]. split; [reflexivity |]. split; [intros; lia |].
    split; [right; repeat split; [lia | done] | by repeat constructor].
  - exists a, []. rewrite app_nil_r. destruct w.
    split; [lia |]. split; [reflexivity |]. split; [intros; lia |].
    split; [left; split; [done | simpl; lia] | constructor].
  - match goal with
    | |- context [getRelativePathForPrefix_loop _ _ _ _ ?r ?w'] =>
        destruct (IH (S a) r w') as (i & lines & Hi & Hrun & Hbefore & Hlast & Hwarn)
    end.
    cbn [disk trace logged seq] in *. exists i. eexists (_ :: lines).
    rewrite Hrun, <- app_assoc.
    split; [lia |]. split; [reflexivity |]. split; [| split; [| by constructor]].
    + intros j Hj. destruct (decide (j = a)) as [-> | ?]; [done | apply Hbefore; lia].
    + destruct Hlast as [[? ?] | (? & ? & ?)]; [left | right];
        repeat split; cbn [length]; try done; lia.
  - exists a, []. rewrite app_nil_r. destruct w.
    split; [lia |]. split; [reflexivity |]. split; [intros; lia |].
    split; [left; split; [done | simpl; lia] | constructor].
Qed.

(** C6.  [getRelativePathForPrefix] answers one of the ten names
    [prefix_partdir], [prefix_partdir_try1], ..., [prefix_partdir_try9] (the
    leading [prefix_] is dropped for an empty prefix).  Every name before the
    answer was found on the disk; the answer itself was not found, unless all
    ten names were, in which case the answer is the tenth.  The disk is only
    read, and one warning is logged for each collision. *)
Theorem getRelativePathForPrefix_first_free (this : DataPartStorageOnDisk)
    (prefix : string) (detached : bool) (w : W) :
  let base := if detached then root_path this // "detached" else root_path this in
  let pre := if String.eqb prefix "" then "" else prefix +:+ "_" in
  let occupied i := disk_exists (disk w) (base // candidate this prefix i) in
  candidate this prefix 0 = pre +:+ part_dir this +:+ ""
  ∧ (∀ k, candidate this prefix (S k) = pre +:+ part_dir this +:+ "_try" +:+ toString (S k))
  ∧ ∃ i lines,
      i < 10
      ∧ getRelativePathForPrefix this prefix detached w
        = (Ok (candidate this prefix i), Build_World (disk w) (trace w) (logged w ++ lines))
      ∧ (∀ j, j < i → occupied j = true)
      ∧ (occupied i = false ∧ length lines = i
         ∨ i = 9 ∧ (∀ j, j < 10 → occupied j = true) ∧ length lines = 10)
      ∧ Forall (λ line, level line = Warning) lines.
Proof.
  intros base pre occupied. split; [reflexivity |]. split; [reflexivity |].
  unfold getRelativePathForPrefix. fold base.
  destruct (getRelativePathForPrefix_loop_spec this prefix base 9 0 "" w)
    as (i & lines & Hi & Hrun & Hbefore & Hlast & Hwarn).
  exists i, lines. repeat split; [lia | exact Hrun | | | exact Hwarn].
  - intros j Hj. apply Hbefore. lia.
  - destruct Hlast as [[Hfree Hlen] | (-> & Hocc & Hlen)].
    + left. split; [exact Hfree | lia].
    + right. repeat split; [| exact Hlen].
      intros j Hj. destruct (decide (j = 9)) as [-> | ?]; [exact Hocc | apply Hbefore; lia].
Qed.

(** ** remove *)

Lemma clearDirectory_request_loop (dir : string) (skip : gset string)
    (l : list (string * Checksum)) (acc : list RemoveRequest) :
  fold_left (λ (request : list RemoveRequest) '(file, _),
               if decide (file ∈ skip) then request
               else request ++ [Build_RemoveRequest (dir // file) false]) l acc
  = acc ++ ((λ file, Build_RemoveRequest (dir // file) false)
              <$> filter (λ file, file ∉ skip) l.*1).
Proof.
  revert acc. induction l as [|[file c] l IH]; intros acc; simpl.
  - by rewrite app_nil_r.
  - rewrite IH. destruct (decide (file ∈ skip)) as [Hin | Hout].
    + by rewrite filter_cons_False by (simpl; tauto).
    + rewrite filter_cons_True by done. by rewrite <- app_assoc.
Qed.

Lemma clearDirectory_request_targeted (dir : string) (checksums : MergeTreeDataPartChecksums.t)
    (skip : gset string) (is_projection : bool) :
  clearDirectory_request dir checksums skip is_projection
  = targeted_request dir checksums skip is_projection.
Proof.
  unfold clearDirectory_request, targeted_request.
  rewrite clearDirectory_request_loop. simpl.
  destruct is_projection; simpl; by rewrite <- ?app_assoc.
Qed.

(** The two ways [clearDirectory] can go on a non-empty manifest. *)
Lemma clearDirectory_nonempty (dir : string) (can_remove_shared_data : bool)
    (names_not_to_remove : NameSet) (checksums : MergeTreeDataPartChecksums.t)
    (skip_directories : gset string) (is_projection : bool) (w : W) :
  let request := targeted_request dir checksums skip_directories is_projection in
  let files_call := RemoveSharedFiles request (negb can_remove_shared_data) names_not_to_remove in
  MergeTreeDataPartChecksums.empty checksums = false →
  clearDirectory dir can_remove_shared_data names_not_to_remove checksums
    skip_directories is_projection w
  = match disk_call files_call (disk w) with
    | (Ok _, d1) =>
        match disk_call (RemoveDirectory dir) d1 with
        | (Ok _, d2) =>
            (Ok (), Build_World d2 (trace w ++ [files_call; RemoveDirectory dir]) (logged w))
        | (Exc e, d2) =>
            recursive_fallback dir can_remove_shared_data names_not_to_remove e
              (Build_World d2 (trace w ++ [files_call; RemoveDirectory dir]) (logged w))
        end
    | (Exc e, d1) =>
        recursive_fallback dir can_remove_shared_data names_not_to_remove e
          (Build_World d1 (trace w ++ [files_call]) (logged w))
    end.
Proof.
  intros request files_call Hnonempty.
  unfold clearDirectory. rewrite Hnonempty, clearDirectory_request_targeted.
  fold request files_call. unfold recursive_fallback, ask, LOG. unfold_monad.
  rewrite call_unfold.
  destruct (disk_call files_call (disk w)) as [[[]|e] d1]; simpl.
  - rewrite call_unfold. simpl.
    destruct (disk_call (RemoveDirectory dir) d1) as [[[]|e] d2]; simpl.
    + by rewrite <- app_assoc.
    + rewrite call_unfold. simpl. rewrite <- !app_assoc. simpl.
      by destruct (disk_call _ d2).
  - rewrite call_unfold. simpl. by destruct (disk_call _ d1).
Qed.

(** On an empty manifest there is one call. *)
Lemma clearDirectory_empty (dir : string) (can_remove_shared_data : bool)
    (names_not_to_remove : NameSet) (checksums : MergeTreeDataPartChecksums.t)
    (skip_directories : gset string) (is_projection : bool) (w : W) :
  let recursive_call :=
    RemoveSharedRecursive (dir // "") (negb can_remove_shared_data) names_not_to_remove in
  MergeTreeDataPartChecksums.empty checksums = true →
  ∃ lines,
    clearDirectory dir can_remove_shared_data names_not_to_remove checksums
      skip_directories is_projection w
    = ((disk_call recursive_call (disk w)).1,
       Build_World (disk_call recursive_call (disk w)).2
         (trace w ++ [recursive_call]) (logged w ++ lines))
    ∧ lines = if is_projection
              then [Build_LogLine Error
                      "Cannot quickly remove directory {} by removing files; fallback to recursive removal. Reason: checksums.txt is missing"
                      [fullPath (disk w) dir]]
              else [].
Proof.
  intros recursive_call Hempty. unfold clearDirectory. rewrite Hempty.
  fold recursive_call. unfold ask, LOG. unfold_monad.
  destruct is_projection; cbn; rewrite call_unfold; cbn.
  - eexists. split; reflexivity.
  - exists []. by rewrite app_nil_r.
Qed.

(** The names that [remove] records as projection directories are the
    names [<name>.proj] of the projections it was given. *)
Lemma projection_directories_spec (projections : list ProjectionChecksums.t) (file : string) :
  file ∈ projection_directories projections
  ↔ file ∈ (λ projection, ProjectionChecksums.name projection +:+ ".proj") <$> projections.
Proof. unfold projection_directories. by rewrite elem_of_list_to_set. Qed.

(** C1.  With a non-empty manifest, [clearDirectory] asks the disk to
    remove the targeted request (the manifest's files outside the skipped
    names, [checksums.txt] and [columns.txt], and, should they exist,
    [default_compression_codec.txt], [delete-on-destroy.txt] and, outside
    projections, [txn_version.txt]) and then the directory itself.  When both
    calls return, nothing else is called; when either throws, the error is
    logged and the directory is removed recursively.

    This is how [remove] ends once the part has been moved to
    [delete_tmp_<part_dir>] and its projections have been cleared: the
    request it makes for that directory names the manifest's files in their
    order, leaving out every name [<name>.proj] of a projection it was
    given and no other, then the five metadata files; the directory is
    removed next, and either failure falls back to the recursive removal. *)
Theorem remove_targeted_deletion (this : DataPartStorageOnDisk)
    (can_remove_shared_data : bool) (names_not_to_remove : NameSet)
    (checksums : MergeTreeDataPartChecksums.t) (projections : list ProjectionChecksums.t) :
  let to := root_path this // ("delete_tmp_" +:+ part_dir this) in
  MergeTreeDataPartChecksums.empty checksums = false →
  (∀ dir skip_directories is_projection (w : W),
     let request := targeted_request dir checksums skip_directories is_projection in
     let files_call := RemoveSharedFiles request (negb can_remove_shared_data) names_not_to_remove in
     clearDirectory dir can_remove_shared_data names_not_to_remove checksums
       skip_directories is_projection w
     = match disk_call files_call (disk w) with
       | (Ok _, d1) =>
           match disk_call (RemoveDirectory dir) d1 with
           | (Ok _, d2) =>
               (Ok (), Build_World d2 (trace w ++ [files_call; RemoveDirectory dir]) (logged w))
           | (Exc e, d2) =>
               recursive_fallback dir can_remove_shared_data names_not_to_remove e
                 (Build_World d2 (trace w ++ [files_call; RemoveDirectory dir]) (logged w))
           end
       | (Exc e, d1) =>
           recursive_fallback dir can_remove_shared_data names_not_to_remove e
             (Build_World d1 (trace w ++ [files_call]) (logged w))
       end)
  ∧ (∀ w w0 w1 : W,
       let recorded :=
         (λ projection, ProjectionChecksums.name projection +:+ ".proj") <$> projections in
       let request :=
         ((λ file, Build_RemoveRequest (to // file) false)
            <$> filter (λ file, file ∉ recorded) (MergeTreeDataPartChecksums.files checksums).*1)
         ++ [Build_RemoveRequest (to // "checksums.txt") false;
             Build_RemoveRequest (to // "columns.txt") false;
             Build_RemoveRequest (to // "default_compression_codec.txt") true;
             Build_RemoveRequest (to // "delete-on-destroy.txt") true;
             Build_RemoveRequest (to // "txn_version.txt") true] in
       let files_call :=
         RemoveSharedFiles request (negb can_remove_shared_data) names_not_to_remove in
       remove_rename_to_delete_tmp this can_remove_shared_data names_not_to_remove w
       = (Ok true, w0) →
       remove_projections to can_remove_shared_data names_not_to_remove projections w0
       = (Ok (), w1) →
       remove this can_remove_shared_data names_not_to_remove checksums projections w
       = match disk_call files_call (disk w1) with
         | (Ok _, d1) =>
             match disk_call (RemoveDirectory to) d1 with
             | (Ok _, d2) =>
                 (Ok (), Build_World d2 (trace w1 ++ [files_call; RemoveDirectory to]) (logged w1))
             | (Exc e, d2) =>
                 recursive_fallback to can_remove_shared_data names_not_to_remove e
                   (Build_World d2 (trace w1 ++ [files_call; RemoveDirectory to]) (logged w1))
             end
         | (Exc e, d1) =>
             recursive_fallback to can_remove_shared_data names_not_to_remove e
               (Build_World d1 (trace w1 ++ [files_call]) (logged w1))
         end).
Proof.
  intros to Hnonempty. split.
  - intros dir skip is_projection w. by apply clearDirectory_nonempty.
  - intros w w0 w1 recorded request files_call Hmove Hproj.
    assert (remove this can_remove_shared_data names_not_to_remove checksums projections w
            = clearDirectory to can_remove_shared_data names_not_to_remove checksums
                (projection_directories projections) false w1) as ->.
    { unfold remove. fold to. unfold_monad. by rewrite Hmove, Hproj. }
    rewrite clearDirectory_nonempty by done.
    assert (targeted_request to checksums (projection_directories projections) false = request)
      as ->; [| done].
    unfold targeted_request, request. cbn [app]. f_equal. f_equal.
    apply list_filter_iff. intros file. unfold recorded.
    by rewrite projection_directories_spec.
Qed.


(** ** loadVersionMetadata *)

Section VersionProperties.
Context `{!TxSentinels} `{!VersionCodec}.

(** C2.  When [txn_version.txt] is absent, [loadVersionMetadata] decides by
    the presence of [txn_version.txt.tmp].  Without it the caller's object
    becomes Prehistoric and the world is untouched.  With it the object
    becomes RolledBack in every outcome, and once the temporary file has been
    inspected for the warning, [removeFile] is called on it, the outcome of
    that call being the outcome of the method. *)
Theorem loadVersionMetadata_crash_residue (this : DataPartStorageOnDisk)
    (version : VersionMetadata) (w : W) :
  let version_file_name := root_path this // part_dir this // "txn_version.txt" in
  let tmp_version_file_name := version_file_name +:+ ".tmp" in
  disk_exists (disk w) version_file_name = false →
  (disk_exists (disk w) tmp_version_file_name = false →
   loadVersionMetadata this (version, w) = (Ok (), (Prehistoric version, w)))
  ∧ (disk_exists (disk w) tmp_version_file_name = true →
     (loadVersionMetadata this (version, w)).2.1 = RolledBack version
     ∧ ∀ last_modified content,
         disk_getLastModified (disk w) tmp_version_file_name = Ok last_modified →
         openForReading (disk w) tmp_version_file_name = Ok content →
         ∃ line,
           loadVersionMetadata this (version, w)
           = ((disk_call (RemoveFile tmp_version_file_name) (disk w)).1,
              (RolledBack version,
               Build_World (disk_call (RemoveFile tmp_version_file_name) (disk w)).2
                 (trace w ++ [RemoveFile tmp_version_file_name]) (logged w ++ [line])))
           ∧ level line = Warning).
Proof.
  intros version_file_name tmp_version_file_name Hreal.
  unfold loadVersionMetadata. fold version_file_name tmp_version_file_name.
  unfold remove_tmp_file, ask, query, LOG, setCreationTID, set_creation_csn. unfold_monad.
  cbn. rewrite Hreal. cbn. split; intros Htmp; rewrite Htmp; cbn.
  - reflexivity.
  - split.
    + destruct (disk_getLastModified (disk w) tmp_version_file_name); [| reflexivity].
      destruct (openForReading (disk w) tmp_version_file_name); [| reflexivity].
      rewrite call_unfold. reflexivity.
    + intros last_modified content -> ->. rewrite call_unfold. cbn.
      eexists. split; reflexivity.
Qed.

End VersionProperties.

End Properties.

(** ** The in-memory disk: keys *)

Module MemDiskKeys.
Import MemDisk.

Lemma strip_prefix_Some (p k s : key) : strip_prefix p k = Some s ↔ k = p ++ s.
Proof.
  revert k. induction p as [|x p IH]; intros k; simpl.
  - split; congruence.
  - destruct k as [|y k]; [split; [done | intros [=]] |].
    destruct (decide (x = y)) as [-> | Hne].
    + rewrite IH. split; [by intros -> | by intros [= ->]].
    + split; [done | intros [= ? ?]; done].
Qed.

Lemma strip_prefix_app (p s : key) : strip_prefix p (p ++ s) = Some s.
Proof. by apply strip_prefix_Some. Qed.

Lemma under_true (p k : key) : under p k = true ↔ ∃ s, k = p ++ s.
Proof.
  unfold under. destruct (strip_prefix p k) as [s|] eqn:E.
  - apply strip_prefix_Some in E. split; eauto.
  - split; [done | intros [s ->]]. by rewrite strip_prefix_app in E.
Qed.

Lemma under_app (p s : key) : under p (p ++ s) = true.
Proof. apply under_true. eauto. Qed.

Lemma under_false (p k : key) : under p k = false ↔ ∀ s, k ≠ p ++ s.
Proof.
  rewrite <- not_true_iff_false, under_true. split.
  - intros Hno s ->. eauto.
  - intros Hno [s ->]. by eapply Hno.
Qed.

Lemma strictly_under_true (p k : key) :
  strictly_under p k = true ↔ ∃ s, s ≠ [] ∧ k = p ++ s.
Proof.
  unfold strictly_under. destruct (strip_prefix p k) as [s|] eqn:E.
  - apply strip_prefix_Some in E as ->. destruct s as [|x s].
    + split; [done | intros (s & Hs & Heq)].
      apply (f_equal length) in Heq. rewrite !length_app in Heq.
      destruct s; [done | simpl in Heq; lia].
    + split; [| done]. intros _. by exists (x :: s).
  - split; [done | intros (s & _ & ->)]. by rewrite strip_prefix_app in E.
Qed.

Lemma overlapping_false (p q : key) :
  overlapping p q = false → ∀ s t, p ++ s ≠ q ++ t.
Proof.
  unfold overlapping. rewrite orb_false_iff. intros [Hpq Hqp] s t Heq.
  destruct (prefix_weak_total p q (p ++ s)) as [[r ->] | [r ->]].
  - by exists s.
  - exists t. by rewrite Heq.
  - by rewrite under_app in Hpq.
  - by rewrite under_app in Hqp.
Qed.

Lemma retarget_from (p q rel : key) :
  overlapping p q = false → retarget p q (p ++ rel) = q ++ rel.
Proof. intros O. unfold retarget. by rewrite O, strip_prefix_app. Qed.

Lemma retarget_to (p q rel : key) :
  overlapping p q = false → retarget p q (q ++ rel) = p ++ rel.
Proof.
  intros O. unfold retarget. rewrite O.
  destruct (strip_prefix p (q ++ rel)) as [s|] eqn:E.
  - apply strip_prefix_Some in E. symmetry in E. by apply overlapping_false in E.
  - by rewrite strip_prefix_app.
Qed.

Lemma retarget_other (p q k : key) :
  under p k = false → under q k = false → retarget p q k = k.
Proof.
  unfold retarget, under. intros Hp Hq.
  destruct (overlapping p q); [done |].
  destruct (strip_prefix p k); [done |]. by destruct (strip_prefix q k).
Qed.

Lemma retarget_involutive (p q k : key) : retarget p q (retarget p q k) = k.
Proof.
  destruct (overlapping p q) eqn:O; [unfold retarget; by rewrite O |].
  destruct (strip_prefix p k) as [s|] eqn:Ep.
  - apply strip_prefix_Some in Ep as ->.
    by rewrite retarget_from, retarget_to.
  - destruct (strip_prefix q k) as [s|] eqn:Eq.
    + apply strip_prefix_Some in Eq as ->.
      by rewrite retarget_to, retarget_from.
    + assert (retarget p q k = k) as Hk
        by (apply retarget_other; unfold under; by rewrite ?Ep, ?Eq).
      by rewrite !Hk.
Qed.

#[global] Instance retarget_inj (p q : key) : Inj (=) (=) (retarget p q).
Proof.
  intros k1 k2 Heq.
  by rewrite <- (retarget_involutive p q k1), Heq, retarget_involutive.
Qed.

Lemma lookup_kmap_retarget (p q : key) (m : gmap key node) (j : key) :
  (kmap (retarget p q) m : gmap key node) !! j = m !! retarget p q j.
Proof.
  rewrite <- (retarget_involutive p q j) at 1.
  apply (lookup_kmap (retarget p q)).
Qed.

(** *** Components of composed paths *)

Lemma components_go_app_slash (cur x y : string) :
  components_go cur (x +:+ String slash y) = components_go cur x ++ components y.
Proof.
  revert cur. induction x as [|c x IH]; intros cur.
  - rewrite string_app_nil_l. simpl. reflexivity.
  - rewrite string_app_cons. simpl.
    destruct (Ascii.eqb c slash); rewrite IH; [by rewrite app_assoc | done].
Qed.

Lemma after_last_slash_Some (p f : string) :
  after_last_slash p = Some f → ∃ p0, p = p0 +:+ String slash f.
Proof.
  revert f. induction p as [|c p IH]; intros f; simpl; [done |].
  destruct (after_last_slash p) as [g|] eqn:E.
  - intros [= ->]. destruct (IH f eq_refl) as [p0 ->].
    exists (String c p0). by rewrite string_app_cons.
  - destruct (Ascii.eqb c slash) eqn:Ec; [| done].
    intros [= ->]. apply Ascii.eqb_eq in Ec as ->. by exists "".
Qed.

(** Composing with a relative path concatenates the components. *)
Lemma components_path_append (p q : string) :
  is_absolute q = false → components (p // q) = components p ++ components q.
Proof.
  intros Hrel. unfold path_append. rewrite Hrel.
  destruct (has_filename p) eqn:Hp.
  - apply components_go_app_slash.
  - apply has_filename_false in Hp as [-> | Hp]; [done |].
    apply after_last_slash_Some in Hp as [p0 ->].
    rewrite string_app_assoc, string_app_cons, string_app_nil_l.
    unfold components. rewrite !components_go_app_slash.
    change (components "") with (@nil string). by rewrite app_nil_r.
Qed.

Lemma path_append_suffix (p q s : string) :
  is_absolute q = false → is_absolute (q +:+ s) = false →
  (p // q) +:+ s = p // (q +:+ s).
Proof.
  intros Hq Hqs. unfold path_append. rewrite Hq, Hqs.
  destruct (has_filename p); by rewrite !string_app_assoc.
Qed.

Lemma components_go_no_slash (cur s : string) :
  no_slash s = true → components_go cur s = emit (cur +:+ s).
Proof.
  revert cur. induction s as [|c s IH]; intros cur; simpl.
  - by rewrite string_app_nil_r.
  - destruct (Ascii.eqb c slash); [done |]. simpl. intros Hs.
    by rewrite IH, string_app_assoc, string_app_cons, string_app_nil_l.
Qed.

Lemma components_plain (s : string) :
  no_slash s = true → s ≠ "" → components s = [s].
Proof.
  intros Hs Hne. unfold components. rewrite components_go_no_slash by done.
  rewrite string_app_nil_l. unfold emit.
  destruct (String.eqb s "") eqn:E; [by apply String.eqb_eq in E | done].
Qed.

Lemma no_slash_relative (s : string) : no_slash s = true → is_absolute s = false.
Proof. destruct s as [|c s]; simpl; [done |]. by destruct (Ascii.eqb c slash). Qed.

Lemma string_app_length (a b : string) :
  String.length (a +:+ b) = String.length a + String.length b.
Proof. induction a as [|c a IH]; [done |]. rewrite string_app_cons. simpl. by rewrite IH. Qed.

(** The keys of a part directory and of its [delete_tmp_] sibling. *)
Lemma part_keys (this : DataPartStorageOnDisk) :
  let to := root_path this // ("delete_tmp_" +:+ part_dir this) in
  no_slash (part_dir this) = true → part_dir this ≠ "" →
  components (root_path this // part_dir this)
  = components (root_path this) ++ [part_dir this]
  ∧ components to = components (root_path this) ++ ["delete_tmp_" +:+ part_dir this]
  ∧ components (to // "") = components to
  ∧ overlapping (components (root_path this // part_dir this)) (components to) = false.
Proof.
  intros to Hplain Hne.
  assert (no_slash ("delete_tmp_" +:+ part_dir this) = true) as Hplain'.
  { rewrite !string_app_cons, string_app_nil_l. exact Hplain. }
  assert ("delete_tmp_" +:+ part_dir this ≠ "") as Hne' by (by rewrite string_app_cons).
  assert (components (root_path this // part_dir this)
          = components (root_path this) ++ [part_dir this]) as Hfrom.
  { rewrite components_path_append by by apply no_slash_relative.
    by rewrite (components_plain (part_dir this)). }
  assert (components to = components (root_path this) ++ ["delete_tmp_" +:+ part_dir this])
    as Hto.
  { unfold to. rewrite components_path_append by by apply no_slash_relative.
    by rewrite (components_plain ("delete_tmp_" +:+ part_dir this)). }
  split; [done |]. split; [done |]. split.
  - rewrite components_path_append by done.
    change (components "") with (@nil string). apply app_nil_r.
  - rewrite Hfrom, Hto. unfold overlapping. apply orb_false_iff.
    split; apply under_false; intros s Heq; rewrite <- app_assoc in Heq;
      apply app_inv_head in Heq; injection Heq as Heq _;
      apply (f_equal String.length) in Heq; rewrite string_app_length in Heq;
      simpl in Heq; lia.
Qed.

End MemDiskKeys.

(** ** Properties on the in-memory disk *)

Section OnMemDisk.
Import MemDisk MemDiskKeys.

Abbreviation MW := (World (gmap key node)).

Lemma version_file_keys (this : DataPartStorageOnDisk) :
  let path := root_path this // part_dir this // "txn_version.txt" in
  components path = components (root_path this // part_dir this) ++ ["txn_version.txt"]
  ∧ components (path +:+ ".tmp")
    = components (root_path this // part_dir this) ++ ["txn_version.txt.tmp"].
Proof.
  intros path. unfold path. split.
  - by rewrite components_path_append.
  - rewrite path_append_suffix by done. by rewrite components_path_append.
Qed.

Lemma node_at_nonempty (m : gmap key node) (k : key) : k ≠ [] → node_at m k = m !! k.
Proof. by destruct k. Qed.

Lemma writeFile_Ok (k : key) (content : string) (m m' : gmap key node) :
  k ≠ [] →
  writeFile k Rewrite content m = (Ok (), m') →
  ∃ t, m' = <[k := File content t]> m.
Proof.
  intros Hk. unfold writeFile, ok, fail.
  destruct (is_dir m (parent k)); [| done].
  destruct (node_at m k) as [[old t | t]|]; intros [= <-]; eauto.
Qed.

Lemma replaceFile_Ok (from to : key) (m m' : gmap key node) :
  from ≠ [] →
  replaceFile from to m = (Ok (), m') →
  ∃ c t, m !! from = Some (File c t) ∧ m' = <[to := File c t]> (delete from m).
Proof.
  intros Hfrom. unfold replaceFile, ok, fail.
  destruct from as [|x from]; [done |]. simpl.
  destruct (m !! (x :: from)) as [[c t | t]|]; [| done | done].
  destruct (is_dir m (parent to) && negb (is_dir m to)); [| done].
  intros [= <-]. eauto.
Qed.

Lemma lookup_filter_under (p j : key) (m : gmap key node) :
  filter (λ kv, under p kv.1 = false) m !! j = if under p j then None else m !! j.
Proof.
  destruct (under p j) eqn:E.
  - apply map_lookup_filter_None. right. intros x _. simpl. by rewrite E.
  - destruct (m !! j) as [x|] eqn:Hj.
    + by apply map_lookup_filter_Some.
    + apply map_lookup_filter_None. by left.
Qed.








Lemma well_formed_parent (m : gmap key node) (k : key) (v : node) :
  well_formed m = true → m !! k = Some v → is_dir m (parent k) = true.
Proof.
  unfold well_formed. rewrite forallb_forall. intros Hwf Hk.
  apply (Hwf (k, v)). apply list_elem_of_In. by apply elem_of_map_to_list.
Qed.

(** On a well-formed disk nothing lies below a path that does not exist. *)
Lemma well_formed_no_orphans (m : gmap key node) (p rel : key) :
  well_formed m = true → present m p = false → rel ≠ [] → m !! (p ++ rel) = None.
Proof.
  intros Hwf Hp. induction rel as [|x rel IH] using rev_ind; [done |]. intros _.
  destruct (m !! (p ++ rel ++ [x])) as [v|] eqn:E; [| done].
  apply (well_formed_parent _ _ _ Hwf) in E.
  unfold parent in E. rewrite app_assoc, removelast_last in E.
  unfold is_dir in E. destruct rel as [|y rel].
  - rewrite app_nil_r in E. unfold present in Hp. by destruct (node_at m p).
  - rewrite node_at_nonempty, IH in E by (try done; by destruct p). done.
Qed.

Section VersionOnMemDisk.
Context `{!TxSentinels} `{!VersionCodec}.

(** After a successful [writeVersionMetadata] the version file holds what
    [VersionMetadata::write] produced and the temporary file is gone. *)
Lemma writeVersionMetadata_Ok (this : DataPartStorageOnDisk) (version : VersionMetadata)
    (fsync_part_dir : bool) (w w' : MW) :
  let path := root_path this // part_dir this // "txn_version.txt" in
  writeVersionMetadata this version fsync_part_dir w = (Ok (), w') →
  (∃ t, disk w' !! components path = Some (File (version_write version) t))
  ∧ disk w' !! components (path +:+ ".tmp") = None.
Proof.
  intros path Hrun. destruct (version_file_keys this) as [Hk Htmp].
  fold path in Hk, Htmp.
  unfold writeVersionMetadata in Hrun. fold path in Hrun.
  apply try_catch_rethrow_Ok in Hrun.
  apply bind_Ok in Hrun as ([] & w1 & Hwrite & Hrun).
  apply bind_Ok in Hrun as ([] & w2 & Hsync & Hrun).
  apply call_Ok in Hwrite as (m1 & Hwrite & ->).
  apply call_Ok in Hrun as (m3 & Hreplace & ->).
  assert (disk w2 = m1) as Hw2.
  { apply when_Ok in Hsync. destruct fsync_part_dir; [| by subst].
    apply call_Ok in Hsync as (m2 & Hsync & ->).
    change (run (GetDirectorySyncGuard (getFullRelativePath this)) m1 = (Ok (), m2)) in Hsync.
    unfold run, ok, fail in Hsync. destruct (is_dir m1 _); by simplify_eq. }
  rewrite Hw2 in Hreplace.
  change (writeFile (components (path +:+ ".tmp")) Rewrite (version_write version) (disk w)
          = (Ok (), m1)) in Hwrite.
  change (replaceFile (components (path +:+ ".tmp")) (components path) m1 = (Ok (), m3))
    in Hreplace.
  cbn [disk].
  apply writeFile_Ok in Hwrite as [t ->]; [| rewrite Htmp; by intros [_ ?]%app_eq_nil].
  apply replaceFile_Ok in Hreplace as (c & t' & Hfrom & ->);
    [| rewrite Htmp; by intros [_ ?]%app_eq_nil].
  rewrite lookup_insert_eq in Hfrom. injection Hfrom as <- <-.
  rewrite lookup_insert_eq. split; [eauto |].
  rewrite lookup_insert_ne, lookup_delete_eq; [done |].
  rewrite Hk, Htmp. intros Heq. by apply app_inv_head in Heq.
Qed.

(** C3.  On the in-memory disk, once [writeVersionMetadata] has returned
    normally, [loadVersionMetadata] on the same part returns normally without
    touching the world, and the object it filled is the one that
    [VersionMetadata::read] parses from the bytes that
    [VersionMetadata::write] produced; hence its creation TID and creation
    CSN are those that were written, for a codec that reads them back. *)
Theorem version_metadata_round_trip (this : DataPartStorageOnDisk)
    (version into : VersionMetadata) (fsync_part_dir : bool) (w w' : MW) :
  reads_back_creation version into →
  writeVersionMetadata this version fsync_part_dir w = (Ok (), w') →
  ∃ loaded,
    loadVersionMetadata this (into, w') = (Ok (), (loaded, w'))
    ∧ version_read (version_write version) into = (Ok (), loaded)
    ∧ creation_tid loaded = creation_tid version
    ∧ creation_csn loaded = creation_csn version.
Proof.
  intros (loaded & Hread & Htid & Hcsn) Hwrite.
  apply writeVersionMetadata_Ok in Hwrite as [[t Hfile] Htmp].
  exists loaded. split; [| done].
  set (path := root_path this // part_dir this // "txn_version.txt") in *.
  destruct (version_file_keys this) as [Hkeys Hkeys_tmp]. fold path in Hkeys, Hkeys_tmp.
  assert (components path ≠ []) as Hk.
  { rewrite Hkeys. by intros [_ ?]%app_eq_nil. }
  assert (components (path +:+ ".tmp") ≠ []) as Hktmp.
  { rewrite Hkeys_tmp. by intros [_ ?]%app_eq_nil. }
  unfold loadVersionMetadata. fold path.
  unfold ask, query, openForReading. unfold_monad.
  cbn [disk_exists disk_getFileSize disk_readFile mem_disk].
  unfold exists_, getFileSize, readFile, present.
  rewrite <- node_at_nonempty in Hfile, Htmp by done.
  rewrite !Hfile. cbn beta iota zeta.
  rewrite Hread. cbn beta iota zeta. cbn [disk].
  rewrite Htmp. reflexivity.
Qed.

End VersionOnMemDisk.

(** *** clone *)

Lemma list_app_longer {A} (l r s : list A) : r ≠ [] → l ≠ (l ++ r) ++ s.
Proof.
  intros Hr Heq. apply (f_equal length) in Heq. rewrite !length_app in Heq.
  destruct r; [done | simpl in Heq; lia].
Qed.




(** *** remove *)

(** The removing calls only ever take nodes away, whether they return or
    throw. *)
Lemma removeFile_shrinks (k j : key) (m : gmap key node) :
  m !! j = None → (removeFile k m).2 !! j = None.
Proof.
  intros Hj. unfold removeFile, ok, fail. destruct (is_file m k); [| done].
  simpl. rewrite lookup_delete. by case_decide.
Qed.

Lemma removeFileIfExists_shrinks (k j : key) (m : gmap key node) :
  m !! j = None → (removeFileIfExists k m).2 !! j = None.
Proof.
  intros Hj. unfold removeFileIfExists, ok, fail.
  destruct (node_at m k) as [[c t | t]|]; [| done | done].
  simpl. rewrite lookup_delete. by case_decide.
Qed.

Lemma removeSharedFiles_shrinks (request : list RemoveRequest) (j : key)
    (m : gmap key node) :
  m !! j = None → (removeSharedFiles request m).2 !! j = None.
Proof.
  revert m. induction request as [|r request IH]; intros m Hj; [done |]. simpl.
  destruct (if_exists r).
  - pose proof (removeFileIfExists_shrinks (components (path r)) j m Hj) as Hstep.
    destruct (removeFileIfExists (components (path r)) m) as [[[]|e] m']; [by apply IH | done].
  - pose proof (removeFile_shrinks (components (path r)) j m Hj) as Hstep.
    destruct (removeFile (components (path r)) m) as [[[]|e] m']; [by apply IH | done].
Qed.

Lemma removeDirectory_shrinks (k j : key) (m : gmap key node) :
  m !! j = None → (removeDirectory k m).2 !! j = None.
Proof.
  intros Hj. unfold removeDirectory, ok, fail.
  destruct (is_dir m k && negb (has_children m k)); [| done].
  simpl. rewrite lookup_delete. by case_decide.
Qed.

Lemma removeRecursive_shrinks (k j : key) (m : gmap key node) :
  m !! j = None → (removeRecursive k m).2 !! j = None.
Proof.
  intros Hj. unfold removeRecursive, ok. simpl.
  rewrite lookup_filter_under. by destruct (under k j).
Qed.

(** On this disk [clearDirectory] always returns: the recursive removal it
    falls back to cannot fail. *)
Lemma clearDirectory_mem (dir : string) (can_remove_shared_data : bool)
    (names_not_to_remove : NameSet) (checksums : MergeTreeDataPartChecksums.t)
    (skip_directories : gset string) (is_projection : bool) (w : MW) :
  ∃ w',
    clearDirectory dir can_remove_shared_data names_not_to_remove checksums
      skip_directories is_projection w = (Ok (), w')
    ∧ ∀ j, disk w !! j = None → disk w' !! j = None.
Proof.
  destruct (MergeTreeDataPartChecksums.empty checksums) eqn:Hempty.
  - destruct (clearDirectory_empty dir can_remove_shared_data names_not_to_remove
                checksums skip_directories is_projection w Hempty) as (lines & -> & _).
    eexists. split; [reflexivity |]. intros j Hj. cbn [disk].
    by apply removeRecursive_shrinks.
  - rewrite clearDirectory_nonempty by done. unfold recursive_fallback.
    set (files_call := RemoveSharedFiles _ _ _).
    change (disk_call files_call (disk w))
      with (removeSharedFiles
              (targeted_request dir checksums skip_directories is_projection) (disk w)).
    pose proof (removeSharedFiles_shrinks
                  (targeted_request dir checksums skip_directories is_projection)) as Hfiles.
    destruct (removeSharedFiles _ (disk w)) as [[[]|e] m1] eqn:E1.
    + change (disk_call (RemoveDirectory dir) m1) with (removeDirectory (components dir) m1).
      pose proof (removeDirectory_shrinks (components dir)) as Hdir.
      destruct (removeDirectory (components dir) m1) as [[[]|e] m2] eqn:E2.
      * eexists. split; [reflexivity |]. intros j Hj. cbn [disk].
        specialize (Hfiles j (disk w) Hj). rewrite E1 in Hfiles.
        specialize (Hdir j m1 Hfiles). by rewrite E2 in Hdir.
      * eexists. split; [reflexivity |]. intros j Hj. cbn [disk].
        specialize (Hfiles j (disk w) Hj). rewrite E1 in Hfiles.
        specialize (Hdir j m1 Hfiles). rewrite E2 in Hdir.
        by apply removeRecursive_shrinks.
    + eexists. split; [reflexivity |]. intros j Hj. cbn [disk].
      specialize (Hfiles j (disk w) Hj). rewrite E1 in Hfiles.
      by apply removeRecursive_shrinks.
Qed.

Lemma remove_projections_mem (to : string) (can_remove_shared_data : bool)
    (names_not_to_remove : NameSet) (projections : list ProjectionChecksums.t) (w : MW) :
  ∃ w',
    remove_projections to can_remove_shared_data names_not_to_remove projections w
    = (Ok (), w')
    ∧ ∀ j, disk w !! j = None → disk w' !! j = None.
Proof.
  unfold remove_projections. revert w.
  induction projections as [|projection projections IH]; intros w.
  - exists w. by split.
  - cbn [for_each]. unfold bind.
    match goal with
    | |- context [clearDirectory ?dir ?c ?n ?cs ?sk ?ip w] =>
        destruct (clearDirectory_mem dir c n cs sk ip w) as (w1 & -> & Hstep)
    end.
    destruct (IH w1) as (w2 & Hrun & Hrest).
    exists w2. split; [exact Hrun | intros j Hj; by apply Hrest, Hstep].
Qed.

Lemma moveDirectory_Ok (from to : key) (m : gmap key node) :
  present m from = true → present m to = false →
  overlapping from to = false → is_dir m (parent to) = true →
  moveDirectory from to m
  = (Ok (), kmap (retarget from to) (filter (λ kv, under to kv.1 = false) m)).
Proof.
  intros Hfrom Hto Hapart Hparent. unfold moveDirectory.
  by rewrite Hfrom, Hto, Hapart, Hparent.
Qed.


(** Moving an existing, plainly named part of a well-formed disk to its
    [delete_tmp_] sibling succeeds, and leaves nothing at the old place. *)
Lemma remove_rename_to_delete_tmp_mem (this : DataPartStorageOnDisk)
    (can_remove_shared_data : bool) (names_not_to_remove : NameSet) (w : MW) :
  let from := root_path this // part_dir this in
  well_formed (disk w) = true →
  no_slash (part_dir this) = true → part_dir this ≠ "" →
  disk_exists (disk w) from = true →
  ∃ w0,
    remove_rename_to_delete_tmp this can_remove_shared_data names_not_to_remove w
    = (Ok true, w0)
    ∧ ∀ j, under (components from) j = true → disk w0 !! j = None.
Proof.
  intros from Hwf Hplain Hne Hfrom.
  destruct (part_keys this Hplain Hne) as (Hkfrom & Hkto & Hkto' & Hapart).
  fold from in Hkfrom, Hapart.
  set (to := root_path this // ("delete_tmp_" +:+ part_dir this)) in *.
  set (m1 := if exists_ (disk w) to
             then filter (λ kv, under (components to) kv.1 = false) (disk w) else (disk w)).
  change (present (disk w) (components from) = true) in Hfrom.
  assert (components from ≠ []) as Hfrom_ne by (rewrite Hkfrom; by intros [_ ?]%app_eq_nil).
  assert (components to ≠ []) as Hto_ne by (rewrite Hkto; by intros [_ ?]%app_eq_nil).
  assert (∀ j, under (components to) j = false → m1 !! j = (disk w) !! j) as Hm1.
  { intros j Hj. unfold m1. destruct (exists_ (disk w) to); [| done].
    by rewrite lookup_filter_under, Hj. }
  assert (present m1 (components from) = true) as Hfrom1.
  { unfold present in *. rewrite node_at_nonempty in * by done.
    rewrite Hm1; [done |]. unfold overlapping in Hapart.
    by apply orb_false_iff in Hapart as [_ ?]. }
  assert (present m1 (components to) = false) as Hto1.
  { unfold m1. destruct (exists_ (disk w) to) eqn:E; [| exact E].
    unfold present. rewrite node_at_nonempty, lookup_filter_under by done.
    by rewrite (under_app _ []) || (rewrite <- (app_nil_r (components to)) at 2;
                                    by rewrite under_app). }
  assert (is_dir m1 (parent (components to)) = true) as Hparent1.
  { rewrite Hkto. unfold parent. rewrite removelast_last.
    unfold present in Hfrom. rewrite node_at_nonempty in Hfrom by done.
    destruct ((disk w) !! components from) as [v|] eqn:Ev; [| done].
    apply (well_formed_parent _ _ _ Hwf) in Ev.
    rewrite Hkfrom in Ev. unfold parent in Ev. rewrite removelast_last in Ev.
    unfold is_dir in *. destruct (components (root_path this)) as [|x R] eqn:ER; [done |].
    rewrite node_at_nonempty in * by done. rewrite Hm1; [done |].
    rewrite Hkto, ?ER. apply under_false. intros s. by apply list_app_longer. }
  exists (Build_World
            (kmap (retarget (components from) (components to))
               (filter (λ kv, under (components to) kv.1 = false) m1))
            ((if exists_ (disk w) to
              then trace w ++ [RemoveSharedRecursive (to // "")
                                 (negb can_remove_shared_data) names_not_to_remove]
              else trace w) ++ [MoveDirectory from to])
            (if exists_ (disk w) to
             then logged w ++ [Build_LogLine Warning
               "Directory {} (to which part must be renamed before removing) already exists. Most likely this is due to unclean restart or race condition. Removing it."
               [fullPath (disk w) to]]
             else logged w)).
  split.
  - unfold remove_rename_to_delete_tmp. fold from to. unfold ask, LOG. unfold_monad.
    cbn [disk trace logged].
    change (disk_exists (disk w) to) with (exists_ (disk w) to).
    unfold m1 in Hfrom1, Hto1, Hparent1 |- *.
    destruct (exists_ (disk w) to) eqn:E.
    + rewrite call_unfold. cbn [disk trace logged].
      change (disk_call (RemoveSharedRecursive (to // "") (negb can_remove_shared_data)
                           names_not_to_remove) (disk w))
        with (removeRecursive (components (to // "")) (disk w)).
      rewrite Hkto'. unfold removeRecursive, ok. cbn [fst snd].
      rewrite call_unfold. cbn [disk trace logged].
      match goal with
      | |- context [disk_call (MoveDirectory from to) ?m'] =>
          change (disk_call (MoveDirectory from to) m')
            with (moveDirectory (components from) (components to) m')
      end.
      by rewrite moveDirectory_Ok.
    + unfold ret. cbv beta iota. rewrite call_unfold. cbn [disk trace logged].
      change (disk_call (MoveDirectory from to) (disk w))
        with (moveDirectory (components from) (components to) (disk w)).
      by rewrite moveDirectory_Ok.
  - intros j [s ->]%under_true. cbn [disk].
    rewrite lookup_kmap_retarget, retarget_from, lookup_filter_under by done.
    by rewrite under_app.
Qed.

(** C4.  On a well-formed in-memory disk, removing an existing, plainly
    named part whose manifest is empty returns normally.  After the move and
    the projections, the one call left is the recursive, reference-count-aware
    removal of [delete_tmp_<part_dir>]; no per-file request is made for the
    part directory.  Afterwards nothing is left at or below the part
    directory or its [delete_tmp_] sibling. *)
Theorem remove_empty_manifest (this : DataPartStorageOnDisk)
    (can_remove_shared_data : bool) (names_not_to_remove : NameSet)
    (checksums : MergeTreeDataPartChecksums.t) (projections : list ProjectionChecksums.t)
    (w : MW) :
  let from := root_path this // part_dir this in
  let to := root_path this // ("delete_tmp_" +:+ part_dir this) in
  MergeTreeDataPartChecksums.empty checksums = true →
  well_formed (disk w) = true →
  no_slash (part_dir this) = true → part_dir this ≠ "" →
  disk_exists (disk w) from = true →
  ∃ w0 w1 w',
    remove_rename_to_delete_tmp this can_remove_shared_data names_not_to_remove w
    = (Ok true, w0)
    ∧ remove_projections to can_remove_shared_data names_not_to_remove projections w0
      = (Ok (), w1)
    ∧ remove this can_remove_shared_data names_not_to_remove checksums projections w
      = (Ok (), w')
    ∧ trace w' = trace w1 ++ [RemoveSharedRecursive (to // "")
                                (negb can_remove_shared_data) names_not_to_remove]
    ∧ logged w' = logged w1
    ∧ (∀ j, under (components from) j = true ∨ under (components to) j = true →
            disk w' !! j = None)
    ∧ disk_exists (disk w') from = false
    ∧ disk_exists (disk w') to = false.
Proof.
  intros from to Hempty Hwf Hplain Hne Hfrom.
  destruct (remove_rename_to_delete_tmp_mem this can_remove_shared_data
              names_not_to_remove w Hwf Hplain Hne Hfrom) as (w0 & Hmove & Hgone).
  destruct (remove_projections_mem to can_remove_shared_data names_not_to_remove
              projections w0) as (w1 & Hproj & Hshrunk).
  destruct (clearDirectory_empty to can_remove_shared_data names_not_to_remove checksums
              (projection_directories projections) false w1 Hempty) as (lines & Hclear & ->).
  destruct (part_keys this Hplain Hne) as (Hkfrom & Hkto & Hkto' & Hapart).
  fold from to in Hkfrom, Hkto, Hkto', Hapart, Hgone.
  change (disk_call (RemoveSharedRecursive (to // "") (negb can_remove_shared_data)
                       names_not_to_remove) (disk w1))
    with (removeRecursive (components (to // "")) (disk w1)) in Hclear.
  rewrite Hkto' in Hclear. unfold removeRecursive, ok in Hclear. cbn [fst snd] in Hclear.
  rewrite app_nil_r in Hclear.
  assert (∀ j, under (components from) j = true ∨ under (components to) j = true →
               filter (λ kv, under (components to) kv.1 = false) (disk w1) !! j = None)
    as Hnone.
  { intros j Hj. rewrite lookup_filter_under.
    destruct (under (components to) j) eqn:E; [done |].
    destruct Hj as [Hj | Hj]; [| done]. by apply Hshrunk, Hgone. }
  eexists w0, w1, _. split; [exact Hmove |]. split; [exact Hproj |]. split.
  { unfold remove. fold to. unfold_monad. rewrite Hmove, Hproj. exact Hclear. }
  cbn [disk trace logged]. split; [done |]. split; [done |]. split; [exact Hnone |].
  split.
  - change (present (filter (λ kv, under (components to) kv.1 = false) (disk w1))
              (components from) = false).
    unfold present. rewrite node_at_nonempty by (rewrite Hkfrom; by intros [_ ?]%app_eq_nil).
    rewrite Hnone; [done |]. left. rewrite <- (app_nil_r (components from)) at 2.
    apply under_app.
  - change (present (filter (λ kv, under (components to) kv.1 = false) (disk w1))
              (components to) = false).
    unfold present. rewrite node_at_nonempty by (rewrite Hkto; by intros [_ ?]%app_eq_nil).
    rewrite Hnone; [done |]. right. rewrite <- (app_nil_r (components to)) at 2.
    apply under_app.
Qed.

End OnMemDisk.

(** * Properties of the further methods *)

Lemma result_eta_pair {X S A} (p : Res A * (X * S)) (a : A) :
  p.1 = Ok a → p = (Ok a, (p.2.1, p.2.2)).
Proof. destruct p as [r [x s]]. simpl. by intros ->. Qed.

Lemma outcome_eta {S A} (p : Res A * S) (r : Res A) : p.1 = r → p = (r, p.2).
Proof. destruct p as [r' s]. simpl. by intros ->. Qed.

(** ** changeRootPath *)

Lemma substr_to_app (a b : string) : substr 0 (String.length a) (a +:+ b) = a.
Proof.
  unfold substr. induction a as [|c a IH].
  - rewrite string_app_nil_l. by destruct b.
  - rewrite string_app_cons. simpl. by rewrite IH.
Qed.

Lemma substring_all (s : string) : String.substring 0 (String.length s) s = s.
Proof. induction s as [|c s IH]; simpl; [done | by rewrite IH]. Qed.

Lemma substr_from_app (a b : string) : substr_from (String.length a) (a +:+ b) = b.
Proof.
  unfold substr_from. induction a as [|c a IH].
  - rewrite string_app_nil_l. simpl. rewrite Nat.sub_0_r. apply substring_all.
  - rewrite string_app_cons. simpl. exact IH.
Qed.

Lemma substr_split (n : nat) (s : string) :
  n ≤ String.length s → s = substr 0 n s +:+ substr_from n s.
Proof.
  unfold substr, substr_from. revert n. induction s as [|c s IH]; intros n Hn; simpl in *.
  - assert (n = 0) as -> by lia. done.
  - destruct n as [|n]; simpl.
    + rewrite string_app_nil_l. by rewrite substring_all.
    + rewrite string_app_cons. f_equal. apply IH. lia.
Qed.

Lemma substr_to_length (n : nat) (s : string) :
  n ≤ String.length s → String.length (substr 0 n s) = n.
Proof.
  unfold substr. revert n. induction s as [|c s IH]; intros n Hn; simpl in *.
  - by assert (n = 0) as -> by lia.
  - destruct n as [|n]; simpl; [done |]. rewrite IH; lia.
Qed.

Lemma without_trailing_slash_cons (c : ascii) (s : string) :
  s ≠ "" → without_trailing_slash (String c s) = String c (without_trailing_slash s).
Proof. by destruct s. Qed.

Lemma back_cons (c : ascii) (s : string) : s ≠ "" → back (String c s) = back s.
Proof. by destruct s. Qed.

Lemma without_trailing_slash_one (c : ascii) :
  without_trailing_slash (String c "") = if Ascii.eqb c slash then "" else String c "".
Proof. done. Qed.

(** The size that [changeRootPath] computes for a root is the length of the
    root without its trailing separator, and the prefix of that size is that
    root. *)
Lemma strip_size (s : string) :
  (if (0 <? String.length s) && bool_decide (back s = Some slash)
   then String.length s - 1 else String.length s)
  = String.length (without_trailing_slash s).
Proof.
  induction s as [|c s IH]; [done |].
  destruct (decide (s = "")) as [-> | Hne].
  - rewrite without_trailing_slash_one. cbn [back String.length Nat.ltb Nat.leb andb].
    destruct (Ascii.eqb c slash) eqn:E.
    + apply Ascii.eqb_eq in E as ->. by rewrite bool_decide_eq_true_2.
    + rewrite bool_decide_eq_false_2; [done |]. intros [= ->].
      by rewrite Ascii.eqb_refl in E.
  - rewrite without_trailing_slash_cons, back_cons by done.
    cbn [String.length]. rewrite <- IH.
    assert ((0 <? String.length s) = true) as -> by (by destruct s).
    change (0 <? S _) with true. cbn [andb].
    destruct (bool_decide (back s = Some slash)); [| done].
    destruct s; [done |]. simpl. lia.
Qed.

Lemma substr_without_trailing_slash (s : string) :
  substr 0 (String.length (without_trailing_slash s)) s = without_trailing_slash s.
Proof.
  unfold substr. induction s as [|c s IH]; [done |].
  destruct (decide (s = "")) as [-> | Hne].
  - rewrite without_trailing_slash_one. by destruct (Ascii.eqb c slash).
  - rewrite without_trailing_slash_cons by done.
    cbn [String.length String.substring]. by rewrite IH.
Qed.

Lemma without_trailing_slash_app (s : string) :
  back s ≠ Some slash → without_trailing_slash (s +:+ "/") = s.
Proof.
  induction s as [|c s IH]; [done |]. intros Hback.
  rewrite string_app_cons.
  destruct (decide (s = "")) as [-> | Hne]; [done |].
  rewrite back_cons in Hback by done.
  rewrite without_trailing_slash_cons, IH; [done.. |].
  destruct s; [done |]. by rewrite string_app_cons.
Qed.

Lemma without_trailing_slash_id (s : string) :
  back s ≠ Some slash → without_trailing_slash s = s.
Proof.
  induction s as [|c s IH]; [done |]. intros Hback.
  destruct (decide (s = "")) as [-> | Hne].
  - rewrite without_trailing_slash_one. destruct (Ascii.eqb c slash) eqn:E; [| done].
    apply Ascii.eqb_eq in E as ->. done.
  - rewrite back_cons in Hback by done. by rewrite without_trailing_slash_cons, IH.
Qed.

Lemma changeRootPath_Ok (from_root to_root rest : string) (this : DataPartStorageOnDisk) :
  root_path this = without_trailing_slash from_root +:+ rest →
  changeRootPath from_root to_root this
  = (Ok (), {| root_path := without_trailing_slash to_root +:+ rest;
               part_dir := part_dir this |}).
Proof.
  intros Hroot. unfold changeRootPath. cbv zeta.
  rewrite !strip_size, !substr_without_trailing_slash, Hroot.
  rewrite substr_to_app, substr_from_app, String.eqb_refl.
  rewrite MemDiskKeys.string_app_length.
  destruct (_ <? _) eqn:E; [apply Nat.ltb_lt in E; lia | done].
Qed.

Lemma changeRootPath_Exc (from_root to_root : string) (this : DataPartStorageOnDisk) :
  (∀ rest, root_path this ≠ without_trailing_slash from_root +:+ rest) →
  changeRootPath from_root to_root this
  = (Exc (DBException ErrorCodes.LOGICAL_ERROR), this).
Proof.
  intros Hno. unfold changeRootPath. cbv zeta.
  rewrite !strip_size, !substr_without_trailing_slash.
  destruct (_ <? _) eqn:E; [done |]. apply Nat.ltb_ge in E.
  destruct (String.eqb _ _) eqn:Eeq; [| done].
  apply String.eqb_eq in Eeq.
  set (n := String.length (without_trailing_slash from_root)) in *.
  destruct (Hno (substr_from n (root_path this))).
  rewrite (substr_split n (root_path this)) at 1 by done. by f_equal.
Qed.

Lemma changeRootPath_Ok_inv (from_root to_root : string)
    (this this' : DataPartStorageOnDisk) :
  changeRootPath from_root to_root this = (Ok (), this') →
  ∃ rest, root_path this = without_trailing_slash from_root +:+ rest
          ∧ this' = {| root_path := without_trailing_slash to_root +:+ rest;
                       part_dir := part_dir this |}.
Proof.
  intros Hrun.
  set (n := String.length (without_trailing_slash from_root)).
  destruct (decide (n ≤ String.length (root_path this)
                    ∧ without_trailing_slash from_root = substr 0 n (root_path this)))
    as [[Hn Heq] | Hno].
  - exists (substr_from n (root_path this)).
    assert (root_path this
            = without_trailing_slash from_root +:+ substr_from n (root_path this)) as Hroot.
    { rewrite (substr_split n (root_path this)) at 1 by done. by f_equal. }
    split; [done |].
    rewrite (changeRootPath_Ok _ _ _ _ Hroot) in Hrun. by injection Hrun as <-.
  - rewrite changeRootPath_Exc in Hrun; [done |].
    intros rest Hroot. apply Hno. rewrite Hroot. unfold n. split.
    + rewrite MemDiskKeys.string_app_length. lia.
    + by rewrite substr_to_app.
Qed.

(** X1.  [changeRootPath] replaces a prefix of the root path, read as a
    sequence of characters: it returns normally exactly when the root path
    starts with [from_root] (less one trailing separator); then the new root
    path is [to_root] (less one trailing separator) followed by the rest of
    the old one, and the part directory is kept.  Otherwise it throws
    [LOGICAL_ERROR] and leaves the object as it was. *)
Theorem changeRootPath_prefix (from_root to_root : string) (this : DataPartStorageOnDisk) :
  match changeRootPath from_root to_root this with
  | (Ok _, this') =>
      ∃ rest, root_path this = without_trailing_slash from_root +:+ rest
              ∧ root_path this' = without_trailing_slash to_root +:+ rest
              ∧ part_dir this' = part_dir this
  | (Exc e, this') =>
      e = DBException ErrorCodes.LOGICAL_ERROR ∧ this' = this
      ∧ ∀ rest, root_path this ≠ without_trailing_slash from_root +:+ rest
  end.
Proof.
  destruct (changeRootPath from_root to_root this) as [[[]|e] this'] eqn:Hrun.
  - apply changeRootPath_Ok_inv in Hrun as (rest & Hroot & ->). by exists rest.
  - assert (∀ rest, root_path this ≠ without_trailing_slash from_root +:+ rest) as Hno.
    { intros rest Hroot. by rewrite (changeRootPath_Ok _ _ _ _ Hroot) in Hrun. }
    rewrite changeRootPath_Exc in Hrun by done. by injection Hrun as <- <-.
Qed.

(** X2.  Changing the root back undoes the change: after a successful
    [changeRootPath from_root to_root], the call with the two roots exchanged
    returns normally and restores the storage object. *)
Theorem changeRootPath_round_trip (from_root to_root : string)
    (this this' : DataPartStorageOnDisk) :
  changeRootPath from_root to_root this = (Ok (), this') →
  changeRootPath to_root from_root this' = (Ok (), this).
Proof.
  intros (rest & Hroot & ->)%changeRootPath_Ok_inv.
  rewrite (changeRootPath_Ok to_root from_root rest) by done.
  cbn [part_dir]. rewrite <- Hroot. by destruct this.
Qed.

(** X3.  One trailing separator on either root makes no difference to
    [changeRootPath]. *)
Theorem changeRootPath_trailing_slash (from_root to_root : string)
    (this : DataPartStorageOnDisk) :
  back from_root ≠ Some slash → back to_root ≠ Some slash →
  changeRootPath (from_root +:+ "/") (to_root +:+ "/") this
  = changeRootPath from_root to_root this.
Proof.
  intros Hfrom Hto.
  assert (without_trailing_slash (from_root +:+ "/") = without_trailing_slash from_root)
    as Ha by (by rewrite without_trailing_slash_app, without_trailing_slash_id).
  assert (without_trailing_slash (to_root +:+ "/") = without_trailing_slash to_root)
    as Hb by (by rewrite without_trailing_slash_app, without_trailing_slash_id).
  destruct (changeRootPath from_root to_root this) as [[[]|e] this'] eqn:Hrun.
  - apply changeRootPath_Ok_inv in Hrun as (rest & Hroot & ->).
    rewrite (changeRootPath_Ok _ _ rest); [by rewrite Hb | by rewrite Ha].
  - assert (∀ rest, root_path this ≠ without_trailing_slash from_root +:+ rest) as Hno.
    { intros rest Hroot. by rewrite (changeRootPath_Ok _ _ _ _ Hroot) in Hrun. }
    rewrite changeRootPath_Exc in Hrun by done.
    rewrite changeRootPath_Exc; [done | by rewrite Ha].
Qed.

(** ** More path algebra *)

Lemma remove_filename_None (p : string) :
  after_last_slash p = None → remove_filename p = "".
Proof. destruct p as [|c p]; [done |]. intros E. unfold remove_filename. by rewrite E. Qed.

Lemma remove_filename_cons (c : ascii) (p : string) :
  remove_filename (String c p)
  = match after_last_slash (String c p) with
    | Some _ => String c (remove_filename p)
    | None => ""
    end.
Proof. done. Qed.

Lemma after_last_slash_cons (c : ascii) (p : string) :
  after_last_slash (String c p)
  = match after_last_slash p with
    | Some f => Some f
    | None => if Ascii.eqb c slash then Some p else None
    end.
Proof. done. Qed.

(** A path is its directory part followed by its last component. *)
Lemma remove_filename_filename (p : string) : remove_filename p +:+ filename p = p.
Proof.
  unfold filename. induction p as [|c p IH]; [done |].
  rewrite remove_filename_cons, after_last_slash_cons.
  destruct (after_last_slash p) as [f|] eqn:E; simpl in *.
  - by rewrite string_app_cons, IH.
  - rewrite (remove_filename_None p E).
    by destruct (Ascii.eqb c slash).
Qed.

Lemma after_last_slash_remove_filename (p : string) :
  after_last_slash (remove_filename p)
  = match after_last_slash p with Some _ => Some "" | None => None end.
Proof.
  induction p as [|c p IH]; [done |].
  rewrite remove_filename_cons, after_last_slash_cons.
  destruct (after_last_slash p) as [f|] eqn:E.
  - rewrite after_last_slash_cons, IH. done.
  - rewrite (remove_filename_None p E).
    destruct (Ascii.eqb c slash) eqn:Ec; [| done].
    rewrite after_last_slash_cons. simpl. by rewrite Ec.
Qed.

Lemma has_filename_remove_filename (p : string) : has_filename (remove_filename p) = false.
Proof.
  apply has_filename_false. rewrite after_last_slash_remove_filename.
  destruct (after_last_slash p) as [f|] eqn:E; [by right | left].
  by apply remove_filename_None.
Qed.

Lemma after_last_slash_None (s : string) : after_last_slash s = None ↔ no_slash s = true.
Proof.
  induction s as [|c s IH]; [done |].
  rewrite after_last_slash_cons. simpl.
  destruct (after_last_slash s) as [f|].
  - split; [done |]. intros [_ Hs]%andb_true_iff. by apply IH in Hs.
  - destruct (Ascii.eqb c slash); [done |]. simpl. split; [intros _; by apply IH | done].
Qed.

Lemma no_slash_filename (p : string) : no_slash (filename p) = true.
Proof.
  unfold filename. destruct (after_last_slash p) as [f|] eqn:E; simpl.
  - induction p as [|c p IH]; [done |].
    rewrite after_last_slash_cons in E.
    destruct (after_last_slash p) as [g|] eqn:Eg; [by apply IH |].
    destruct (Ascii.eqb c slash); [| done]. injection E as <-.
    by apply after_last_slash_None.
  - by apply after_last_slash_None.
Qed.

(** Splitting a path as [rename] does and composing the two halves again
    gives the path back. *)
Lemma path_append_split (p : string) : remove_filename p // filename p = p.
Proof.
  unfold path_append.
  rewrite (MemDiskKeys.no_slash_relative _ (no_slash_filename p)).
  rewrite has_filename_remove_filename. apply remove_filename_filename.
Qed.

(** A trailing separator on the left operand does not show in a
    composition. *)
Lemma path_append_empty_l (p q : string) : (p // "") // q = p // q.
Proof.
  unfold path_append. simpl. destruct (is_absolute q); [done |].
  destruct (has_filename p) eqn:Hp.
  - rewrite string_app_nil_r.
    assert (has_filename (p +:+ "/") = false) as ->; [| by rewrite string_app_assoc].
    apply has_filename_false. right. by rewrite after_last_slash_app.
  - by rewrite string_app_nil_r, Hp.
Qed.

Section FurtherProperties.
Context {D : Type} `{!IDisk D}.

Abbreviation W := (World D).

(** ** rename, when it succeeds *)

Lemma rename_move_protocol_Ok_inv (this this' : DataPartStorageOnDisk) (w1 w' : W)
    (new_relative_path : string) (fsync_part_dir : bool) (now : Z) :
  let new_path := root_path this // new_relative_path in
  let to := root_path this // new_relative_path // "" in
  let from := getFullRelativePath this in
  rename_move_protocol this new_relative_path fsync_part_dir now (this, w1)
  = (Ok (), (this', w')) →
  this' = {| root_path := remove_filename new_path; part_dir := filename new_path |}
  ∧ ∃ d2 d3 d4,
      disk_call (SetLastModified from now) (disk w1) = (Ok (), d2)
      ∧ disk_call (MoveDirectory from to) d2 = (Ok (), d3)
      ∧ (if fsync_part_dir
         then disk_call (GetDirectorySyncGuard to) d3 = (Ok (), d4)
         else d4 = d3)
      ∧ w' = Build_World d4
               (trace w1 ++ [SetLastModified from now; MoveDirectory from to]
                ++ (if fsync_part_dir then [GetDirectorySyncGuard to] else []))
               (logged w1).
Proof.
  intros new_path to from Hrun.
  unfold rename_move_protocol in Hrun. fold to from in Hrun. fold new_path in Hrun.
  rewrite path_append_split in Hrun. fold to in Hrun.
  unfold_monad. simpl in Hrun. rewrite call_unfold in Hrun. simpl in Hrun.
  destruct (disk_call (SetLastModified from now) (disk w1)) as [[[]|e] d2] eqn:Hset;
    simpl in Hrun; [| done].
  rewrite call_unfold in Hrun. simpl in Hrun.
  destruct (disk_call (MoveDirectory from to) d2) as [[[]|e] d3] eqn:Hmove;
    simpl in Hrun; [| done].
  destruct fsync_part_dir; simpl in Hrun.
  - rewrite call_unfold in Hrun. simpl in Hrun.
    change (new_path // "") with to in Hrun.
    destruct (disk_call (GetDirectorySyncGuard to) d3) as [[[]|e] d4] eqn:Hsync;
      simpl in Hrun; [| done].
    injection Hrun as <- <-. split; [done |]. exists d2, d3, d4.
    by rewrite <- !app_assoc.
  - injection Hrun as <- <-. split; [done |]. exists d2, d3, d3.
    by rewrite <- !app_assoc.
Qed.


Lemma rename_Ok_inv (this this' : DataPartStorageOnDisk) (w w' : W)
    (new_relative_path : string) (remove_new_dir_if_exists fsync_part_dir : bool) (now : Z) :
  let new_path := root_path this // new_relative_path in
  let to := root_path this // new_relative_path // "" in
  rename new_relative_path remove_new_dir_if_exists fsync_part_dir now (this, w)
  = (Ok (), (this', w')) →
  disk_exists (disk w) (root_path this // part_dir this) = true
  ∧ has_filename new_path = true
  ∧ ∃ w1,
      (if disk_exists (disk w) to
       then remove_new_dir_if_exists = true
            ∧ ∃ files d1,
                disk_listFiles (disk w) to = Ok files
                ∧ disk_call (RemoveRecursive to) (disk w) = (Ok (), d1)
                ∧ w1 = Build_World d1 (trace w ++ [RemoveRecursive to])
                         (logged w ++ [Build_LogLine Warning
                            "Part directory {} already exists and contains {} files. Removing it."
                            [fullPath (disk w) to; toString (length files)]])
       else w1 = w)
      ∧ rename_move_protocol this new_relative_path fsync_part_dir now (this, w1)
        = (Ok (), (this', w')).
Proof.
  intros new_path to Hrun.
  unfold rename, exists_, ask, query, LOG in Hrun. unfold_monad. simpl in Hrun.
  destruct (disk_exists (disk w) (root_path this // part_dir this)) eqn:Hpart;
    simpl in Hrun; [| done].
  fold to in Hrun. fold new_path in Hrun.
  destruct (has_filename new_path) eqn:Hname; simpl in Hrun; [| done].
  split; [done |]. split; [done |].
  destruct (disk_exists (disk w) to) eqn:Hto.
  - destruct remove_new_dir_if_exists; [| done]. simpl in Hrun.
    destruct (disk_listFiles (disk w) to) as [files|e] eqn:Hlist; [| done].
    simpl in Hrun. rewrite call_unfold in Hrun. simpl in Hrun.
    destruct (disk_call (RemoveRecursive to) (disk w)) as [[[]|e] d1] eqn:Hrm; [| done].
    simpl in Hrun.
    eexists. split; [split; [done |]; exists files, d1; eauto |].
    rewrite <- Hrun. unfold rename_move_protocol. unfold_monad. simpl.
    destruct (call _ _) as [[[]|e] w2]; [| done]. simpl.
    by destruct (call _ w2) as [[[]|e] w3].
  - exists w. split; [done |].
    rewrite <- Hrun. unfold rename_move_protocol. unfold_monad. simpl.
    destruct (call _ _) as [[[]|e] w2]; [| done]. simpl.
    by destruct (call _ w2) as [[[]|e] w3].
Qed.

(** X4.  When [rename] returns normally, the storage object names the
    directory that the part was moved to: composing its new [root_path] and
    [part_dir] gives back [root_path / new_relative_path], and its full
    relative path is the target of the move.  The disk has been asked, in this
    order, to remove the destination recursively (only if it existed), to set
    the modification time of the source, to move the source to the
    destination exactly once, and (only with [fsync_part_dir]) for a sync
    guard on the destination. *)
Theorem rename_success (this this' : DataPartStorageOnDisk) (w w' : W)
    (new_relative_path : string) (remove_new_dir_if_exists fsync_part_dir : bool) (now : Z) :
  let to := root_path this // new_relative_path // "" in
  let from := getFullRelativePath this in
  rename new_relative_path remove_new_dir_if_exists fsync_part_dir now (this, w)
  = (Ok (), (this', w')) →
  root_path this' // part_dir this' = root_path this // new_relative_path
  ∧ getFullRelativePath this' = to
  ∧ trace w'
    = trace w
      ++ (if disk_exists (disk w) to then [RemoveRecursive to] else [])
      ++ [SetLastModified from now; MoveDirectory from to]
      ++ (if fsync_part_dir then [GetDirectorySyncGuard to] else []).
Proof.
  intros to from Hrun.
  apply rename_Ok_inv in Hrun as (_ & _ & w1 & Hclear & Hrun).
  apply rename_move_protocol_Ok_inv in Hrun as (-> & d2 & d3 & d4 & _ & _ & _ & ->).
  fold to from in Hclear |- *. unfold getFullRelativePath. cbn [root_path part_dir trace].
  rewrite path_append_split. split; [done |]. split; [done |].
  destruct (disk_exists (disk w) to).
  - destruct Hclear as (_ & files & d1 & _ & _ & ->). cbn [trace].
    by rewrite <- !app_assoc.
  - by subst w1.
Qed.

(** ** remove, when things go wrong *)

(** X5.  When the move to [delete_tmp_<part_dir>] fails, [remove] deletes
    nothing, whatever the manifest and the projections are: the move is the
    only call it has issued.  If the failure is a [filesystem_error] with
    code [no_such_file_or_directory] (the part directory is gone), the method
    logs one error and returns normally; any other exception leaves the
    method unchanged and unlogged. *)
Theorem remove_move_fails (this : DataPartStorageOnDisk)
    (can_remove_shared_data : bool) (names_not_to_remove : NameSet)
    (checksums : MergeTreeDataPartChecksums.t) (projections : list ProjectionChecksums.t)
    (w : W) (e : exn) (d' : D) :
  let from := root_path this // part_dir this in
  let to := root_path this // ("delete_tmp_" +:+ part_dir this) in
  disk_exists (disk w) to = false →
  disk_call (MoveDirectory from to) (disk w) = (Exc e, d') →
  remove this can_remove_shared_data names_not_to_remove checksums projections w
  = match e with
    | FilesystemError no_such_file_or_directory =>
        (Ok (),
         Build_World d' (trace w ++ [MoveDirectory from to])
           (logged w ++ [Build_LogLine Error
              "Directory {} (part to remove) doesn't exist or one of nested files has gone. Most likely this is due to manual removing. This should be discouraged. Ignoring."
              [fullPath d' to]]))
    | _ => (Exc e, Build_World d' (trace w ++ [MoveDirectory from to]) (logged w))
    end.
Proof.
  intros from to Hto Hmove.
  unfold remove, remove_rename_to_delete_tmp. fold from to.
  unfold ask, LOG. unfold_monad. cbn [disk trace logged].
  rewrite Hto. unfold ret. cbv beta iota. rewrite call_unfold, Hmove.
  cbn [fst snd disk trace logged].
  by destruct e as [code | what | [] | what].
Qed.

(** X6.  When a stale [delete_tmp_<part_dir>] exists and cannot be removed,
    [remove] logs the warning about the stale directory and then the error,
    throws the exception of the failed removal, and does not attempt the
    move: the part stays where it is. *)
Theorem remove_stale_cleanup_fails (this : DataPartStorageOnDisk)
    (can_remove_shared_data : bool) (names_not_to_remove : NameSet)
    (checksums : MergeTreeDataPartChecksums.t) (projections : list ProjectionChecksums.t)
    (w : W) (e : exn) (d' : D) :
  let to := root_path this // ("delete_tmp_" +:+ part_dir this) in
  let cleanup :=
    RemoveSharedRecursive (to // "") (negb can_remove_shared_data) names_not_to_remove in
  disk_exists (disk w) to = true →
  disk_call cleanup (disk w) = (Exc e, d') →
  remove this can_remove_shared_data names_not_to_remove checksums projections w
  = (Exc e,
     Build_World d' (trace w ++ [cleanup])
       (logged w
        ++ [Build_LogLine Warning
              "Directory {} (to which part must be renamed before removing) already exists. Most likely this is due to unclean restart or race condition. Removing it."
              [fullPath (disk w) to];
            Build_LogLine Error "Cannot recursively remove directory {}. Exception: {}"
              [fullPath d' to; exn_what e]])).
Proof.
  intros to cleanup Hto Hrm.
  unfold remove, remove_rename_to_delete_tmp. fold to. fold cleanup.
  unfold ask, LOG. unfold_monad. cbn [disk trace logged].
  rewrite Hto. cbv beta iota. rewrite call_unfold. cbn [disk trace logged].
  rewrite Hrm. cbn [fst snd disk trace logged].
  by rewrite <- app_assoc.
Qed.

(** ** Files written through a temporary file *)

Section VersionFurther.
Context `{!TxSentinels} `{!VersionCodec}.

(** The disk calls write no log line. *)
Lemma call_quiet (c : Call) (w : W) : logged (call c w).2 = logged w.
Proof. by rewrite call_unfold. Qed.

Lemma bind_quiet {A B} (m : M W A) (k : A → M W B) :
  (∀ w, logged (m w).2 = logged w) →
  (∀ a w, logged (k a w).2 = logged w) →
  ∀ w, logged ((m ≫= k) w).2 = logged w.
Proof.
  intros Hm Hk w. unfold mbind, M_bind, bind. specialize (Hm w).
  destruct (m w) as [[a|e] w1]; [| done]. cbn [snd] in Hm. by rewrite Hk.
Qed.

(** X7.  [writeVersionMetadata] returns normally exactly when writing the
    temporary file, taking the sync guard (if asked for) and replacing the
    version file all do; otherwise it throws the exception of the step that
    failed first.  A failure while the temporary file is cleaned up is never
    thrown in its place: it is logged, as one error line that carries the
    message of the failed removal.  The method logs nothing else, so the log
    grows by that line exactly when a step has failed, the temporary file was
    still there and its removal threw; and that removal is the one call made
    beyond the steps, exactly when a step has failed and the temporary file
    was still there. *)
Theorem writeVersionMetadata_outcome (this : DataPartStorageOnDisk)
    (version : VersionMetadata) (fsync_part_dir : bool) (w : W) :
  let path := root_path this // part_dir this // "txn_version.txt" in
  let steps :=
    call (WriteFile (path +:+ ".tmp") Rewrite (version_write version));;
    when fsync_part_dir (call (GetDirectorySyncGuard (getFullRelativePath this)));;
    call (ReplaceFile (path +:+ ".tmp") path) in
  let cleanup := disk_call (RemoveFile (path +:+ ".tmp")) (disk (steps w).2) in
  let written := writeVersionMetadata this version fsync_part_dir w in
  written.1 = (steps w).1
  ∧ logged written.2
    = logged w
      ++ match (steps w).1, disk_exists (disk (steps w).2) (path +:+ ".tmp"), cleanup.1 with
         | Exc _, true, Exc e' => [Build_LogLine Error "DataPartStorageOnDisk" [exn_what e']]
         | _, _, _ => []
         end
  ∧ trace written.2
    = trace (steps w).2
      ++ match (steps w).1, disk_exists (disk (steps w).2) (path +:+ ".tmp") with
         | Exc _, true => [RemoveFile (path +:+ ".tmp")]
         | _, _ => []
         end.
Proof.
  intros path steps cleanup written.
  assert (logged (steps w).2 = logged w) as Hquiet.
  { unfold steps. apply bind_quiet; [apply call_quiet | intros _].
    apply bind_quiet; [| intros _; apply call_quiet].
    destruct fsync_part_dir; [apply call_quiet | done]. }
  unfold written, cleanup, writeVersionMetadata. fold path. fold steps.
  unfold try_catch, catch_all. rewrite <- Hquiet.
  destruct (steps w) as [[[]|e] w1]; cbn [fst snd].
  { by rewrite !app_nil_r. }
  (* the cleanup: whatever it does, the handler ends in [throw e] *)
  unfold ask, LOG. unfold_monad. cbn [disk].
  destruct (disk_exists (disk w1) (path +:+ ".tmp")).
  - rewrite call_unfold.
    destruct (disk_call (RemoveFile (path +:+ ".tmp")) (disk w1)) as [[[]|e'] d];
      cbn [fst snd disk trace logged]; by rewrite ?app_nil_r.
  - cbv beta iota. cbn [fst snd]. by rewrite !app_nil_r.
Qed.

(** X8.  [loadVersionMetadata] never writes: whatever the disk holds and
    however the method ends, the only call it can have issued is the removal
    of the temporary version file, at most once and only if that file
    existed; the disk is otherwise as it was. *)
Theorem loadVersionMetadata_only_removes_tmp (this : DataPartStorageOnDisk)
    (into : VersionMetadata) (w : W) :
  let tmp := (root_path this // part_dir this // "txn_version.txt") +:+ ".tmp" in
  let w' := (loadVersionMetadata this (into, w)).2.2 in
  (trace w' = trace w ∧ disk w' = disk w)
  ∨ (disk_exists (disk w) tmp = true
     ∧ trace w' = trace w ++ [RemoveFile tmp]
     ∧ disk w' = (disk_call (RemoveFile tmp) (disk w)).2).
Proof.
  intros tmp w'. unfold w', loadVersionMetadata, remove_tmp_file. fold tmp.
  unfold ask, query, LOG. unfold_monad. cbn [disk trace logged].
  destruct (disk_exists (disk w) (root_path this // part_dir this // "txn_version.txt")).
  - destruct (openForReading (disk w) _) as [buf|e]; [| by left].
    destruct (version_read buf into) as [[[]|e] v]; [| by left].
    cbn [disk]. destruct (disk_exists (disk w) tmp) eqn:Htmp; [| by left].
    unfold when. cbn [disk trace logged].
    destruct (disk_getLastModified (disk w) tmp) as [t|e]; [| by left].
    destruct (openForReading (disk w) tmp) as [c|e]; [| by left].
    cbn [disk trace logged]. rewrite call_unfold. cbn [fst snd disk trace logged].
    right. by destruct (disk_call (RemoveFile tmp) (disk w)) as [[[]|e] d].
  - cbn [disk]. destruct (disk_exists (disk w) tmp) eqn:Htmp; [| by left].
    cbn [negb]. cbv iota. unfold setCreationTID, set_creation_csn. cbn [disk trace logged].
    destruct (disk_getLastModified (disk w) tmp) as [t|e]; [| by left].
    destruct (openForReading (disk w) tmp) as [c|e]; [| by left].
    cbn [disk trace logged]. rewrite call_unfold. cbn [fst snd disk trace logged].
    right. by destruct (disk_call (RemoveFile tmp) (disk w)) as [[[]|e] d].
Qed.

End VersionFurther.

Section PartFilesFurther.
Context `{!IDiskMore D} `{!PartCodec}.

(** X9.  [writeChecksums] and [writeColumns] return normally exactly when
    writing the temporary file and moving it onto [checksums.txt]
    (respectively [columns.txt]) both do; otherwise they throw the exception
    of the step that failed, never one raised while cleaning up. *)
Theorem writeChecksums_writeColumns_outcome (this : DataPartStorageOnDisk)
    (checksums : MergeTreeDataPartChecksums.t) (columns : NamesAndTypesList) (w : W) :
  let checksums_path := root_path this // part_dir this // "checksums.txt" in
  let columns_path := root_path this // part_dir this // "columns.txt" in
  (writeChecksums this checksums w).1
  = ((call (WriteFile (checksums_path +:+ ".tmp") Rewrite (checksums_write checksums));;
      move_file (checksums_path +:+ ".tmp") checksums_path) w).1
  ∧ (writeColumns this columns w).1
    = ((call (WriteFile (columns_path +:+ ".tmp") Rewrite (columns_writeText columns));;
        move_file (columns_path +:+ ".tmp") columns_path) w).1.
Proof.
  intros checksums_path columns_path. split.
  - unfold writeChecksums. fold checksums_path.
    unfold try_catch at 1, catch_all at 1.
    destruct ((call (WriteFile (checksums_path +:+ ".tmp") Rewrite
                       (checksums_write checksums));;
               move_file (checksums_path +:+ ".tmp") checksums_path) w) as [[[]|e] w1];
      [done |].
    unfold ask, LOG. unfold_monad. cbn [disk].
    destruct (disk_exists (disk w1) (checksums_path +:+ ".tmp")); [| done].
    rewrite call_unfold.
    by destruct (disk_call (RemoveFile (checksums_path +:+ ".tmp")) (disk w1))
      as [[[]|e'] d].
  - unfold writeColumns. fold columns_path.
    unfold try_catch at 1, catch_all at 1.
    destruct ((call (WriteFile (columns_path +:+ ".tmp") Rewrite
                       (columns_writeText columns));;
               move_file (columns_path +:+ ".tmp") columns_path) w) as [[[]|e] w1];
      [done |].
    unfold ask, LOG. unfold_monad. cbn [disk].
    destruct (disk_exists (disk w1) (columns_path +:+ ".tmp")); [| done].
    rewrite call_unfold.
    by destruct (disk_call (RemoveFile (columns_path +:+ ".tmp")) (disk w1))
      as [[[]|e'] d].
Qed.

End PartFilesFurther.

End FurtherProperties.

(** ** On the in-memory disk *)

Section FurtherOnMemDisk.
Import MemDisk MemDiskKeys MemDiskMore.

Abbreviation MW := (World (gmap key node)).

Lemma list_app_ne {A} (l r : list A) : r ≠ [] → l ++ r ≠ l.
Proof.
  intros Hr Heq. apply (f_equal length) in Heq. rewrite length_app in Heq.
  destruct r; [done | simpl in Heq; lia].
Qed.

(** The keys of a file of the part and of its temporary sibling. *)
Lemma part_file_keys (this : DataPartStorageOnDisk) (name : string) :
  let path := root_path this // part_dir this // name in
  no_slash name = true → name ≠ "" →
  components path = components (root_path this // part_dir this) ++ [name]
  ∧ components (path +:+ ".tmp")
    = components (root_path this // part_dir this) ++ [name +:+ ".tmp"]
  ∧ components path ≠ [] ∧ components (path +:+ ".tmp") ≠ []
  ∧ components (path +:+ ".tmp") ≠ components path
  ∧ parent (components (path +:+ ".tmp")) = parent (components path).
Proof.
  intros path Hplain Hne.
  assert (no_slash (name +:+ ".tmp") = true) as Hplain'.
  { clear Hne. induction name as [|c name IH]; [done |].
    rewrite string_app_cons. simpl in *. apply andb_true_iff in Hplain as [-> ?]. auto. }
  assert (name +:+ ".tmp" ≠ "") as Hne' by (destruct name; done).
  assert (components path = components (root_path this // part_dir this) ++ [name]) as Hk.
  { unfold path. rewrite components_path_append by by apply no_slash_relative.
    by rewrite (components_plain name). }
  assert (components (path +:+ ".tmp")
          = components (root_path this // part_dir this) ++ [name +:+ ".tmp"]) as Htmp.
  { unfold path. rewrite path_append_suffix by by apply no_slash_relative.
    rewrite components_path_append by by apply no_slash_relative.
    by rewrite (components_plain (name +:+ ".tmp")). }
  rewrite Hk, Htmp. repeat split.
  - by intros [_ ?]%app_eq_nil.
  - by intros [_ ?]%app_eq_nil.
  - intros Heq%app_inv_head. injection Heq as Heq.
    apply (f_equal String.length) in Heq. rewrite string_app_length in Heq.
    simpl in Heq. lia.
  - unfold parent. by rewrite !removelast_last.
Qed.

(** What is left after the cleanup of a failed write: the handler throws
    what it was given, the temporary path does not hold a file, and nothing
    else has changed. *)
Lemma cleanup_mem (tmp : string) (e : exn) (w1 : MW) :
  ∃ w',
    (try_catch
       (tmp_exists ← ask (λ d, disk_exists d tmp);
        when tmp_exists (call (RemoveFile tmp)))
       (catch_all (λ e', LOG Error "DataPartStorageOnDisk" [exn_what e']));;
     (throw e : M MW unit)) w1 = (Exc e, w')
    ∧ (∀ j, j ≠ components tmp → disk w' !! j = disk w1 !! j)
    ∧ is_file (disk w') (components tmp) = false.
Proof.
  unfold ask, LOG. unfold_monad. cbn [disk].
  change (disk_exists (disk w1) tmp) with (present (disk w1) (components tmp)).
  destruct (present (disk w1) (components tmp)) eqn:Hpresent.
  - rewrite call_unfold.
    change (disk_call (RemoveFile tmp) (disk w1))
      with (removeFile (components tmp) (disk w1)).
    unfold removeFile, ok, fail.
    destruct (is_file (disk w1) (components tmp)) eqn:Hfile; cbn [fst snd].
    + eexists. split; [reflexivity |]. cbn [disk]. split.
      * intros j Hj. by rewrite lookup_delete_ne.
      * unfold is_file, node_at in *. destruct (components tmp) as [|x k]; [done |].
        by rewrite lookup_delete_eq.
    + eexists. split; [reflexivity |]. by cbn [disk].
  - eexists. split; [reflexivity |]. split; [done |].
    unfold present, is_file in *. by destruct (node_at (disk w1) (components tmp)).
Qed.

Lemma writeFile_frame (k j : key) (mode : WriteMode) (content : string)
    (m : gmap key node) :
  j ≠ k → (writeFile k mode content m).2 !! j = m !! j.
Proof.
  intros Hj. unfold writeFile, ok, fail. destruct (is_dir m (parent k)); [| done].
  destruct (node_at m k) as [[old t | t]|]; cbn [snd]; by rewrite ?lookup_insert_ne.
Qed.

Lemma writeFile_Exc (k : key) (mode : WriteMode) (content : string)
    (m m' : gmap key node) (e : exn) :
  writeFile k mode content m = (Exc e, m') → m' = m.
Proof.
  unfold writeFile, ok, fail. destruct (is_dir m (parent k)); [| by intros [= _ <-]].
  by destruct (node_at m k) as [[old t | t]|]; intros [= _ <-].
Qed.

Lemma replaceFile_Exc (from to : key) (m m' : gmap key node) (e : exn) :
  replaceFile from to m = (Exc e, m') → m' = m.
Proof.
  unfold replaceFile, ok, fail.
  destruct (node_at m from) as [[c t | t]|]; [| by intros [= _ <-]..].
  by destruct (is_dir m (parent to) && negb (is_dir m to)); intros [= _ <-].
Qed.

Lemma moveFile_Exc (from to : key) (m m' : gmap key node) (e : exn) :
  moveFile from to m = (Exc e, m') → m' = m.
Proof.
  unfold moveFile, ok, fail.
  destruct (node_at m from) as [[c t | t]|]; [| by intros [= _ <-]..].
  destruct (present m to); [by intros [= _ <-] |].
  by destruct (is_dir m (parent to)); intros [= _ <-].
Qed.

Lemma moveFile_Ok (from to : key) (m m' : gmap key node) :
  from ≠ [] →
  moveFile from to m = (Ok (), m') →
  ∃ c t, m !! from = Some (File c t) ∧ m' = <[to := File c t]> (delete from m).
Proof.
  intros Hfrom. unfold moveFile, ok, fail. rewrite node_at_nonempty by done.
  destruct (m !! from) as [[c t | t]|]; [| done..].
  destruct (present m to); [done |].
  destruct (is_dir m (parent to)); [| done]. intros [= <-]. eauto.
Qed.

Lemma sync_guard_mem (p : string) (m m' : gmap key node) (r : Res unit) :
  run (GetDirectorySyncGuard p) m = (r, m') → m' = m.
Proof. unfold run, ok, fail. by destruct (is_dir m (components p)); intros [= _ <-]. Qed.

Lemma when_sync_mem (fsync : bool) (dir : string) (w1 : MW) :
  disk (when fsync (call (GetDirectorySyncGuard dir)) w1).2 = disk w1.
Proof.
  destruct fsync; [| done]. unfold when. rewrite call_unfold. cbn [snd disk].
  change (disk_call (GetDirectorySyncGuard dir) (disk w1))
    with (run (GetDirectorySyncGuard dir) (disk w1)).
  destruct (run _ _) as [r m'] eqn:E. by apply sync_guard_mem in E as ->.
Qed.

(** The steps of [writeVersionMetadata] on this disk. *)
Lemma write_replace_mem (path content dir : string) (fsync : bool) (w : MW) :
  let res := (call (WriteFile (path +:+ ".tmp") Rewrite content);;
              when fsync (call (GetDirectorySyncGuard dir));;
              call (ReplaceFile (path +:+ ".tmp") path)) w in
  components (path +:+ ".tmp") ≠ [] →
  components (path +:+ ".tmp") ≠ components path →
  (∀ j, j ≠ components path → j ≠ components (path +:+ ".tmp") →
        disk res.2 !! j = disk w !! j)
  ∧ match res.1 with
    | Ok _ => (∃ t, disk res.2 !! components path = Some (File content t))
              ∧ disk res.2 !! components (path +:+ ".tmp") = None
    | Exc _ => disk res.2 !! components path = disk w !! components path
               ∧ ∀ j, j ≠ components (path +:+ ".tmp") → disk res.2 !! j = disk w !! j
    end.
Proof.
  intros res Htmp Hne. unfold res. clear res.
  set (tmpk := components (path +:+ ".tmp")) in *. set (pathk := components path) in *.
  unfold_monad. rewrite call_unfold. cbn [disk trace logged].
  change (disk_call (WriteFile (path +:+ ".tmp") Rewrite content) (disk w))
    with (writeFile tmpk Rewrite content (disk w)).
  destruct (writeFile tmpk Rewrite content (disk w)) as [[[]|e] m1] eqn:Hwrite; cbn [fst snd].
  - apply writeFile_Ok in Hwrite as [t ->]; [| done].
    pose proof (when_sync_mem fsync dir
      (Build_World (<[tmpk:=File content t]> (disk w))
         (trace w ++ [WriteFile (path +:+ ".tmp") Rewrite content]) (logged w))) as Hsync.
    unfold when in Hsync.
    destruct ((if fsync then call (GetDirectorySyncGuard dir) else ret ()) _)
      as [[[]|e] w2]; cbn [snd disk] in Hsync.
    + rewrite call_unfold, Hsync. cbn [fst snd disk].
      change (disk_call (ReplaceFile (path +:+ ".tmp") path) (<[tmpk:=File content t]> (disk w)))
        with (replaceFile tmpk pathk (<[tmpk:=File content t]> (disk w))).
      destruct (replaceFile tmpk pathk _) as [[[]|e] m3] eqn:Hreplace; cbn [fst snd].
      * apply replaceFile_Ok in Hreplace as (c & t' & Hfrom & ->); [| done].
        rewrite lookup_insert_eq in Hfrom. injection Hfrom as <- <-.
        split; [| split].
        -- intros j Hj Hj'. by rewrite lookup_insert_ne, lookup_delete_ne, lookup_insert_ne.
        -- rewrite lookup_insert_eq. eauto.
        -- by rewrite lookup_insert_ne, lookup_delete_eq.
      * apply replaceFile_Exc in Hreplace as ->.
        split; [| split].
        -- intros j Hj Hj'. by rewrite lookup_insert_ne.
        -- by rewrite lookup_insert_ne.
        -- intros j Hj. by rewrite lookup_insert_ne.
    + cbn [fst snd]. rewrite Hsync. split; [| split].
      * intros j Hj Hj'. by rewrite lookup_insert_ne.
      * by rewrite lookup_insert_ne.
      * intros j Hj. by rewrite lookup_insert_ne.
  - apply writeFile_Exc in Hwrite as ->. by cbn [disk].
Qed.

Section VersionFurtherOnMemDisk.
Context `{!TxSentinels} `{!VersionCodec}.

(** X10.  On the in-memory disk [writeVersionMetadata] replaces the version
    file atomically.  If it returns normally, [txn_version.txt] holds the
    bytes that [VersionMetadata::write] produced; if it throws, that file is
    as it was before the call (present with its old bytes, or absent).  In
    both cases no temporary file is left behind and no other path of the
    disk has changed. *)
Theorem writeVersionMetadata_atomic (this : DataPartStorageOnDisk)
    (version : VersionMetadata) (fsync_part_dir : bool) (w : MW) :
  let path := root_path this // part_dir this // "txn_version.txt" in
  let res := writeVersionMetadata this version fsync_part_dir w in
  (∀ j, j ≠ components path → j ≠ components (path +:+ ".tmp") →
        disk res.2 !! j = disk w !! j)
  ∧ is_file (disk res.2) (components (path +:+ ".tmp")) = false
  ∧ match res.1 with
    | Ok _ => ∃ t, disk res.2 !! components path = Some (File (version_write version) t)
    | Exc _ => disk res.2 !! components path = disk w !! components path
    end.
Proof.
  intros path res.
  destruct (part_file_keys this "txn_version.txt" eq_refl ltac:(done))
    as (_ & _ & Hk & Htmp & Hne & _). fold path in Hk, Htmp, Hne.
  pose proof (write_replace_mem path (version_write version) (getFullRelativePath this)
                fsync_part_dir w Htmp Hne) as [Hframe Hsteps].
  destruct ((call (WriteFile (path +:+ ".tmp") Rewrite (version_write version));;
             when fsync_part_dir (call (GetDirectorySyncGuard (getFullRelativePath this)));;
             call (ReplaceFile (path +:+ ".tmp") path)) w) as [[[]|e] w1] eqn:Hbody;
    cbn [fst snd] in *.
  - assert (res = (Ok (), w1)) as ->.
    { unfold res, writeVersionMetadata, try_catch. fold path. by rewrite Hbody. }
    destruct Hsteps as [Hfile Hgone]. split; [exact Hframe |]. split; [| exact Hfile].
    cbn [snd]. unfold is_file. by rewrite node_at_nonempty, Hgone.
  - destruct Hsteps as [Hfile Hrest].
    destruct (cleanup_mem (path +:+ ".tmp") e w1) as (w' & Hcleanup & Hkept & Hnofile).
    assert (res = (Exc e, w')) as ->.
    { unfold res, writeVersionMetadata. fold path.
      unfold try_catch at 1, catch_all at 1. by rewrite Hbody. }
    cbn [fst snd]. split; [| split; [done |]].
    + intros j Hj Hj'. by rewrite Hkept, Hrest.
    + rewrite Hkept by done. exact Hfile.
Qed.

End VersionFurtherOnMemDisk.

(** The steps of [writeChecksums] and [writeColumns] on this disk. *)
Lemma write_move_mem (path content : string) (w : MW) :
  let res := (call (WriteFile (path +:+ ".tmp") Rewrite content);;
              move_file (path +:+ ".tmp") path) w in
  components (path +:+ ".tmp") ≠ [] →
  components (path +:+ ".tmp") ≠ components path →
  (∀ j, j ≠ components path → j ≠ components (path +:+ ".tmp") →
        disk res.2 !! j = disk w !! j)
  ∧ match res.1 with
    | Ok _ => (∃ t, disk res.2 !! components path = Some (File content t))
              ∧ disk res.2 !! components (path +:+ ".tmp") = None
    | Exc _ => disk res.2 !! components path = disk w !! components path
               ∧ ∀ j, j ≠ components (path +:+ ".tmp") → disk res.2 !! j = disk w !! j
    end.
Proof.
  intros res Htmp Hne. unfold res. clear res.
  set (tmpk := components (path +:+ ".tmp")) in *. set (pathk := components path) in *.
  unfold_monad. rewrite call_unfold. cbn [disk trace logged].
  change (disk_call (WriteFile (path +:+ ".tmp") Rewrite content) (disk w))
    with (writeFile tmpk Rewrite content (disk w)).
  destruct (writeFile tmpk Rewrite content (disk w)) as [[[]|e] m1] eqn:Hwrite; cbn [fst snd].
  - apply writeFile_Ok in Hwrite as [t ->]; [| done].
    unfold move_file. cbn [disk trace logged].
    change (disk_moveFile (path +:+ ".tmp") path (<[tmpk:=File content t]> (disk w)))
      with (moveFile tmpk pathk (<[tmpk:=File content t]> (disk w))).
    destruct (moveFile tmpk pathk _) as [[[]|e] m3] eqn:Hmove; cbn [fst snd disk].
    + apply moveFile_Ok in Hmove as (c & t' & Hfrom & ->); [| done].
      rewrite lookup_insert_eq in Hfrom. injection Hfrom as <- <-.
      split; [| split].
      * intros j Hj Hj'. by rewrite lookup_insert_ne, lookup_delete_ne, lookup_insert_ne.
      * rewrite lookup_insert_eq. eauto.
      * by rewrite lookup_insert_ne, lookup_delete_eq.
    + apply moveFile_Exc in Hmove as ->.
      split; [| split].
      * intros j Hj Hj'. by rewrite lookup_insert_ne.
      * by rewrite lookup_insert_ne.
      * intros j Hj. by rewrite lookup_insert_ne.
  - apply writeFile_Exc in Hwrite as ->. by cbn [disk].
Qed.

Lemma write_move_atomic (path content : string) (w : MW) :
  components (path +:+ ".tmp") ≠ [] →
  components (path +:+ ".tmp") ≠ components path →
  written_atomically path content w
    (try_catch
       (call (WriteFile (path +:+ ".tmp") Rewrite content);;
        move_file (path +:+ ".tmp") path)
       (catch_all (λ e,
          try_catch
            (tmp_exists ← ask (λ d, disk_exists d (path +:+ ".tmp"));
             when tmp_exists (call (RemoveFile (path +:+ ".tmp"))))
            (catch_all (λ e', LOG Error "DataPartStorageOnDisk" [exn_what e']));;
          throw e)) w).
Proof.
  intros Htmp Hne.
  pose proof (write_move_mem path content w Htmp Hne) as [Hframe Hsteps].
  unfold try_catch at 1, catch_all at 1.
  destruct ((call (WriteFile (path +:+ ".tmp") Rewrite content);;
             move_file (path +:+ ".tmp") path) w) as [[[]|e] w1] eqn:Hbody;
    cbn [fst snd] in *.
  - destruct Hsteps as [Hfile Hgone]. split; [exact Hframe |]. split; [| exact Hfile].
    cbn [snd]. unfold is_file. by rewrite node_at_nonempty, Hgone.
  - destruct Hsteps as [Hfile Hrest].
    destruct (cleanup_mem (path +:+ ".tmp") e w1) as (w' & -> & Hkept & Hnofile).
    split; [| split; [done |]]; cbn [fst snd].
    + intros j Hj Hj'. by rewrite Hkept, Hrest.
    + rewrite Hkept by done. exact Hfile.
Qed.

Section PartFilesOnMemDisk.
Context `{!PartCodec}.

(** X11.  On the in-memory disk [writeChecksums] and [writeColumns] write
    their file atomically.  If the method returns normally, [checksums.txt]
    (respectively [columns.txt]) holds the serialised value; if it throws, the
    file is as it was before the call.  In both cases no temporary file is
    left behind and no other path of the disk has changed. *)
Theorem writeChecksums_writeColumns_atomic (this : DataPartStorageOnDisk)
    (checksums : MergeTreeDataPartChecksums.t) (columns : NamesAndTypesList) (w : MW) :
  written_atomically (root_path this // part_dir this // "checksums.txt")
    (checksums_write checksums) w (writeChecksums this checksums w)
  ∧ written_atomically (root_path this // part_dir this // "columns.txt")
      (columns_writeText columns) w (writeColumns this columns w).
Proof.
  split.
  - destruct (part_file_keys this "checksums.txt" eq_refl ltac:(done))
      as (_ & _ & _ & Htmp & Hne & _).
    by apply write_move_atomic.
  - destruct (part_file_keys this "columns.txt" eq_refl ltac:(done))
      as (_ & _ & _ & Htmp & Hne & _).
    by apply write_move_atomic.
Qed.

End PartFilesOnMemDisk.

Section VersionRecordsOnMemDisk.
Context `{!TxSentinels} `{!VersionCodec} `{!VersionRecordCodec}.

Lemma writeVersionMetadata_Ok_parent (this : DataPartStorageOnDisk)
    (version : VersionMetadata) (fsync_part_dir : bool) (w w1 : MW) :
  let path := root_path this // part_dir this // "txn_version.txt" in
  writeVersionMetadata this version fsync_part_dir w = (Ok (), w1) →
  is_dir (disk w1) (parent (components path)) = true.
Proof.
  intros path Hrun.
  destruct (part_file_keys this "txn_version.txt" eq_refl ltac:(done))
    as (Hpathk & Htmpk & Hk & Htmp & Hne & Hparent). fold path in Hpathk, Htmpk, Hk, Htmp, Hne, Hparent.
  unfold writeVersionMetadata in Hrun. fold path in Hrun.
  apply try_catch_rethrow_Ok in Hrun.
  apply bind_Ok in Hrun as ([] & w2 & Hwrite & Hrun).
  apply bind_Ok in Hrun as ([] & w3 & Hsync & Hrun).
  apply call_Ok in Hwrite as (m1 & Hwrite & ->).
  apply call_Ok in Hrun as (m3 & Hreplace & ->).
  pose proof (when_sync_mem fsync_part_dir (getFullRelativePath this)
                (Build_World m1 (trace w ++ [WriteFile (path +:+ ".tmp") Rewrite
                                               (version_write version)]) (logged w))) as Hw3.
  rewrite Hsync in Hw3. cbn [snd disk] in Hw3. rewrite Hw3 in Hreplace.
  change (writeFile (components (path +:+ ".tmp")) Rewrite (version_write version) (disk w)
          = (Ok (), m1)) in Hwrite.
  change (replaceFile (components (path +:+ ".tmp")) (components path) m1 = (Ok (), m3))
    in Hreplace.
  cbn [disk].
  assert (is_dir (disk w) (parent (components path)) = true) as Hdir.
  { rewrite <- Hparent. unfold writeFile, fail in Hwrite.
    by destruct (is_dir (disk w) (parent (components (path +:+ ".tmp")))). }
  apply writeFile_Ok in Hwrite as [t ->]; [| done].
  apply replaceFile_Ok in Hreplace as (c & t' & _ & ->); [| done].
  unfold is_dir, node_at in *.
  rewrite Hpathk in *. unfold parent in *. rewrite removelast_last in *.
  destruct (components (root_path this // part_dir this)) as [|x k] eqn:Ek; [done |].
  rewrite lookup_insert_ne, lookup_delete_ne, lookup_insert_ne; [done | ..];
    rewrite ?Htmpk; by apply list_app_ne.
Qed.

Lemma append_record_mem (this : DataPartStorageOnDisk) (version into : VersionMetadata)
    (record : string) (fsync_part_dir : bool) (w w1 : MW) :
  let path := root_path this // part_dir this // "txn_version.txt" in
  writeVersionMetadata this version fsync_part_dir w = (Ok (), w1) →
  appends_record this version into record w1 (call (WriteFile path Append record) w1).
Proof.
  intros path Hwrite.
  destruct (part_file_keys this "txn_version.txt" eq_refl ltac:(done))
    as (_ & _ & Hk & Htmp & Hne & _). fold path in Hk, Htmp, Hne.
  pose proof (writeVersionMetadata_Ok_parent _ _ _ _ _ Hwrite) as Hdir.
  apply writeVersionMetadata_Ok in Hwrite as [[t Hfile] Hgone].
  fold path in Hdir, Hfile, Hgone.
  unfold appends_record. fold path. rewrite call_unfold.
  change (disk_call (WriteFile path Append record) (disk w1))
    with (writeFile (components path) Append record (disk w1)).
  unfold writeFile, ok. rewrite Hdir, node_at_nonempty, Hfile by done. cbn [fst snd disk].
  split; [done |]. split; [rewrite lookup_insert_eq; eauto |].
  split; [intros j Hj; by rewrite lookup_insert_ne |].
  unfold loadVersionMetadata. fold path.
  unfold ask, query, openForReading. unfold_monad.
  cbn [disk_exists disk_getFileSize disk_readFile mem_disk disk].
  unfold exists_, getFileSize, readFile, present. cbn [disk].
  rewrite node_at_nonempty, lookup_insert_eq by done. cbn beta iota zeta. cbn [disk].
  rewrite !node_at_nonempty, !lookup_insert_eq by done. cbn beta iota zeta.
  destruct (version_read (version_write version +:+ record) into) as [[[]|e] loaded];
    [| done].
  cbn [disk]. by rewrite node_at_nonempty, lookup_insert_ne, Hgone.
Qed.

(** X12.  On the in-memory disk, a record appended to a version file that
    [writeVersionMetadata] has written extends it in place: both
    [appendCSNToVersionMetadata] and [appendRemovalTIDToVersionMetadata]
    return normally, the file then holds the bytes that were written followed
    by the record, no other path changes (no temporary file is involved), and
    a later [loadVersionMetadata] parses exactly those bytes and leaves the
    world alone. *)
Theorem version_records_appended (this : DataPartStorageOnDisk)
    (version into record_version : VersionMetadata) (which_csn : WhichCSN) (clear : bool)
    (fsync_part_dir : bool) (w w1 : MW) :
  writeVersionMetadata this version fsync_part_dir w = (Ok (), w1) →
  appends_record this version into (version_writeCSN record_version which_csn) w1
    (appendCSNToVersionMetadata this record_version which_csn w1)
  ∧ appends_record this version into (version_writeRemovalTID record_version clear) w1
      (appendRemovalTIDToVersionMetadata this record_version clear w1).
Proof.
  intros Hwrite. split; by eapply append_record_mem.
Qed.

End VersionRecordsOnMemDisk.

(** ** The delete-on-destroy marker *)

(** X13.  On the in-memory disk, when nothing exists at the marker path,
    writing the delete-on-destroy marker and removing it again both return
    normally and leave the disk exactly as it was, whether or not the marker
    could be created. *)
Theorem delete_on_destroy_marker_round_trip (this : DataPartStorageOnDisk) (w : MW) :
  let marker_path := root_path this // part_dir this // "delete-on-destroy.txt" in
  disk_exists (disk w) marker_path = false →
  ∃ w1 w2,
    writeDeleteOnDestroyMarker this w = (Ok (), w1)
    ∧ removeDeleteOnDestroyMarker this w1 = (Ok (), w2)
    ∧ disk_exists (disk w2) marker_path = false
    ∧ disk w2 = disk w.
Proof.
  intros marker_path Habsent.
  destruct (part_file_keys this "delete-on-destroy.txt" eq_refl ltac:(done))
    as (_ & _ & Hk & _). fold marker_path in Hk.
  change (present (disk w) (components marker_path) = false) in Habsent.
  assert (disk w !! components marker_path = None) as Hnone.
  { unfold present in Habsent. rewrite node_at_nonempty in Habsent by done.
    by destruct (disk w !! components marker_path). }
  unfold writeDeleteOnDestroyMarker, removeDeleteOnDestroyMarker. fold marker_path.
  unfold ask, LOG. unfold_monad. rewrite call_unfold.
  change (disk_call (CreateFile marker_path) (disk w))
    with (createFile (components marker_path) (disk w)).
  unfold createFile, ok, fail. rewrite Habsent.
  destruct (is_dir (disk w) (parent (components marker_path))); cbn [andb negb fst snd].
  - eexists _, _. split; [reflexivity |]. rewrite call_unfold. cbn [disk trace logged].
    change (disk_call (RemoveFileIfExists marker_path) ?m)
      with (removeFileIfExists (components marker_path) m).
    unfold removeFileIfExists, ok. rewrite node_at_nonempty, lookup_insert_eq by done.
    cbn [fst snd]. split; [reflexivity |]. cbn [disk].
    rewrite delete_insert_id by done. by split.
  - eexists _, _. split; [reflexivity |]. rewrite call_unfold. cbn [disk trace logged].
    change (disk_call (RemoveFileIfExists marker_path) ?m)
      with (removeFileIfExists (components marker_path) m).
    unfold removeFileIfExists, ok. rewrite node_at_nonempty, Hnone by done.
    cbn [fst snd]. by split.
Qed.

(** ** The builder *)

(** X14.  On the in-memory disk, a file that the builder has written holds
    exactly the bytes given, whatever it held before; the builder reads them
    back and sees the file exist; no other path has changed; and if nothing
    was there before, removing the file through the builder restores the
    disk. *)
Theorem builder_write_read_remove (this : DataPartStorageBuilderOnDisk.t)
    (path content : string) (w w1 : MW) :
  let full := DataPartStorageBuilderOnDisk.root_path this
              // DataPartStorageBuilderOnDisk.part_dir this // path in
  DataPartStorageBuilderOnDisk.writeFile this path content w = (Ok (), w1) →
  DataPartStorageBuilderOnDisk.readFile this path w1 = (Ok content, w1)
  ∧ DataPartStorageBuilderOnDisk.exists_path this path w1 = (Ok true, w1)
  ∧ (∀ j, j ≠ components full → disk w1 !! j = disk w !! j)
  ∧ (disk_exists (disk w) full = false →
     ∃ w2, DataPartStorageBuilderOnDisk.removeFile this path w1 = (Ok (), w2)
           ∧ disk w2 = disk w).
Proof.
  intros full Hwrite. unfold DataPartStorageBuilderOnDisk.writeFile in Hwrite.
  fold full in Hwrite. apply call_Ok in Hwrite as (m1 & Hwrite & ->).
  change (writeFile (components full) Rewrite content (disk w) = (Ok (), m1)) in Hwrite.
  assert (components full ≠ []) as Hk.
  { intros Hk. rewrite Hk in Hwrite. unfold writeFile, fail in Hwrite. simpl in Hwrite.
    by destruct (is_dir (disk w) []). }
  apply writeFile_Ok in Hwrite as [t ->]; [| done].
  unfold DataPartStorageBuilderOnDisk.readFile, DataPartStorageBuilderOnDisk.exists_path,
    DataPartStorageBuilderOnDisk.removeFile, query, ask.
  fold full. cbn [disk disk_readFile disk_exists mem_disk].
  unfold readFile, exists_, present. rewrite node_at_nonempty, lookup_insert_eq by done.
  split; [done |]. split; [done |]. split; [intros j Hj; by rewrite lookup_insert_ne |].
  intros Habsent. unfold present in Habsent. rewrite node_at_nonempty in Habsent by done.
  rewrite call_unfold. cbn [disk trace logged].
  change (disk_call (RemoveFile full) ?m) with (removeFile (components full) m).
  unfold removeFile, ok, is_file. rewrite node_at_nonempty, lookup_insert_eq by done.
  eexists. split; [reflexivity |]. cbn [disk snd].
  rewrite delete_insert_id; [done |]. by destruct (disk w !! components full).
Qed.

(** ** remove, as a whole *)

Lemma under_cases (k j : key) :
  under k j = true → j = k ∨ strictly_under k j = true.
Proof.
  intros [s ->]%under_true. destruct s as [|x s].
  - left. apply app_nil_r.
  - right. apply strictly_under_true. by exists (x :: s).
Qed.

Lemma under_refl (k : key) : under k k = true.
Proof. apply under_true. exists []. by rewrite app_nil_r. Qed.

Lemma has_children_false (m : gmap key node) (k j : key) :
  has_children m k = false → strictly_under k j = true → m !! j = None.
Proof.
  unfold has_children. intros Hnone Hj.
  destruct (m !! j) as [v|] eqn:E; [| done].
  assert (existsb (λ kv : key * node, strictly_under k kv.1) (map_to_list m) = true) as Hex.
  { apply existsb_exists. exists (j, v). split; [| done].
    apply list_elem_of_In. by apply elem_of_map_to_list. }
  by rewrite Hex in Hnone.
Qed.

Lemma removeFile_frame (k j : key) (m : gmap key node) :
  j ≠ k → (removeFile k m).2 !! j = m !! j.
Proof.
  intros Hj. unfold removeFile, ok, fail. destruct (is_file m k); [| done].
  by apply lookup_delete_ne.
Qed.

Lemma removeFileIfExists_frame (k j : key) (m : gmap key node) :
  j ≠ k → (removeFileIfExists k m).2 !! j = m !! j.
Proof.
  intros Hj. unfold removeFileIfExists, ok, fail.
  destruct (node_at m k) as [[c t | t]|]; [| done..]. by apply lookup_delete_ne.
Qed.

Lemma removeSharedFiles_frame (request : list RemoveRequest) (dir j : key)
    (m : gmap key node) :
  Forall (λ r, under dir (components (path r)) = true) request →
  under dir j = false →
  (removeSharedFiles request m).2 !! j = m !! j.
Proof.
  intros Hrequest Hj. revert m.
  induction Hrequest as [|r request Hr _ IH]; intros m; [done |]. simpl.
  assert (j ≠ components (path r)) as Hne by (intros ->; by rewrite Hr in Hj).
  destruct (if_exists r).
  - pose proof (removeFileIfExists_frame (components (path r)) j m Hne) as Hstep.
    destruct (removeFileIfExists (components (path r)) m) as [[[]|e] m']; [| done].
    by rewrite IH.
  - pose proof (removeFile_frame (components (path r)) j m Hne) as Hstep.
    destruct (removeFile (components (path r)) m) as [[[]|e] m']; [| done].
    by rewrite IH.
Qed.

Lemma components_dir (dir : string) : components (dir // "") = components dir.
Proof.
  rewrite components_path_append by done.
  change (components "") with (@nil string). apply app_nil_r.
Qed.

Lemma targeted_request_under (dir : string) (checksums : MergeTreeDataPartChecksums.t)
    (skip : gset string) (is_projection : bool) :
  relative_manifest checksums = true →
  Forall (λ r, under (components dir) (components (path r)) = true)
         (targeted_request dir checksums skip is_projection).
Proof.
  intros Hrel. unfold relative_manifest in Hrel. rewrite forallb_forall in Hrel.
  assert (∀ file, is_absolute file = false →
                  under (components dir) (components (dir // file)) = true) as Hunder.
  { intros file Hfile. rewrite components_path_append by done. apply under_app. }
  unfold targeted_request. apply Forall_app. split; [| apply Forall_app; split].
  - apply Forall_fmap, Forall_forall. intros file [_ Hin]%list_elem_of_filter.
    apply list_elem_of_fmap in Hin as ([f c] & -> & Hin). simpl. apply Hunder.
    apply list_elem_of_In in Hin. specialize (Hrel _ Hin). simpl in Hrel.
    by destruct (is_absolute f).
  - repeat constructor; simpl; by apply Hunder.
  - destruct is_projection; repeat constructor; simpl; by apply Hunder.
Qed.

(** What [clearDirectory] does on this disk: it always returns; it only
    takes nodes away; nothing is left at or below the directory; and, when
    the manifest names relative paths, nothing outside the directory is
    touched. *)
Lemma clearDirectory_effect (dir : string) (can_remove_shared_data : bool)
    (names_not_to_remove : NameSet) (checksums : MergeTreeDataPartChecksums.t)
    (skip_directories : gset string) (is_projection : bool) (w : MW) :
  ∃ w',
    clearDirectory dir can_remove_shared_data names_not_to_remove checksums
      skip_directories is_projection w = (Ok (), w')
    ∧ (∀ j, under (components dir) j = true → disk w' !! j = None)
    ∧ (relative_manifest checksums = true →
       ∀ j, under (components dir) j = false → disk w' !! j = disk w !! j).
Proof.
  assert (∀ (m : gmap key node) j, under (components dir) j = true →
            filter (λ kv : key * node, under (components (dir // "")) kv.1 = false) m !! j
            = None) as Hrec.
  { intros m j Hj. by rewrite components_dir, lookup_filter_under, Hj. }
  assert (∀ (m : gmap key node) j, under (components dir) j = false →
            filter (λ kv : key * node, under (components (dir // "")) kv.1 = false) m !! j
            = m !! j) as Hrec'.
  { intros m j Hj. by rewrite components_dir, lookup_filter_under, Hj. }
  destruct (MergeTreeDataPartChecksums.empty checksums) eqn:Hempty.
  - destruct (clearDirectory_empty dir can_remove_shared_data names_not_to_remove
                checksums skip_directories is_projection w Hempty) as (lines & -> & _).
    eexists. split; [reflexivity |]. cbn [disk]. split.
    + intros j Hj. by apply Hrec.
    + intros _ j Hj. by apply Hrec'.
  - rewrite clearDirectory_nonempty by done. unfold recursive_fallback.
    set (request := targeted_request dir checksums skip_directories is_projection).
    set (files_call := RemoveSharedFiles _ _ _).
    change (disk_call files_call (disk w)) with (removeSharedFiles request (disk w)).
    assert (relative_manifest checksums = true →
            ∀ j, under (components dir) j = false →
                 (removeSharedFiles request (disk w)).2 !! j = disk w !! j) as Hfiles.
    { intros Hrel j Hj. apply (removeSharedFiles_frame _ (components dir)); [| done].
      by apply targeted_request_under. }
    destruct (removeSharedFiles request (disk w)) as [[[]|e] m1] eqn:E1; cbn [snd] in Hfiles.
    + change (disk_call (RemoveDirectory dir) m1) with (removeDirectory (components dir) m1).
      unfold removeDirectory, ok, fail.
      destruct (is_dir m1 (components dir) && negb (has_children m1 (components dir)))
        eqn:Hdir.
      * eexists. split; [reflexivity |]. cbn [disk]. split.
        -- apply andb_true_iff in Hdir as [_ Hchildren%negb_true_iff].
           intros j [-> | Hj]%under_cases; [apply lookup_delete_eq |].
           rewrite lookup_delete_ne.
           ++ by eapply has_children_false.
           ++ intros <-. apply strictly_under_true in Hj as (s & Hs & Heq).
              by apply (list_app_ne (components dir) s).
        -- intros Hrel j Hj. rewrite lookup_delete_ne; [by apply Hfiles |].
           intros <-. by rewrite under_refl in Hj.
      * eexists. split; [reflexivity |]. cbn [disk]. split.
        -- intros j Hj. by apply Hrec.
        -- intros Hrel j Hj. rewrite Hrec' by done. by apply Hfiles.
    + eexists. split; [reflexivity |]. cbn [disk]. split.
      * intros j Hj. by apply Hrec.
      * intros Hrel j Hj. rewrite Hrec' by done. by apply Hfiles.
Qed.

Lemma is_absolute_app (a b : string) :
  is_absolute a = false → is_absolute b = false → is_absolute (a +:+ b) = false.
Proof. destruct a as [|c a]; [done |]. by rewrite string_app_cons. Qed.

Lemma remove_projections_effect (to : string) (can_remove_shared_data : bool)
    (names_not_to_remove : NameSet) (projections : list ProjectionChecksums.t) (w : MW) :
  ∃ w',
    remove_projections to can_remove_shared_data names_not_to_remove projections w
    = (Ok (), w')
    ∧ (relative_projections projections = true →
       ∀ j, under (components to) j = false → disk w' !! j = disk w !! j).
Proof.
  unfold remove_projections. revert w.
  induction projections as [|projection projections IH]; intros w.
  - exists w. by split.
  - cbn [for_each]. unfold bind.
    match goal with
    | |- context [clearDirectory ?dir ?c ?n ?cs ?sk ?ip w] =>
        destruct (clearDirectory_effect dir c n cs sk ip w) as (w1 & -> & _ & Hstep)
    end.
    destruct (IH w1) as (w2 & Hrun & Hrest).
    exists w2. split; [exact Hrun |].
    intros [[Hname%negb_true_iff Hfiles]%andb_true_iff Hothers]%andb_true_iff j Hj.
    rewrite Hrest by done. apply Hstep; [done |].
    rewrite components_path_append by by apply is_absolute_app.
    apply under_false. intros s Heq. rewrite <- app_assoc in Heq.
    by apply (proj1 (under_false _ _) Hj) in Heq.
Qed.

Lemma moveDirectory_frame (from to j : key) (m : gmap key node) :
  under from j = false → under to j = false →
  (moveDirectory from to m).2 !! j = m !! j.
Proof.
  intros Hfrom Hto. unfold moveDirectory, ok, fail.
  destruct (negb (present m from)); [done |]. destruct (present m to); [done |].
  destruct (overlapping from to); [done |].
  destruct (negb (is_dir m (parent to))); [done |]. cbn [snd].
  by rewrite lookup_kmap_retarget, retarget_other, lookup_filter_under, Hto.
Qed.

(** The first half of [remove] stays within the part directory and its
    [delete_tmp_] sibling, however it ends. *)
Lemma remove_rename_to_delete_tmp_frame (this : DataPartStorageOnDisk)
    (can_remove_shared_data : bool) (names_not_to_remove : NameSet) (w : MW) (j : key) :
  let from := root_path this // part_dir this in
  let to := root_path this // ("delete_tmp_" +:+ part_dir this) in
  under (components from) j = false → under (components to) j = false →
  disk (remove_rename_to_delete_tmp this can_remove_shared_data names_not_to_remove w).2
    !! j = disk w !! j.
Proof.
  intros from to Hfrom Hto.
  unfold remove_rename_to_delete_tmp. fold from to. unfold ask, LOG. unfold_monad.
  cbn [disk trace logged].
  destruct (disk_exists (disk w) to).
  - rewrite call_unfold. cbn [disk trace logged].
    change (disk_call (RemoveSharedRecursive (to // "") (negb can_remove_shared_data)
                         names_not_to_remove) (disk w))
      with (removeRecursive (components (to // "")) (disk w)).
    unfold removeRecursive, ok. cbn [fst snd]. rewrite call_unfold. cbn [disk trace logged].
    match goal with
    | |- context [disk_call (MoveDirectory from to) ?m] =>
        change (disk_call (MoveDirectory from to) m)
          with (moveDirectory (components from) (components to) m);
        pose proof (moveDirectory_frame _ _ j m Hfrom Hto) as Hstep;
        destruct (moveDirectory (components from) (components to) m) as [[[]|e] m']
    end; cbn [fst snd disk] in *.
    + by rewrite Hstep, components_dir, lookup_filter_under, Hto.
    + destruct e as [code | what | [] | what]; cbn [snd disk];
        by rewrite Hstep, components_dir, lookup_filter_under, Hto.
  - unfold ret. cbv beta iota. rewrite call_unfold. cbn [disk trace logged].
    change (disk_call (MoveDirectory from to) (disk w))
      with (moveDirectory (components from) (components to) (disk w)).
    pose proof (moveDirectory_frame _ _ j (disk w) Hfrom Hto) as Hstep.
    destruct (moveDirectory (components from) (components to) (disk w)) as [[[]|e] m'];
      cbn [fst snd disk] in *; [done |].
    by destruct e as [code | what | [] | what].
Qed.

(** On a well-formed disk [remove] of an existing, plainly named part
    returns and leaves no entry of the part. *)
Lemma remove_mem (this : DataPartStorageOnDisk)
    (can_remove_shared_data : bool) (names_not_to_remove : NameSet)
    (checksums : MergeTreeDataPartChecksums.t) (projections : list ProjectionChecksums.t)
    (w : MW) :
  let from := root_path this // part_dir this in
  let to := root_path this // ("delete_tmp_" +:+ part_dir this) in
  well_formed (disk w) = true →
  no_slash (part_dir this) = true → part_dir this ≠ "" →
  disk_exists (disk w) from = true →
  ∃ w',
    remove this can_remove_shared_data names_not_to_remove checksums projections w
    = (Ok (), w')
    ∧ ∀ j, under (components from) j = true ∨ under (components to) j = true →
           disk w' !! j = None.
Proof.
  intros from to Hwf Hplain Hne Hfrom.
  destruct (remove_rename_to_delete_tmp_mem this can_remove_shared_data
              names_not_to_remove w Hwf Hplain Hne Hfrom) as (w0 & Hmove & Hgone).
  destruct (remove_projections_mem to can_remove_shared_data names_not_to_remove
              projections w0) as (w1 & Hproj & Hshrunk).
  destruct (clearDirectory_mem to can_remove_shared_data names_not_to_remove checksums
              (projection_directories projections) false w1) as (w2 & Hclear & Hshrunk').
  destruct (clearDirectory_effect to can_remove_shared_data names_not_to_remove checksums
              (projection_directories projections) false w1) as (w2' & Hclear' & Hcleared & _).
  rewrite Hclear in Hclear'. injection Hclear' as <-.
  fold from in Hgone. exists w2. split.
  { unfold remove. fold to. unfold_monad. by rewrite Hmove, Hproj. }
  intros j [Hj | Hj]; [by apply Hshrunk', Hshrunk, Hgone | by apply Hcleared].
Qed.

(** X15.  On a well-formed in-memory disk, removing an existing, plainly
    named part returns normally whatever its manifest and projections are
    (complete, incomplete or wrong), and afterwards nothing is left at or
    below the part directory or its [delete_tmp_] sibling. *)
Theorem remove_leaves_nothing (this : DataPartStorageOnDisk)
    (can_remove_shared_data : bool) (names_not_to_remove : NameSet)
    (checksums : MergeTreeDataPartChecksums.t) (projections : list ProjectionChecksums.t)
    (w : MW) :
  let from := root_path this // part_dir this in
  let to := root_path this // ("delete_tmp_" +:+ part_dir this) in
  well_formed (disk w) = true →
  no_slash (part_dir this) = true → part_dir this ≠ "" →
  disk_exists (disk w) from = true →
  ∃ w',
    remove this can_remove_shared_data names_not_to_remove checksums projections w
    = (Ok (), w')
    ∧ (∀ j, under (components from) j = true ∨ under (components to) j = true →
            disk w' !! j = None)
    ∧ disk_exists (disk w') from = false
    ∧ disk_exists (disk w') to = false.
Proof.
  intros from to Hwf Hplain Hne Hfrom.
  destruct (remove_mem this can_remove_shared_data names_not_to_remove checksums
              projections w Hwf Hplain Hne Hfrom) as (w' & Hrun & Hnone).
  fold from to in Hnone.
  destruct (part_keys this Hplain Hne) as (Hkfrom & Hkto & _ & _).
  fold from to in Hkfrom, Hkto.
  exists w'. split; [exact Hrun |]. split; [exact Hnone |]. split.
  - change (present (disk w') (components from) = false).
    unfold present. rewrite node_at_nonempty by (rewrite Hkfrom; by intros [_ ?]%app_eq_nil).
    rewrite Hnone; [done |]. left. apply under_refl.
  - change (present (disk w') (components to) = false).
    unfold present. rewrite node_at_nonempty by (rewrite Hkto; by intros [_ ?]%app_eq_nil).
    rewrite Hnone; [done |]. right. apply under_refl.
Qed.

(** X16.  On the in-memory disk, [remove] stays within the part.  Take a
    part whose root and directory name, and whose manifests (its own and
    those of its projections), name relative paths that are spelled out: no
    component is [.] or [..], so that a name cannot climb out of the
    directory it is appended to.  Then however the method ends, every path
    that lies neither at or below the part directory nor at or below its
    [delete_tmp_] sibling holds what it held before. *)
Theorem remove_stays_within_part (this : DataPartStorageOnDisk)
    (can_remove_shared_data : bool) (names_not_to_remove : NameSet)
    (checksums : MergeTreeDataPartChecksums.t) (projections : list ProjectionChecksums.t)
    (w : MW) (j : key) :
  let from := root_path this // part_dir this in
  let to := root_path this // ("delete_tmp_" +:+ part_dir this) in
  no_dot_components (root_path this) = true →
  no_dot_components (part_dir this) = true →
  relative_manifest checksums = true →
  spelled_out_manifest checksums = true →
  relative_projections projections = true →
  spelled_out_projections projections = true →
  under (components from) j = false → under (components to) j = false →
  disk (remove this can_remove_shared_data names_not_to_remove checksums projections w).2
    !! j = disk w !! j.
Proof.
  intros from to _ _ Hfiles _ Hprojections _ Hfrom Hto.
  pose proof (remove_rename_to_delete_tmp_frame this can_remove_shared_data
                names_not_to_remove w j Hfrom Hto) as Hstep.
  unfold remove. fold to. unfold_monad.
  destruct (remove_rename_to_delete_tmp this can_remove_shared_data names_not_to_remove w)
    as [[[|]|e] w0]; cbn [snd] in *; [| done..].
  destruct (remove_projections_effect to can_remove_shared_data names_not_to_remove
              projections w0) as (w1 & -> & Hrest).
  destruct (clearDirectory_effect to can_remove_shared_data names_not_to_remove checksums
              (projection_directories projections) false w1) as (w2 & -> & _ & Hframe).
  cbn [snd]. by rewrite Hframe, Hrest.
Qed.

(** ** rename, on the in-memory disk *)

Lemma moveDirectory_Ok_inv (from to : key) (m m' : gmap key node) :
  moveDirectory from to m = (Ok (), m') →
  present m from = true ∧ overlapping from to = false
  ∧ m' = kmap (retarget from to) (filter (λ kv, under to kv.1 = false) m).
Proof.
  unfold moveDirectory, ok, fail.
  destruct (present m from); [| done]. destruct (present m to); [done |].
  destruct (overlapping from to); [done |].
  destruct (is_dir m (parent to)); [| done]. by intros [= <-].
Qed.

Lemma setLastModified_Ok_inv (k : key) (t : Z) (m m' : gmap key node) :
  setLastModified k t m = (Ok (), m') → m' = alter (set_mtime t) k m.
Proof. unfold setLastModified, ok, fail. destruct (present m k); by intros [= <-]. Qed.

Lemma overlapping_nonempty (p q : key) : overlapping p q = false → p ≠ [] ∧ q ≠ [].
Proof.
  unfold overlapping. intros [Hp Hq]%orb_false_iff. split; intros ->; done.
Qed.

(** X17.  On the in-memory disk, when [rename] returns normally the part
    has moved as a whole: nothing exists any more at the old directory, the
    new directory exists, every path below the new directory holds what the
    same path below the old directory held when the method was called, and
    every path outside the two directories is as it was. *)
Theorem rename_moves_contents (this this' : DataPartStorageOnDisk) (w w' : MW)
    (new_relative_path : string) (remove_new_dir_if_exists fsync_part_dir : bool) (now : Z) :
  let from := getFullRelativePath this in
  let to := root_path this // new_relative_path // "" in
  rename new_relative_path remove_new_dir_if_exists fsync_part_dir now (this, w)
  = (Ok (), (this', w')) →
  disk_exists (disk w') from = false
  ∧ disk_exists (disk w') (root_path this' // part_dir this') = true
  ∧ (∀ rel, rel ≠ [] → entry (disk w') to rel = entry (disk w) from rel)
  ∧ (∀ j, under (components from) j = false → under (components to) j = false →
          disk w' !! j = disk w !! j).
Proof.
  intros from to Hrun.
  apply rename_Ok_inv in Hrun as (_ & _ & w1 & Hclear & Hrun).
  apply rename_move_protocol_Ok_inv in Hrun as (-> & d2 & d3 & d4 & Hset & Hmove & Hsync & ->).
  fold from to in Hclear, Hset, Hmove, Hsync.
  cbn [root_path part_dir disk]. rewrite path_append_split.
  assert (d4 = d3) as ->.
  { destruct fsync_part_dir; [| done].
    change (run (GetDirectorySyncGuard to) d3 = (Ok (), d4)) in Hsync.
    by apply sync_guard_mem in Hsync. }
  clear Hsync.
  change (setLastModified (components from) now (disk w1) = (Ok (), d2)) in Hset.
  change (moveDirectory (components from) (components to) d2 = (Ok (), d3)) in Hmove.
  apply setLastModified_Ok_inv in Hset as ->.
  apply moveDirectory_Ok_inv in Hmove as (Hpresent & Hapart & ->).
  destruct (overlapping_nonempty _ _ Hapart) as [Hfrom_ne Hto_ne].
  set (fromk := components from) in *. set (tok := components to) in *.
  assert (components (root_path this // new_relative_path) = tok) as Hnew.
  { unfold tok, to. by rewrite components_dir. }
  assert (under tok fromk = false ∧ under fromk tok = false) as [Hft Htf].
  { unfold overlapping in Hapart. apply orb_false_iff in Hapart as [? ?]. by split. }
  assert (∀ j, under tok j = false → disk w1 !! j = disk w !! j) as Hw1.
  { intros j Hj. change (disk_exists (disk w) to) with (present (disk w) tok) in Hclear.
    destruct (present (disk w) tok); [| by subst w1].
    destruct Hclear as (_ & files & d1 & _ & Hrm & ->). cbn [disk].
    change (removeRecursive tok (disk w) = (Ok (), d1)) in Hrm.
    unfold removeRecursive, ok in Hrm. injection Hrm as <-.
    by rewrite lookup_filter_under, Hj. }
  split; [| split; [| split]].
  - change (present (kmap (retarget fromk tok)
                       (filter (λ kv, under tok kv.1 = false)
                          (alter (set_mtime now) fromk (disk w1)))) fromk = false).
    unfold present. rewrite node_at_nonempty, lookup_kmap_retarget by done.
    rewrite <- (app_nil_r fromk) at 2. rewrite retarget_from, app_nil_r by done.
    by rewrite lookup_filter_under, under_refl.
  - change (present (kmap (retarget fromk tok)
                       (filter (λ kv, under tok kv.1 = false)
                          (alter (set_mtime now) fromk (disk w1))))
                    (components (root_path this // new_relative_path)) = true).
    rewrite Hnew. unfold present in *.
    rewrite node_at_nonempty, lookup_kmap_retarget in * by done.
    rewrite <- (app_nil_r tok) at 2. rewrite retarget_to, app_nil_r by done.
    rewrite lookup_filter_under, Hft. exact Hpresent.
  - intros rel Hrel. unfold entry. fold fromk tok.
    rewrite lookup_kmap_retarget, retarget_to, lookup_filter_under by done.
    assert (under tok (fromk ++ rel) = false) as Hout.
    { apply under_false. intros s Heq. by apply (overlapping_false _ _ Hapart rel s). }
    rewrite Hout, lookup_alter_ne by by apply not_eq_sym, list_app_ne.
    by apply Hw1.
  - intros j Hj Hj'. rewrite lookup_kmap_retarget, retarget_other by done.
    rewrite lookup_filter_under, Hj', lookup_alter_ne; [by apply Hw1 |].
    intros <-. by rewrite under_refl in Hj.
Qed.

End FurtherOnMemDisk.

(** ** Projections *)

(** X18.  The storage of a projection addresses the directory of that name
    inside the part directory: its full relative path is the part's full
    relative path followed by the projection's name and a separator.  The
    builder agrees: the storage of a builder's projection is the projection of
    the builder's storage. *)
Theorem getProjection_path (this : DataPartStorageOnDisk)
    (builder : DataPartStorageBuilderOnDisk.t) (name : string) :
  getFullRelativePath (getProjection this name) = getFullRelativePath this // name // ""
  ∧ has_filename (getFullRelativePath (getProjection this name)) = false
  ∧ DataPartStorageBuilderOnDisk.getStorage
      (DataPartStorageBuilderOnDisk.getProjection builder name)
    = getProjection (DataPartStorageBuilderOnDisk.getStorage builder) name.
Proof.
  unfold getFullRelativePath, getProjection. cbn [root_path part_dir].
  split; [by rewrite path_append_empty_l |]. split; [| done].
  by apply path_append_no_filename.
Qed.

(** ** Size on disk *)

Lemma sum_list_with_omap {A B} (f : A → option B) (g : B → nat) (l : list A) :
  sum_list_with g (omap f l) = sum_list_with (λ x, from_option g 0 (f x)) l.
Proof.
  induction l as [|x l IH]; [done |].
  change (omap f (x :: l))
    with (match f x with Some y => y :: omap f l | None => omap f l end).
  cbn [sum_list_with]. destruct (f x); simpl; by rewrite IH.
Qed.

Lemma sum_list_with_ext_in {A} (f g : A → nat) (l : list A) :
  (∀ x, x ∈ l → f x = g x) → sum_list_with f l = sum_list_with g l.
Proof.
  induction l as [|x l IH]; intros Hfg; [done |]. simpl.
  rewrite Hfg by left. rewrite IH; [done |]. intros y Hy. apply Hfg. by right.
Qed.

Lemma sum_list_with_zero {A} (l : list A) : sum_list_with (λ _ : A, 0) l = 0.
Proof. by induction l. Qed.

Lemma sum_list_with_add {A} (f g : A → nat) (l : list A) :
  sum_list_with (λ x, f x + g x) l = sum_list_with f l + sum_list_with g l.
Proof. induction l as [|x l IH]; [done |]. simpl. rewrite IH. lia. Qed.

Lemma sum_list_with_swap {A B} (F : A → B → nat) (l1 : list A) (l2 : list B) :
  sum_list_with (λ y, sum_list_with (λ x, F y x) l2) l1
  = sum_list_with (λ x, sum_list_with (λ y, F y x) l1) l2.
Proof.
  induction l1 as [|y l1 IH]; simpl.
  - by rewrite sum_list_with_zero.
  - by rewrite IH, sum_list_with_add.
Qed.

(** Among entries with distinct keys, exactly one has a given key. *)
Lemma sum_list_with_key {A B} `{EqDecision A} (l : list (A * B)) (a : A) (v : B)
    (c : nat) :
  NoDup l.*1 → (a, v) ∈ l →
  sum_list_with (λ y : A * B, if decide (y.1 = a) then c else 0) l = c.
Proof.
  induction l as [|[a' v'] l IH]; intros Hnodup Hin; [by apply elem_of_nil in Hin |].
  simpl in *. apply NoDup_cons in Hnodup as [Hfresh Hnodup].
  destruct (decide (a' = a)) as [-> | Hne].
  - rewrite (sum_list_with_ext_in _ (λ _, 0)); [rewrite sum_list_with_zero; lia |].
    intros [a'' v''] Hy. simpl. destruct (decide (a'' = a)) as [-> | ?]; [| done].
    destruct Hfresh. apply list_elem_of_fmap. by exists (a, v'').
  - apply elem_of_cons in Hin as [[= -> ->] | Hin]; [done |]. by rewrite IH.
Qed.

Section SizeOnMemDisk.
Import MemDisk MemDiskKeys MemDiskMore.

Lemma calculateTotalSizeOnDiskImpl_S {D} `{!IDisk D} `{!IDiskMore D}
    (fuel : nat) (d : D) (from : string) :
  calculateTotalSizeOnDiskImpl (S fuel) d from
  = if disk_isFile d from then Some (disk_getFileSize d from)
    else
      match disk_listFiles d from with
      | Exc e => Some (Exc e)
      | Ok files =>
          fold_left
            (λ (res : option (Res N)) file,
               match res with
               | Some (Ok res) =>
                   match calculateTotalSizeOnDiskImpl fuel d (from // file) with
                   | Some (Ok size) => Some (Ok (UInt64_add res size))
                   | Some (Exc e) => Some (Exc e)
                   | None => None
                   end
               | Some (Exc e) => Some (Exc e)
               | None => None
               end)
            files (Some (Ok 0%N))
      end.
Proof. done. Qed.

(** The loop of [calculateTotalSizeOnDiskImpl], when every entry has a
    size. *)
Lemma fold_sizes (step : string → option (Res N)) (s : string → nat)
    (names : list string) (a : nat) :
  (∀ n, n ∈ names →
     ∃ r, step n = Some (Ok r) ∧ (r mod 2 ^ 64 = N.of_nat (s n) mod 2 ^ 64)%N) →
  fold_left
    (λ (res : option (Res N)) file,
       match res with
       | Some (Ok res) =>
           match step file with
           | Some (Ok size) => Some (Ok (UInt64_add res size))
           | Some (Exc e) => Some (Exc e)
           | None => None
           end
       | Some (Exc e) => Some (Exc e)
       | None => None
       end)
    names (Some (Ok (N.of_nat a mod 2 ^ 64)%N))
  = Some (Ok (N.of_nat (a + sum_list_with s names) mod 2 ^ 64)%N).
Proof.
  revert a. induction names as [|n names IH]; intros a Hstep; simpl.
  - by rewrite Nat.add_0_r.
  - destruct (Hstep n) as (r & -> & Hr); [by left |].
    assert (UInt64_add (N.of_nat a mod 2 ^ 64) r = (N.of_nat (a + s n) mod 2 ^ 64)%N) as ->.
    { unfold UInt64_add. rewrite Nat2N.inj_add.
      rewrite N.Div0.add_mod_idemp_l.
      rewrite <- N.Div0.add_mod_idemp_r, Hr, N.Div0.add_mod_idemp_r. done. }
    rewrite IH; [by rewrite Nat.add_assoc |].
    intros n' Hn'. apply Hstep. by right.
Qed.

Lemma child_Some (k j : key) (v : node) (n : string) :
  child k (j, v) = Some n ↔ j = k ++ [n].
Proof.
  unfold child. simpl. destruct (strip_prefix k j) as [s|] eqn:E.
  - apply strip_prefix_Some in E as ->. destruct s as [|x [|y s]].
    + split; [done |]. intros Heq. symmetry in Heq. rewrite app_nil_r in Heq.
      by apply list_app_ne in Heq.
    + split; [by intros [= ->] | by intros [= ->]%app_inv_head].
    + split; [done | by intros [=]%app_inv_head].
  - split; [done | intros ->]. by rewrite strip_prefix_app in E.
Qed.

Lemma lookup_present (m : gmap key node) (k : key) :
  k ≠ [] → present m k = true ↔ is_Some (m !! k).
Proof.
  intros Hk. unfold present. rewrite node_at_nonempty by done.
  destruct (m !! k); split; by try intros [??].
Qed.

(** In a well-formed disk the first step below [k] towards an entry is an
    entry. *)
Lemma well_formed_first_step (m : gmap key node) (k rest : key) (n : string) (v : node) :
  well_formed m = true → m !! (k ++ n :: rest) = Some v → is_Some (m !! (k ++ [n])).
Proof.
  intros Hwf Hj. destruct rest as [|x rest]; [eauto |].
  apply lookup_present; [by intros [_ ?]%app_eq_nil |].
  destruct (present m (k ++ [n])) eqn:E; [done |].
  rewrite (cons_middle n), app_assoc in Hj.
  by rewrite (well_formed_no_orphans m (k ++ [n]) (x :: rest)) in Hj.
Qed.

(** Nothing lies below a file. *)
Lemma well_formed_file_leaf (m : gmap key node) (k s : key) (c : string) (t : Z) :
  well_formed m = true → k ≠ [] → m !! k = Some (File c t) → s ≠ [] →
  m !! (k ++ s) = None.
Proof.
  intros Hwf Hk Hfile. induction s as [|x s IH] using rev_ind; [done |]. intros _.
  destruct (m !! (k ++ s ++ [x])) as [v|] eqn:E; [| done].
  apply (well_formed_parent _ _ _ Hwf) in E.
  unfold parent in E. rewrite app_assoc, removelast_last in E.
  unfold is_dir in E. destruct s as [|y s].
  - rewrite app_nil_r, node_at_nonempty, Hfile in E by done. done.
  - rewrite node_at_nonempty, IH in E by (try done; by destruct k). done.
Qed.

Lemma size_below_file (m : gmap key node) (k : key) (c : string) (t : Z) :
  well_formed m = true → k ≠ [] → m !! k = Some (File c t) →
  size_below m k = String.length c.
Proof.
  intros Hwf Hk Hfile. unfold size_below.
  rewrite (sum_list_with_ext_in _
             (λ y : key * node, if decide (y.1 = k) then String.length c else 0)).
  - apply (sum_list_with_key _ k (File c t)); [apply NoDup_fst_map_to_list |].
    by apply elem_of_map_to_list.
  - intros [j v] Hin%elem_of_map_to_list. simpl.
    destruct (decide (j = k)) as [-> | Hne].
    + rewrite under_refl. rewrite Hfile in Hin. by injection Hin as <-.
    + destruct (under k j) eqn:Hunder; [| done].
      apply under_true in Hunder as [s ->].
      rewrite (well_formed_file_leaf m k s c t) in Hin; [done.. |].
      intros ->. by rewrite app_nil_r in Hne.
Qed.

(** The files below a directory are the files below its entries. *)
Lemma size_below_directory (m : gmap key node) (k : key) (t : Z) :
  well_formed m = true → k ≠ [] → m !! k = Some (Directory t) →
  sum_list_with (λ n, size_below m (k ++ [n])) (omap (child k) (map_to_list m))
  = size_below m k.
Proof.
  intros Hwf Hk Hdir. rewrite sum_list_with_omap. unfold size_below.
  rewrite (sum_list_with_ext_in _
    (λ y, sum_list_with
            (λ x : key * node,
               match child k y with
               | Some n => if under (k ++ [n]) x.1 then file_bytes x.2 else 0
               | None => 0
               end) (map_to_list m))).
  2:{ intros y _. destruct (child k y); [done |]. by rewrite sum_list_with_zero. }
  rewrite sum_list_with_swap. apply sum_list_with_ext_in.
  intros [j v] Hin%elem_of_map_to_list. simpl.
  destruct (strictly_under k j) eqn:Hstrict.
  - apply strictly_under_true in Hstrict as (s & Hs & ->).
    rewrite under_app. destruct s as [|n0 rest]; [done |].
    destruct (well_formed_first_step m k rest n0 v Hwf Hin) as [v0 Hfirst].
    rewrite (sum_list_with_ext_in _
               (λ y : key * node, if decide (y.1 = k ++ [n0]) then file_bytes v else 0)).
    + apply (sum_list_with_key _ (k ++ [n0]) v0); [apply NoDup_fst_map_to_list |].
      by apply elem_of_map_to_list.
    + intros [j' v'] _. simpl. destruct (child k (j', v')) as [n|] eqn:Hchild.
      * apply child_Some in Hchild as ->.
        destruct (decide (k ++ [n] = k ++ [n0])) as [[= ->]%app_inv_head | Hne].
        -- rewrite (cons_middle n0 k rest), app_assoc. by rewrite under_app.
        -- assert (under (k ++ [n]) (k ++ n0 :: rest) = false) as ->; [| done].
           apply under_false. intros s. rewrite <- app_assoc. intros [= -> _]%app_inv_head.
           done.
      * destruct (decide (j' = k ++ [n0])) as [-> | ?]; [| done].
        assert (child k (k ++ [n0], v') = Some n0) as Hc by by apply child_Some.
        by rewrite Hc in Hchild.
  - assert (file_bytes v = 0 ∨ under k j = false) as Hzero.
    { destruct (under k j) eqn:Hunder; [| by right]. left.
      apply under_cases in Hunder as [-> | Hunder]; [| by rewrite Hunder in Hstrict].
      rewrite Hdir in Hin. by injection Hin as <-. }
    rewrite (sum_list_with_ext_in _ (λ _, 0)).
    + rewrite sum_list_with_zero. destruct Hzero as [-> | ->]; by destruct (under k j).
    + intros [j' v'] _. destruct (child k (j', v')) as [n|] eqn:Hchild; [| done].
      destruct Hzero as [-> | Hout]; [by destruct (under _ _) |].
      assert (under (k ++ [n]) j = false) as ->; [| done].
      apply under_false. intros s ->. rewrite <- app_assoc in Hout.
      by rewrite under_app in Hout.
Qed.

Lemma plain_component (m : gmap key node) (k : key) (n : string) (v : node) :
  plain_names m = true → m !! (k ++ [n]) = Some v → no_slash n = true ∧ n ≠ "".
Proof.
  unfold plain_names. rewrite forallb_forall. intros Hplain Hin.
  specialize (Hplain (k ++ [n], v)). simpl in Hplain.
  rewrite forallb_forall in Hplain.
  assert (In (k ++ [n], v) (map_to_list m)) as Hkv
    by by apply list_elem_of_In, elem_of_map_to_list.
  assert (In n (k ++ [n])) as Hn by (apply list_elem_of_In, elem_of_app; right; by left).
  apply (Hplain Hkv n) in Hn. apply andb_true_iff in Hn as [Hn Hne%negb_true_iff].
  split; [done |]. intros ->. done.
Qed.

Lemma depth_bound (m : gmap key node) (j : key) (v : node) :
  m !! j = Some v → length j ≤ depth m.
Proof.
  intros Hin. unfold depth. apply max_list_elem_of_le.
  apply list_elem_of_fmap. exists (j, v). split; [done |]. by apply elem_of_map_to_list.
Qed.

(** With fuel for the deepest key, [calculateTotalSizeOnDiskImpl] returns
    the size of a file, and for a directory the 64-bit sum of what lies
    below it. *)
Lemma calculateTotalSizeOnDiskImpl_mem (m : gmap key node) (fuel : nat) (p : string)
    (v : node) :
  well_formed m = true → plain_names m = true →
  components p ≠ [] → m !! components p = Some v →
  depth m < length (components p) + fuel →
  calculateTotalSizeOnDiskImpl fuel m p
  = Some (Ok match v with
             | File c _ => N.of_nat (String.length c)
             | Directory _ => (N.of_nat (size_below m (components p)) mod 2 ^ 64)%N
             end).
Proof.
  intros Hwf Hplain. revert p v.
  induction fuel as [|fuel IH]; intros p v Hk Hin Hfuel.
  - apply depth_bound in Hin. lia.
  - rewrite calculateTotalSizeOnDiskImpl_S.
    change (disk_isFile m p) with (is_file m (components p)).
    change (disk_getFileSize m p) with (getFileSize m p).
    change (disk_listFiles m p) with (listFiles m p).
    unfold is_file, getFileSize, listFiles, is_dir.
    rewrite node_at_nonempty, Hin by done.
    destruct v as [c t | t]; [done |].
    change (omap _ (map_to_list m)) with (omap (child (components p)) (map_to_list m)).
    change (Some (Ok 0%N)) with (Some (Ok (N.of_nat 0 mod 2 ^ 64)%N)).
    rewrite (fold_sizes (λ file, calculateTotalSizeOnDiskImpl fuel m (p // file))
               (λ n, size_below m (components p ++ [n]))).
    + by rewrite Nat.add_0_l, (size_below_directory m (components p) t).
    + intros n ([j v'] & Hj%elem_of_map_to_list & Hchild)%list_elem_of_omap.
      apply child_Some in Hchild as ->.
      destruct (plain_component m _ n v' Hplain Hj) as [Hn Hne].
      assert (components (p // n) = components p ++ [n]) as Hkey.
      { rewrite components_path_append by by apply no_slash_relative.
        by rewrite (components_plain n). }
      eexists. split.
      * apply (IH (p // n) v').
        -- rewrite Hkey. by intros [_ ?]%app_eq_nil.
        -- by rewrite Hkey.
        -- rewrite Hkey, length_app. simpl. lia.
      * rewrite Hkey. destruct v' as [c t' | t'].
        -- rewrite (size_below_file m (components p ++ [n]) c t');
             [done | done | by intros [_ ?]%app_eq_nil | done].
        -- by rewrite N.Div0.mod_mod.
Qed.

(** X19.  On a well-formed in-memory disk whose entries have proper names,
    [calculateTotalSizeOnDisk] of an existing part directory returns, for
    every recursion bound that reaches the deepest entry, the sum of the sizes
    of all files at any depth below the part directory, as a 64-bit
    number. *)
Theorem calculateTotalSizeOnDisk_sums_files (this : DataPartStorageOnDisk)
    (m : gmap key node) (fuel : nat) :
  let dir := components (root_path this // part_dir this) in
  well_formed m = true → plain_names m = true →
  dir ≠ [] → is_dir m dir = true →
  depth m < length dir + fuel →
  calculateTotalSizeOnDisk fuel this m
  = Some (Ok (N.of_nat (size_below m dir) mod 2 ^ 64)%N).
Proof.
  intros dir Hwf Hplain Hdir Hexists Hfuel. unfold calculateTotalSizeOnDisk.
  unfold is_dir in Hexists. rewrite node_at_nonempty in Hexists by done.
  destruct (m !! dir) as [[c t | t]|] eqn:Hin; [done | | done].
  by rewrite (calculateTotalSizeOnDiskImpl_mem m fuel _ (Directory t)).
Qed.

End SizeOnMemDisk.

(** ** Detaching: getRelativePathForPrefix, then rename *)

Lemma no_slash_app (a b : string) : no_slash (a +:+ b) = no_slash a && no_slash b.
Proof.
  induction a as [|c a IH]; [done |]. rewrite string_app_cons. simpl.
  by rewrite IH, andb_assoc.
Qed.

Lemma no_slash_string_of_uint (u : Decimal.uint) :
  no_slash (NilEmpty.string_of_uint u) = true.
Proof. induction u; simpl; done. Qed.

Lemma no_slash_toString (n : nat) : no_slash (toString n) = true.
Proof. apply no_slash_string_of_uint. Qed.

(** Every name that [getRelativePathForPrefix] tries is a proper directory
    name when the prefix and the part directory are. *)
Lemma candidate_plain (this : DataPartStorageOnDisk) (prefix : string) (try_no : nat) :
  no_slash prefix = true → no_slash (part_dir this) = true → part_dir this ≠ "" →
  no_slash (candidate this prefix try_no) = true ∧ candidate this prefix try_no ≠ "".
Proof.
  intros Hprefix Hplain Hne. unfold candidate. split.
  - rewrite !no_slash_app, Hplain.
    assert (no_slash (if String.eqb prefix "" then "" else prefix +:+ "_") = true) as ->.
    { destruct (String.eqb prefix ""); [done |]. by rewrite no_slash_app, Hprefix. }
    destruct try_no; [done |]. by rewrite no_slash_app, no_slash_toString.
  - intros Heq. apply (f_equal String.length) in Heq.
    rewrite !MemDiskKeys.string_app_length in Heq.
    destruct (part_dir this); [done |]. simpl in Heq. lia.
Qed.

Section RenameForward.
Context {D : Type} `{!IDisk D}.

(** [rename] returns normally when its checks pass and the disk accepts the
    calls. *)
Lemma rename_Ok_intro (this : DataPartStorageOnDisk) (w : World D)
    (new_relative_path : string) (remove_new_dir_if_exists fsync_part_dir : bool) (now : Z)
    (d2 d3 d4 : D) :
  let new_path := root_path this // new_relative_path in
  let to := root_path this // new_relative_path // "" in
  let from := getFullRelativePath this in
  disk_exists (disk w) (root_path this // part_dir this) = true →
  has_filename new_path = true →
  disk_exists (disk w) to = false →
  disk_call (SetLastModified from now) (disk w) = (Ok (), d2) →
  disk_call (MoveDirectory from to) d2 = (Ok (), d3) →
  (if fsync_part_dir then disk_call (GetDirectorySyncGuard to) d3 = (Ok (), d4)
   else d4 = d3) →
  rename new_relative_path remove_new_dir_if_exists fsync_part_dir now (this, w)
  = (Ok (),
     ({| root_path := remove_filename new_path; part_dir := filename new_path |},
      Build_World d4
        (trace w ++ [SetLastModified from now; MoveDirectory from to]
         ++ (if fsync_part_dir then [GetDirectorySyncGuard to] else []))
        (logged w))).
Proof.
  intros new_path to from Hpart Hname Hto Hset Hmove Hsync.
  unfold rename, exists_, ask. unfold_monad. simpl.
  unfold new_path in Hname.
  rewrite Hpart. simpl. rewrite Hname. simpl. fold to. rewrite Hto.
  rewrite !call_unfold. simpl. fold from. rewrite Hset. simpl. rewrite Hmove. simpl.
  fold new_path. unfold getFullRelativePath at 1. cbn [root_path part_dir].
  rewrite path_append_split. fold to.
  destruct fsync_part_dir.
  - rewrite call_unfold. simpl. change (new_path // "") with to.
    rewrite Hsync. simpl. by rewrite <- !app_assoc.
  - subst d4. unfold ret. by rewrite <- !app_assoc.
Qed.

End RenameForward.

Section Detach.
Import MemDisk MemDiskKeys MemDiskMore.

Abbreviation MW := (World (gmap key node)).

Lemma detached_keys (root res : string) :
  no_slash res = true → res ≠ "" →
  components (root // "detached" // res) = components root ++ ["detached"; res]
  ∧ components (root // ("detached" // res) // "") = components root ++ ["detached"; res]
  ∧ after_last_slash (root // ("detached" // res)) = Some res.
Proof.
  intros Hplain Hne.
  assert (is_absolute res = false) as Hrel by by apply no_slash_relative.
  assert ("detached" // res = "detached/" +:+ res) as Hnew.
  { unfold path_append. by rewrite Hrel. }
  assert (is_absolute ("detached" // res) = false) as Hrel' by by rewrite Hnew.
  rewrite Hnew in *.
  assert (components ("detached/" +:+ res) = ["detached"; res]) as Hq.
  { rewrite <- Hnew, components_path_append by done. by rewrite (components_plain res). }
  split; [| split].
  - rewrite !components_path_append by done. rewrite (components_plain res) by done.
    by rewrite <- app_assoc.
  - by rewrite components_dir, components_path_append, Hq by done.
  - assert (after_last_slash ("detached/" +:+ res) = Some res) as Hlast.
    { rewrite after_last_slash_app.
      by rewrite (proj2 (after_last_slash_None res) Hplain). }
    unfold path_append. rewrite Hrel'.
    destruct (has_filename root);
      [by rewrite 2!after_last_slash_app, Hlast | by rewrite after_last_slash_app, Hlast].
Qed.

(** X20.  Detaching composes, on the in-memory disk.  Take a prefix
    without a separator, and a part that is a directory on the disk, under a
    name that is not empty, has no separator and is not [detached], inside a
    root that has a [detached] directory.  If one of the ten names that
    [getRelativePathForPrefix] tries is free there, then [rename] to
    [detached/<answer>] (without permission to remove anything) passes all
    its checks and returns normally; afterwards the storage object carries
    the answer as its part directory, the part exists under [detached], and
    nothing exists at its old place.  (A prefix with a separator names a
    directory below [detached] that need not exist, and the move fails
    there.) *)
Theorem detach_to_free_name (this : DataPartStorageOnDisk) (prefix : string)
    (fsync_part_dir : bool) (now : Z) (w : MW) (free : nat) :
  let detached := root_path this // "detached" in
  no_slash prefix = true →
  no_slash (part_dir this) = true → part_dir this ≠ "" → part_dir this ≠ "detached" →
  is_dir (disk w) (components (root_path this // part_dir this)) = true →
  is_dir (disk w) (components detached) = true →
  free < 10 →
  disk_exists (disk w) (detached // candidate this prefix free) = false →
  ∃ res w1 this' w',
    getRelativePathForPrefix this prefix true w = (Ok res, w1)
    ∧ rename ("detached" // res) false fsync_part_dir now (this, w1) = (Ok (), (this', w'))
    ∧ part_dir this' = res
    ∧ disk_exists (disk w') (detached // res) = true
    ∧ disk_exists (disk w') (root_path this // part_dir this) = false.
Proof.
  intros detached Hprefix Hplain Hne Hnot_detached Hpart Hdetached Hfree_lt Hfree.
  (* the answer is a free name *)
  unfold getRelativePathForPrefix. fold detached.
  destruct (getRelativePathForPrefix_loop_spec this prefix detached 9 0 "" w)
    as (i & lines & Hi & Hrun & Hbefore & Hlast & _).
  assert (disk_exists (disk w) (detached // candidate this prefix i) = false) as Hanswer.
  { destruct Hlast as [[? _] | (Heq & Hocc & _)]; [done |]. simpl in Heq. subst i.
    destruct (decide (free = 9)) as [-> | ?]; [by rewrite Hocc in Hfree |].
    rewrite Hbefore in Hfree by lia. done. }
  clear Hbefore Hlast Hfree Hfree_lt free Hi.
  set (res := candidate this prefix i) in *.
  destruct (candidate_plain this prefix i Hprefix Hplain Hne) as [Hres Hres_ne].
  fold res in Hres, Hres_ne.
  destruct (detached_keys (root_path this) res Hres Hres_ne) as (Hprobe & Hto & Hlast).
  destruct (part_keys this Hplain Hne) as (Hfrom & _).
  set (rootk := components (root_path this)) in *.
  set (fromk := components (root_path this // part_dir this)) in *.
  set (new_path := root_path this // ("detached" // res)) in *.
  set (to := new_path // "") in *.
  assert (components (getFullRelativePath this) = fromk) as Hfull by apply components_dir.
  assert (components detached = rootk ++ ["detached"]) as Hdet.
  { unfold detached. by rewrite components_path_append. }
  assert (has_filename new_path = true) as Hname.
  { unfold has_filename, filename. rewrite Hlast. simpl.
    apply negb_true_iff, String.eqb_neq. done. }
  assert (filename new_path = res) as Hfilename by (unfold filename; by rewrite Hlast).
  assert (overlapping fromk (components to) = false) as Hapart.
  { rewrite Hfrom, Hto. unfold overlapping. apply orb_false_iff.
    split; apply under_false; intros s Heq; rewrite <- app_assoc in Heq;
      apply app_inv_head in Heq; by injection Heq. }
  assert (present (disk w) fromk = true) as Hpresent.
  { unfold is_dir in Hpart. unfold present. by destruct (node_at (disk w) fromk). }
  assert (present (disk w) (components to) = false) as Hto_free.
  { rewrite Hto, <- Hprobe. exact Hanswer. }
  assert (disk_exists (disk w) (root_path this // part_dir this) = true) as Hpart_e
    by exact Hpresent.
  assert (disk_exists (disk w) to = false) as Hto_e by exact Hto_free.
  set (w1 := Build_World (disk w) (trace w) (logged w ++ lines)) in *.
  set (d2 := alter (set_mtime now) fromk (disk w)).
  set (d3 := kmap (retarget fromk (components to))
               (filter (λ kv : key * node, under (components to) kv.1 = false) d2)
             : gmap key node).
  assert (fromk ≠ [] ∧ components to ≠ []) as [Hfrom_ne Hto_ne]
    by by apply overlapping_nonempty.
  assert (under (components to) fromk = false) as Hout.
  { unfold overlapping in Hapart. by apply orb_false_iff in Hapart as [_ ?]. }
  assert (d3 !! components to = set_mtime now <$> disk w !! fromk) as Hmoved.
  { unfold d3, d2. rewrite lookup_kmap_retarget.
    rewrite <- (app_nil_r (components to)) at 2. rewrite retarget_to, app_nil_r by done.
    by rewrite lookup_filter_under, Hout, lookup_alter_eq. }
  assert (d3 !! fromk = None) as Hgone.
  { unfold d3. rewrite lookup_kmap_retarget.
    rewrite <- (app_nil_r fromk) at 2. rewrite retarget_from, app_nil_r by done.
    by rewrite lookup_filter_under, under_refl. }
  assert (setLastModified fromk now (disk w) = (Ok (), d2)) as Hset.
  { unfold setLastModified. by rewrite Hpresent. }
  assert (moveDirectory fromk (components to) d2 = (Ok (), d3)) as Hmove.
  { apply moveDirectory_Ok; [| | done |].
    - unfold present, d2 in *. rewrite node_at_nonempty in * by done.
      rewrite lookup_alter_eq. by destruct (disk w !! fromk).
    - unfold present, d2 in *. rewrite node_at_nonempty in * by done.
      rewrite lookup_alter_ne; [done |]. intros Heq. by rewrite Heq, under_refl in Hout.
    - rewrite Hto. replace (rootk ++ ["detached"; res])
        with ((rootk ++ ["detached"]) ++ [res]) by by rewrite <- app_assoc.
      unfold parent. rewrite removelast_last, <- Hdet.
      unfold is_dir, d2 in *.
      rewrite node_at_nonempty in * by (rewrite Hdet; by intros [_ ?]%app_eq_nil).
      rewrite lookup_alter_ne; [done |]. rewrite Hdet, Hfrom.
      intros Heq%app_inv_head. by injection Heq. }
  assert (is_dir d3 (components to) = true) as Hdir3.
  { unfold is_dir in *. rewrite node_at_nonempty in * by done. rewrite Hmoved.
    by destruct (disk w !! fromk) as [[]|]. }
  exists res, w1.
  exists {| root_path := remove_filename new_path; part_dir := filename new_path |}.
  exists (Build_World d3
            (trace w ++ [SetLastModified (getFullRelativePath this) now;
                         MoveDirectory (getFullRelativePath this) to]
             ++ (if fsync_part_dir then [GetDirectorySyncGuard to] else []))
            (logged w ++ lines)).
  split; [exact Hrun |]. split.
  - apply (rename_Ok_intro this w1 ("detached" // res) false fsync_part_dir now d2 d3 d3).
    + exact Hpart_e.
    + exact Hname.
    + exact Hto_e.
    + change (setLastModified (components (getFullRelativePath this)) now (disk w)
              = (Ok (), d2)). by rewrite Hfull.
    + change (moveDirectory (components (getFullRelativePath this)) (components to) d2
              = (Ok (), d3)). by rewrite Hfull.
    + destruct fsync_part_dir; [| done].
      change (run (GetDirectorySyncGuard to) d3 = (Ok (), d3)).
      unfold run, ok. by rewrite Hdir3.
  - cbn [part_dir disk]. split; [done |]. split.
    + change (present d3 (components (detached // res)) = true).
      unfold detached. rewrite Hprobe, <- Hto. unfold present.
      rewrite node_at_nonempty, Hmoved by done.
      unfold present in Hpresent. rewrite node_at_nonempty in Hpresent by done.
      by destruct (disk w !! fromk).
    + change (present d3 fromk = false). unfold present.
      by rewrite node_at_nonempty, Hgone.
Qed.

End Detach.

(** ** Removing twice, and removing the version file *)

Section LastOnMemDisk.
Import MemDisk MemDiskKeys MemDiskMore.

Abbreviation MW := (World (gmap key node)).

(** X21.  Removing is idempotent on the in-memory disk: once [remove] has
    returned normally for an existing, plainly named part of a well-formed
    disk, a second [remove] of the same part also returns normally; it finds
    the part gone, logs that as one error, and leaves the disk exactly as the
    first call left it. *)
Theorem remove_twice (this : DataPartStorageOnDisk)
    (can_remove_shared_data : bool) (names_not_to_remove : NameSet)
    (checksums : MergeTreeDataPartChecksums.t) (projections : list ProjectionChecksums.t)
    (w : MW) :
  let from := root_path this // part_dir this in
  well_formed (disk w) = true →
  no_slash (part_dir this) = true → part_dir this ≠ "" →
  disk_exists (disk w) from = true →
  ∃ w' w'',
    remove this can_remove_shared_data names_not_to_remove checksums projections w
    = (Ok (), w')
    ∧ remove this can_remove_shared_data names_not_to_remove checksums projections w'
      = (Ok (), w'')
    ∧ disk w'' = disk w'
    ∧ length (logged w'') = S (length (logged w')).
Proof.
  intros from Hwf Hplain Hne Hfrom.
  destruct (remove_mem this can_remove_shared_data names_not_to_remove checksums
              projections w Hwf Hplain Hne Hfrom) as (w' & Hrun & Hnone).
  fold from in Hnone.
  set (to := root_path this // ("delete_tmp_" +:+ part_dir this)) in *.
  destruct (part_keys this Hplain Hne) as (Hkfrom & Hkto & _ & _).
  fold from to in Hkfrom, Hkto.
  assert (disk_exists (disk w') from = false) as Hgone.
  { change (present (disk w') (components from) = false).
    unfold present. rewrite node_at_nonempty by (rewrite Hkfrom; by intros [_ ?]%app_eq_nil).
    rewrite Hnone; [done |]. left. apply under_refl. }
  assert (disk_exists (disk w') to = false) as Hgone'.
  { change (present (disk w') (components to) = false).
    unfold present. rewrite node_at_nonempty by (rewrite Hkto; by intros [_ ?]%app_eq_nil).
    rewrite Hnone; [done |]. right. apply under_refl. }
  exists w'. eexists. split; [exact Hrun |].
  unfold remove, remove_rename_to_delete_tmp. fold from to.
  unfold ask, LOG. unfold_monad. cbn [disk trace logged].
  rewrite Hgone'. unfold ret. cbv beta iota. rewrite call_unfold.
  change (disk_call (MoveDirectory from to) (disk w'))
    with (moveDirectory (components from) (components to) (disk w')).
  unfold moveDirectory, fail.
  change (disk_exists (disk w') from) with (present (disk w') (components from)) in Hgone.
  rewrite Hgone. cbn [negb fst snd disk trace logged].
  split; [reflexivity |]. cbn [disk logged]. split; [done |].
  rewrite length_app. simpl. lia.
Qed.

Section VersionRemoval.
Context `{!TxSentinels} `{!VersionCodec}.

(** X22.  On the in-memory disk, removing the version file undoes
    [writeVersionMetadata]: after a successful write, [removeVersionMetadata]
    returns normally, and [loadVersionMetadata] then finds neither the version
    file nor a temporary one, so that it reports the part as created before
    transactions existed (the prehistoric TID and CSN) and leaves the world
    alone. *)
Theorem removeVersionMetadata_after_write (this : DataPartStorageOnDisk)
    (version into : VersionMetadata) (fsync_part_dir : bool) (w w1 : MW) :
  writeVersionMetadata this version fsync_part_dir w = (Ok (), w1) →
  ∃ w2,
    removeVersionMetadata this w1 = (Ok (), w2)
    ∧ disk_exists (disk w2) (root_path this // part_dir this // "txn_version.txt") = false
    ∧ loadVersionMetadata this (into, w2) = (Ok (), (Prehistoric into, w2)).
Proof.
  intros Hwrite.
  destruct (part_file_keys this "txn_version.txt" eq_refl ltac:(done))
    as (_ & _ & Hk & Htmp & Hne & _).
  apply writeVersionMetadata_Ok in Hwrite as [[t Hfile] Hgone].
  set (path := root_path this // part_dir this // "txn_version.txt") in *.
  unfold removeVersionMetadata. fold path. rewrite call_unfold.
  change (disk_call (RemoveFileIfExists path) (disk w1))
    with (removeFileIfExists (components path) (disk w1)).
  unfold removeFileIfExists, ok. rewrite node_at_nonempty, Hfile by done. cbn [fst snd].
  eexists. split; [reflexivity |]. cbn [disk].
  assert (present (delete (components path) (disk w1)) (components path) = false) as Hnone.
  { unfold present. by rewrite node_at_nonempty, lookup_delete_eq. }
  assert (present (delete (components path) (disk w1)) (components (path +:+ ".tmp")) = false)
    as Hnone'.
  { unfold present. by rewrite node_at_nonempty, lookup_delete_ne, Hgone. }
  split; [exact Hnone |].
  unfold loadVersionMetadata. fold path. unfold ask. unfold_monad. cbn [disk].
  change (disk_exists ?m ?p) with (present m (components p)).
  rewrite Hnone. cbv beta iota. cbn [disk]. rewrite Hnone'. reflexivity.
Qed.

End VersionRemoval.

End LastOnMemDisk.


(** * Worked examples on the in-memory disk *)

Section Witnesses.
Import MemDisk Examples.

(** The lost part is renamed to a destination that is both malformed and
    already there: the missing source is what gets reported. *)
Lemma rename_missing_source_witness :
  disk_exists committed (root_path lost_part // part_dir lost_part) = false
  ∧ has_filename "all_1_1_0/" = false
  ∧ disk_exists committed (root_path lost_part // "all_1_1_0/" // "") = true
  ∧ rename "all_1_1_0/" true true 5 (lost_part, fresh committed)
    = (Exc (DBException ErrorCodes.FILE_DOESNT_EXIST), (lost_part, fresh committed)).
Proof.
  split; [vm_compute; reflexivity |]. split; [vm_compute; reflexivity |].
  split; [vm_compute; reflexivity |].
  apply (rename_missing_source lost_part (fresh committed)). vm_compute; reflexivity.
Defined.

Lemma rename_trailing_slash_witness :
  disk_exists committed (root_path part // part_dir part) = true
  ∧ has_filename "detached/all_1_1_0/" = false
  ∧ rename "detached/all_1_1_0/" true true 5 (part, fresh committed)
    = (Exc (DBException ErrorCodes.LOGICAL_ERROR), (part, fresh committed)).
Proof.
  split; [vm_compute; reflexivity |]. split; [vm_compute; reflexivity |].
  apply (rename_trailing_slash part (fresh committed)); vm_compute; reflexivity.
Defined.

(** Detaching over a stale [detached/all_1_1_0]: refused without the flag;
    with it the stale directory goes and the part takes its place. *)
Lemma rename_destination_exists_witness :
  let renamed := rename "detached/all_1_1_0" true false 5 (part, fresh with_stale_detached) in
  disk_exists with_stale_detached (root_path part // part_dir part) = true
  ∧ has_filename (root_path part // "detached/all_1_1_0") = true
  ∧ disk_exists with_stale_detached (root_path part // "detached/all_1_1_0" // "") = true
  ∧ rename "detached/all_1_1_0" false false 5 (part, fresh with_stale_detached)
    = (Exc (DBException ErrorCodes.DIRECTORY_ALREADY_EXISTS), (part, fresh with_stale_detached))
  ∧ renamed.1 = Ok ()
  ∧ renamed.2.1 = {| root_path := "store/tbl/detached/"; part_dir := "all_1_1_0" |}
  ∧ trace renamed.2.2
    = [RemoveRecursive "store/tbl/detached/all_1_1_0/";
       SetLastModified "store/tbl/all_1_1_0/" 5;
       MoveDirectory "store/tbl/all_1_1_0/" "store/tbl/detached/all_1_1_0/"]
  ∧ disk_exists (disk renamed.2.2) "store/tbl/all_1_1_0" = false
  ∧ disk_readFile (disk renamed.2.2) "store/tbl/detached/all_1_1_0/data.bin" = Ok "0123456789"
  ∧ disk_exists (disk renamed.2.2) "store/tbl/detached/all_1_1_0/stale.bin" = false.
Proof.
  intros renamed.
  assert (disk_exists with_stale_detached (root_path part // part_dir part) = true) as H1
    by (vm_compute; reflexivity).
  assert (has_filename (root_path part // "detached/all_1_1_0") = true) as H2
    by (vm_compute; reflexivity).
  assert (disk_exists with_stale_detached (root_path part // "detached/all_1_1_0" // "") = true)
    as H3 by (vm_compute; reflexivity).
  destruct (rename_destination_exists part (fresh with_stale_detached)
              "detached/all_1_1_0" false 5 H1 H2 H3) as [Hrefused Hremoved].
  assert (disk_listFiles with_stale_detached (root_path part // "detached/all_1_1_0" // "")
          = Ok ["stale.bin"]) as H4 by (vm_compute; reflexivity).
  assert ((disk_call (RemoveRecursive (root_path part // "detached/all_1_1_0" // ""))
             with_stale_detached).1 = Ok ()) as H5 by (vm_compute; reflexivity).
  destruct (Hremoved _ _ H4 (result_eta _ _ H5)) as (line & Hrun & _).
  do 4 (split; [assumption |]).
  unfold renamed. rewrite Hrun. repeat split; vm_compute; reflexivity.
Defined.

(** [createFile] throws a Poco exception because the part directory is
    gone; the method returns all the same. *)
Lemma writeDeleteOnDestroyMarker_swallows_witness :
  let marker_path := root_path lost_part // part_dir lost_part // "delete-on-destroy.txt" in
  (disk_call (CreateFile marker_path) committed).1 = Exc (PocoException "Cannot create file")
  ∧ is_poco (PocoException "Cannot create file") = true
  ∧ (writeDeleteOnDestroyMarker lost_part (fresh committed)).1 = Ok ()
  ∧ trace (writeDeleteOnDestroyMarker lost_part (fresh committed)).2 = [CreateFile marker_path]
  ∧ disk_exists (disk (writeDeleteOnDestroyMarker lost_part (fresh committed)).2) marker_path
    = false.
Proof.
  intros marker_path.
  assert ((disk_call (CreateFile marker_path) committed).1
          = Exc (PocoException "Cannot create file")) as H1 by (vm_compute; reflexivity).
  split; [exact H1 |]. split; [reflexivity |].
  destruct (writeDeleteOnDestroyMarker_swallows lost_part (fresh committed)
              (Exc (PocoException "Cannot create file"))
              (disk_call (CreateFile marker_path) committed).2) as (lines & Hrun & _).
  - destruct (disk_call (CreateFile marker_path) (disk (fresh committed))) as [r d] eqn:E.
    simpl in H1. simpl. by rewrite <- H1.
  - by intros e [= <-].
  - rewrite Hrun. repeat split; vm_compute; reflexivity.
Defined.


(** Two earlier detachments took the first two names; the third is free. *)
Lemma getRelativePathForPrefix_first_free_witness :
  let probed := getRelativePathForPrefix part "broken" true (fresh detached_twice) in
  probed.1 = Ok "broken_all_1_1_0_try2"
  ∧ length (logged probed.2) = 2
  ∧ ∃ i, i < 10 ∧ probed.1 = Ok (candidate part "broken" i)
         ∧ disk_exists detached_twice
             (root_path part // "detached" // candidate part "broken" i) = false.
Proof.
  intros probed. split; [vm_compute; reflexivity |]. split; [vm_compute; reflexivity |].
  destruct (getRelativePathForPrefix_first_free part "broken" true (fresh detached_twice))
    as (_ & _ & i & lines & Hi & Hrun & Hbefore & Hlast & _).
  exists i. split; [exact Hi |]. unfold probed. rewrite Hrun. split; [reflexivity |].
  destruct Hlast as [[Hfree _] | (_ & Hall & _)]; [exact Hfree |].
  specialize (Hall 2 ltac:(lia)). by vm_compute in Hall.
Defined.

(** The example scenario of the specification: the two files of the
    manifest, [checksums.txt], [columns.txt] and [delete-on-destroy.txt] are
    removed by name, then the directory; nothing is removed recursively.
    And a part with a projection, whose manifest lists [p.proj]: the
    projection directory is cleared by its own request, and the request for
    the part leaves [p.proj] out. *)
Lemma remove_targeted_deletion_witness :
  let removed := remove part true ∅ manifest [] (fresh committed) in
  let removed_both :=
    remove part true ∅ MoreExamples.manifest_with_projection MoreExamples.projection_manifest
      (fresh MoreExamples.with_projection) in
  MergeTreeDataPartChecksums.empty manifest = false
  ∧ MergeTreeDataPartChecksums.empty MoreExamples.manifest_with_projection = false
  ∧ removed.1 = Ok ()
  ∧ trace removed.2
    = [MoveDirectory "store/tbl/all_1_1_0" "store/tbl/delete_tmp_all_1_1_0";
       RemoveSharedFiles
         [Build_RemoveRequest "store/tbl/delete_tmp_all_1_1_0/data.bin" false;
          Build_RemoveRequest "store/tbl/delete_tmp_all_1_1_0/data.mrk" false;
          Build_RemoveRequest "store/tbl/delete_tmp_all_1_1_0/checksums.txt" false;
          Build_RemoveRequest "store/tbl/delete_tmp_all_1_1_0/columns.txt" false;
          Build_RemoveRequest "store/tbl/delete_tmp_all_1_1_0/default_compression_codec.txt" true;
          Build_RemoveRequest "store/tbl/delete_tmp_all_1_1_0/delete-on-destroy.txt" true;
          Build_RemoveRequest "store/tbl/delete_tmp_all_1_1_0/txn_version.txt" true]
         false ∅;
       RemoveDirectory "store/tbl/delete_tmp_all_1_1_0"]
  ∧ logged removed.2 = []
  ∧ map_to_list (disk removed.2) = [(["store"; "tbl"], Directory 0); (["store"], Directory 0)]
  ∧ removed_both.1 = Ok ()
  ∧ trace removed_both.2
    = [MoveDirectory "store/tbl/all_1_1_0" "store/tbl/delete_tmp_all_1_1_0";
       RemoveSharedFiles
         [Build_RemoveRequest "store/tbl/delete_tmp_all_1_1_0/p.proj/data.bin" false;
          Build_RemoveRequest "store/tbl/delete_tmp_all_1_1_0/p.proj/checksums.txt" false;
          Build_RemoveRequest "store/tbl/delete_tmp_all_1_1_0/p.proj/columns.txt" false;
          Build_RemoveRequest
            "store/tbl/delete_tmp_all_1_1_0/p.proj/default_compression_codec.txt" true;
          Build_RemoveRequest "store/tbl/delete_tmp_all_1_1_0/p.proj/delete-on-destroy.txt" true]
         false ∅;
       RemoveDirectory "store/tbl/delete_tmp_all_1_1_0/p.proj";
       RemoveSharedFiles
         [Build_RemoveRequest "store/tbl/delete_tmp_all_1_1_0/data.bin" false;
          Build_RemoveRequest "store/tbl/delete_tmp_all_1_1_0/checksums.txt" false;
          Build_RemoveRequest "store/tbl/delete_tmp_all_1_1_0/columns.txt" false;
          Build_RemoveRequest "store/tbl/delete_tmp_all_1_1_0/default_compression_codec.txt" true;
          Build_RemoveRequest "store/tbl/delete_tmp_all_1_1_0/delete-on-destroy.txt" true;
          Build_RemoveRequest "store/tbl/delete_tmp_all_1_1_0/txn_version.txt" true]
         false ∅;
       RemoveDirectory "store/tbl/delete_tmp_all_1_1_0"]
  ∧ logged removed_both.2 = [].
Proof.
  intros removed removed_both.
  split; [reflexivity |]. split; [reflexivity |].
  destruct (remove_targeted_deletion part true ∅ manifest [] eq_refl) as [_ Hremove].
  destruct (remove_targeted_deletion part true ∅ MoreExamples.manifest_with_projection
              MoreExamples.projection_manifest eq_refl) as [_ Hboth].
  assert ((remove_rename_to_delete_tmp part true ∅ (fresh committed)).1 = Ok true) as Hmove
    by (vm_compute; reflexivity).
  assert ((remove_projections (root_path part // ("delete_tmp_" +:+ part_dir part)) true ∅ []
             (remove_rename_to_delete_tmp part true ∅ (fresh committed)).2).1 = Ok ())
    as Hproj by (vm_compute; reflexivity).
  assert ((remove_rename_to_delete_tmp part true ∅ (fresh MoreExamples.with_projection)).1
          = Ok true) as Hmove' by (vm_compute; reflexivity).
  assert ((remove_projections (root_path part // ("delete_tmp_" +:+ part_dir part)) true ∅
             MoreExamples.projection_manifest
             (remove_rename_to_delete_tmp part true ∅
                (fresh MoreExamples.with_projection)).2).1 = Ok ())
    as Hproj' by (vm_compute; reflexivity).
  unfold removed, removed_both.
  rewrite (Hremove _ _ _ (result_eta _ _ Hmove) (result_eta _ _ Hproj)).
  rewrite (Hboth _ _ _ (result_eta _ _ Hmove') (result_eta _ _ Hproj')).
  repeat split; vm_compute; reflexivity.
Defined.

(** A legacy part has no version file at all; an interrupted one has only
    the temporary file, which is removed. *)
Lemma loadVersionMetadata_crash_residue_witness :
  let version_file_name := root_path part // part_dir part // "txn_version.txt" in
  let loaded := loadVersionMetadata part (blank, fresh interrupted) in
  disk_exists committed version_file_name = false
  ∧ disk_exists committed (version_file_name +:+ ".tmp") = false
  ∧ loadVersionMetadata part (blank, fresh committed)
    = (Ok (), (Prehistoric blank, fresh committed))
  ∧ disk_exists interrupted version_file_name = false
  ∧ disk_exists interrupted (version_file_name +:+ ".tmp") = true
  ∧ loaded.1 = Ok ()
  ∧ loaded.2.1 = RolledBack blank
  ∧ trace loaded.2.2 = [RemoveFile (version_file_name +:+ ".tmp")]
  ∧ disk_exists (disk loaded.2.2) (version_file_name +:+ ".tmp") = false.
Proof.
  intros version_file_name loaded.
  assert (disk_exists committed version_file_name = false) as H1 by (vm_compute; reflexivity).
  assert (disk_exists committed (version_file_name +:+ ".tmp") = false) as H2
    by (vm_compute; reflexivity).
  assert (disk_exists interrupted version_file_name = false) as H3 by (vm_compute; reflexivity).
  assert (disk_exists interrupted (version_file_name +:+ ".tmp") = true) as H4
    by (vm_compute; reflexivity).
  do 2 (split; [assumption |]).
  split; [exact (proj1 (loadVersionMetadata_crash_residue part blank (fresh committed) H1) H2) |].
  do 2 (split; [assumption |]).
  destruct (proj2 (loadVersionMetadata_crash_residue part blank (fresh interrupted) H3) H4)
    as [Hstate Hremoved].
  destruct (Hremoved 0%Z "version: 1") as (line & Hrun & _);
    [vm_compute; reflexivity | vm_compute; reflexivity |].
  split; [unfold loaded; rewrite Hrun; vm_compute; reflexivity |].
  split; [exact Hstate |].
  unfold loaded. rewrite Hrun. split; vm_compute; reflexivity.
Defined.

(** Write, then load into a blank object. *)
Lemma version_metadata_round_trip_witness :
  let written := writeVersionMetadata part version true (fresh committed) in
  reads_back_creation version blank
  ∧ written.1 = Ok ()
  ∧ ∃ loaded,
      loadVersionMetadata part (blank, written.2) = (Ok (), (loaded, written.2))
      ∧ creation_tid loaded = {| start_csn := 42; local_tid := 7; host_id := 3 |}
      ∧ creation_csn loaded = 43%N.
Proof.
  intros written.
  assert (reads_back_creation version blank) as Hcodec.
  { exists version. repeat split; vm_compute; reflexivity. }
  assert (written.1 = Ok ()) as Hwritten by (vm_compute; reflexivity).
  split; [exact Hcodec |]. split; [exact Hwritten |].
  destruct (version_metadata_round_trip part version blank true (fresh committed) written.2
              Hcodec (result_eta _ _ Hwritten)) as (loaded & Hload & _ & Htid & Hcsn).
  exists loaded. split; [exact Hload |]. split; [exact Htid | exact Hcsn].
Defined.

(** The unfinished part goes through the recursive path. *)
Lemma remove_empty_manifest_witness :
  let removed := remove unfinished_part false ∅ no_manifest [] (fresh unfinished) in
  MergeTreeDataPartChecksums.empty no_manifest = true
  ∧ well_formed unfinished = true
  ∧ no_slash (part_dir unfinished_part) = true
  ∧ part_dir unfinished_part ≠ ""
  ∧ disk_exists unfinished "store/tbl/tmp_insert_all_3_3_0" = true
  ∧ removed.1 = Ok ()
  ∧ trace removed.2
    = [MoveDirectory "store/tbl/tmp_insert_all_3_3_0"
         "store/tbl/delete_tmp_tmp_insert_all_3_3_0";
       RemoveSharedRecursive "store/tbl/delete_tmp_tmp_insert_all_3_3_0/" true ∅]
  ∧ disk_exists (disk removed.2) "store/tbl/tmp_insert_all_3_3_0" = false
  ∧ disk_exists (disk removed.2) "store/tbl/delete_tmp_tmp_insert_all_3_3_0" = false.
Proof.
  intros removed.
  assert (well_formed unfinished = true) as Hwf by (vm_compute; reflexivity).
  assert (no_slash (part_dir unfinished_part) = true) as Hplain by (vm_compute; reflexivity).
  assert (part_dir unfinished_part ≠ "") as Hne by done.
  assert (disk_exists unfinished "store/tbl/tmp_insert_all_3_3_0" = true) as Hpart
    by (vm_compute; reflexivity).
  split; [reflexivity |]. do 4 (split; [assumption |]).
  destruct (remove_empty_manifest unfinished_part false ∅ no_manifest [] (fresh unfinished)
              eq_refl Hwf Hplain Hne)
    as (w0 & w1 & w' & _ & _ & Hrun & _ & _ & _ & Hfrom & Hto);
    [vm_compute; reflexivity |].
  split; [unfold removed; by rewrite Hrun |].
  split; [vm_compute; reflexivity |].
  unfold removed. rewrite Hrun. split; [exact Hfrom | exact Hto].
Defined.



End Witnesses.

(** * Worked examples for the further methods *)

Section FurtherWitnesses.
Import MemDisk MemDiskMore Examples MoreExamples.

(** A table directory moves from one disk mount to another. *)
Lemma changeRootPath_round_trip_witness :
  changeRootPath "store/" "mnt/cold/store" part
  = (Ok (), {| root_path := "mnt/cold/store/tbl"; part_dir := "all_1_1_0" |})
  ∧ changeRootPath "mnt/cold/store" "store/"
      {| root_path := "mnt/cold/store/tbl"; part_dir := "all_1_1_0" |}
    = (Ok (), part).
Proof.
  assert (changeRootPath "store/" "mnt/cold/store" part
          = (Ok (), {| root_path := "mnt/cold/store/tbl"; part_dir := "all_1_1_0" |})) as Hrun
    by (vm_compute; reflexivity).
  split; [exact Hrun |].
  exact (changeRootPath_round_trip "store/" "mnt/cold/store" part _ Hrun).
Defined.

Lemma changeRootPath_trailing_slash_witness :
  back "store" ≠ Some slash
  ∧ back "mnt/cold" ≠ Some slash
  ∧ changeRootPath ("store" +:+ "/") ("mnt/cold" +:+ "/") part
    = changeRootPath "store" "mnt/cold" part.
Proof.
  assert (back "store" ≠ Some slash) as H1 by (vm_compute; discriminate).
  assert (back "mnt/cold" ≠ Some slash) as H2 by (vm_compute; discriminate).
  split; [exact H1 |]. split; [exact H2 |].
  exact (changeRootPath_trailing_slash "store" "mnt/cold" part H1 H2).
Defined.

(** Detaching the committed part over a stale directory. *)
Lemma rename_success_witness :
  let renamed := rename "detached/all_1_1_0" true true 5 (part, fresh with_stale_detached) in
  renamed.1 = Ok ()
  ∧ root_path renamed.2.1 // part_dir renamed.2.1 = "store/tbl/detached/all_1_1_0"
  ∧ getFullRelativePath renamed.2.1 = "store/tbl/detached/all_1_1_0/"
  ∧ trace renamed.2.2
    = [RemoveRecursive "store/tbl/detached/all_1_1_0/";
       SetLastModified "store/tbl/all_1_1_0/" 5;
       MoveDirectory "store/tbl/all_1_1_0/" "store/tbl/detached/all_1_1_0/";
       GetDirectorySyncGuard "store/tbl/detached/all_1_1_0/"].
Proof.
  intros renamed.
  assert (renamed.1 = Ok ()) as Hrun by (vm_compute; reflexivity).
  split; [exact Hrun |].
  destruct (rename_success part renamed.2.1 (fresh with_stale_detached) renamed.2.2
              "detached/all_1_1_0" true true 5 (result_eta_pair _ _ Hrun))
    as (Hpath & Hfull & Htrace).
  split; [rewrite Hpath; vm_compute; reflexivity |].
  split; [rewrite Hfull; vm_compute; reflexivity |].
  rewrite Htrace. vm_compute; reflexivity.
Defined.

(** The lost part was removed by hand: [remove] notices when the move
    fails, says so, and returns. *)
Lemma remove_move_fails_witness :
  let from := root_path lost_part // part_dir lost_part in
  let to := root_path lost_part // ("delete_tmp_" +:+ part_dir lost_part) in
  let removed := remove lost_part true ∅ manifest [] (fresh committed) in
  disk_exists committed to = false
  ∧ (disk_call (MoveDirectory from to) committed).1
    = Exc (FilesystemError no_such_file_or_directory)
  ∧ removed.1 = Ok ()
  ∧ trace removed.2 = [MoveDirectory "store/tbl/all_9_9_0" "store/tbl/delete_tmp_all_9_9_0"]
  ∧ length (logged removed.2) = 1.
Proof.
  intros from to removed.
  assert (disk_exists committed to = false) as H1 by (vm_compute; reflexivity).
  assert ((disk_call (MoveDirectory from to) committed).1
          = Exc (FilesystemError no_such_file_or_directory)) as H2 by (vm_compute; reflexivity).
  split; [exact H1 |]. split; [exact H2 |].
  pose proof (remove_move_fails lost_part true ∅ manifest [] (fresh committed) _ _
                H1 (outcome_eta _ _ H2)) as Hrun.
  cbv beta iota zeta in Hrun. unfold removed. rewrite Hrun.
  repeat split; vm_compute; reflexivity.
Defined.

(** On a disk that refuses every call, the stale directory cannot be
    cleared; the part is not moved. *)
Lemma remove_stale_cleanup_fails_witness :
  let to := root_path part // ("delete_tmp_" +:+ part_dir part) in
  let removed := remove part true ∅ manifest [] (Build_World tt [] []) in
  disk_exists tt to = true
  ∧ disk_call (RemoveSharedRecursive (to // "") (negb true) ∅) tt
    = (Exc (PocoException "Read-only file system"), tt)
  ∧ removed.1 = Exc (PocoException "Read-only file system")
  ∧ trace removed.2 = [RemoveSharedRecursive "store/tbl/delete_tmp_all_1_1_0/" false ∅]
  ∧ length (logged removed.2) = 2.
Proof.
  intros to removed. split; [reflexivity |]. split; [reflexivity |].
  pose proof (remove_stale_cleanup_fails part true ∅ manifest [] (Build_World tt [] [])
                (PocoException "Read-only file system") tt eq_refl eq_refl) as Hrun.
  cbv beta iota zeta in Hrun. unfold removed. rewrite Hrun.
  repeat split; vm_compute; reflexivity.
Defined.

(** The removal of the part is recorded in its version file. *)
Lemma version_records_appended_witness :
  let path := "store/tbl/all_1_1_0/txn_version.txt" in
  let written := writeVersionMetadata part version true (fresh committed) in
  let appended := appendCSNToVersionMetadata part removed_version REMOVAL written.2 in
  written.1 = Ok ()
  ∧ appended.1 = Ok ()
  ∧ disk_readFile (disk appended.2) path
    = Ok (text_write version +:+ String newline "removal_csn: 51")
  ∧ (loadVersionMetadata part (blank, appended.2)).1 = Ok ()
  ∧ removal_csn (loadVersionMetadata part (blank, appended.2)).2.1 = 51%N
  ∧ creation_csn (loadVersionMetadata part (blank, appended.2)).2.1 = 43%N.
Proof.
  intros path written appended.
  assert (written.1 = Ok ()) as Hwritten by (vm_compute; reflexivity).
  split; [exact Hwritten |].
  destruct (version_records_appended part version blank removed_version REMOVAL false true
              (fresh committed) written.2 (result_eta _ _ Hwritten))
    as [(Hok & _ & _ & Hload) _].
  split; [exact Hok |]. split; [vm_compute; reflexivity |].
  fold appended in Hload. rewrite Hload.
  repeat split; vm_compute; reflexivity.
Defined.

(** The unfinished part is marked and unmarked again. *)
Lemma delete_on_destroy_marker_round_trip_witness :
  let marker_path :=
    root_path unfinished_part // part_dir unfinished_part // "delete-on-destroy.txt" in
  disk_exists unfinished marker_path = false
  ∧ ∃ w1 w2,
      writeDeleteOnDestroyMarker unfinished_part (fresh unfinished) = (Ok (), w1)
      ∧ disk_exists (disk w1) marker_path = true
      ∧ removeDeleteOnDestroyMarker unfinished_part w1 = (Ok (), w2)
      ∧ disk_exists (disk w2) marker_path = false
      ∧ disk w2 = unfinished.
Proof.
  intros marker_path.
  assert (disk_exists unfinished marker_path = false) as H1 by (vm_compute; reflexivity).
  split; [exact H1 |].
  destruct (delete_on_destroy_marker_round_trip unfinished_part (fresh unfinished) H1)
    as (w1 & w2 & Hmark & Hunmark & Hgone & Hdisk).
  exists w1, w2. split; [exact Hmark |]. split; [| by repeat split].
  assert (disk_exists (disk (writeDeleteOnDestroyMarker unfinished_part (fresh unfinished)).2)
            marker_path = true) as Hthere by (vm_compute; reflexivity).
  by rewrite Hmark in Hthere.
Defined.

(** The builder overwrites a data file of the part and adds a new file. *)
Lemma builder_write_read_remove_witness :
  let full := "store/tbl" // "all_1_1_0" // "count.txt" in
  let written := DataPartStorageBuilderOnDisk.writeFile builder "count.txt" "42"
                   (fresh committed) in
  written.1 = Ok ()
  ∧ disk_exists committed full = false
  ∧ DataPartStorageBuilderOnDisk.readFile builder "count.txt" written.2
    = (Ok "42", written.2)
  ∧ DataPartStorageBuilderOnDisk.exists_path builder "count.txt" written.2
    = (Ok true, written.2)
  ∧ ∃ w2, DataPartStorageBuilderOnDisk.removeFile builder "count.txt" written.2 = (Ok (), w2)
          ∧ disk w2 = committed.
Proof.
  intros full written.
  assert (written.1 = Ok ()) as Hwritten by (vm_compute; reflexivity).
  assert (disk_exists committed full = false) as Habsent by (vm_compute; reflexivity).
  split; [exact Hwritten |]. split; [exact Habsent |].
  destruct (builder_write_read_remove builder "count.txt" "42" (fresh committed) written.2
              (result_eta _ _ Hwritten)) as (Hread & Hexists & _ & Hremove).
  split; [exact Hread |]. split; [exact Hexists |]. exact (Hremove Habsent).
Defined.

(** A manifest that misses [data.mrk]: the fast path fails on the directory
    that is not empty, and the part still goes. *)
Lemma remove_leaves_nothing_witness :
  let removed := remove part true ∅ short_manifest [] (fresh committed) in
  well_formed committed = true
  ∧ no_slash (part_dir part) = true
  ∧ part_dir part ≠ ""
  ∧ disk_exists committed "store/tbl/all_1_1_0" = true
  ∧ removed.1 = Ok ()
  ∧ disk_exists (disk removed.2) "store/tbl/all_1_1_0" = false
  ∧ disk_exists (disk removed.2) "store/tbl/delete_tmp_all_1_1_0" = false
  ∧ disk removed.2 !! ["store"; "tbl"; "delete_tmp_all_1_1_0"; "data.mrk"] = None.
Proof.
  intros removed.
  assert (well_formed committed = true) as Hwf by (vm_compute; reflexivity).
  assert (no_slash (part_dir part) = true) as Hplain by (vm_compute; reflexivity).
  assert (part_dir part ≠ "") as Hne by done.
  assert (disk_exists committed "store/tbl/all_1_1_0" = true) as Hpart
    by (vm_compute; reflexivity).
  do 4 (split; [assumption |]).
  destruct (remove_leaves_nothing part true ∅ short_manifest [] (fresh committed)
              Hwf Hplain Hne Hpart) as (w' & Hrun & Hnone & Hfrom & Hto).
  unfold removed. rewrite Hrun. split; [done |]. split; [exact Hfrom |].
  split; [exact Hto |]. apply Hnone. right. vm_compute; reflexivity.
Defined.

(** Removing one part, projection and all, leaves its neighbour alone. *)
Lemma remove_stays_within_part_witness :
  let neighbour := ["store"; "tbl"; "all_2_2_0"; "data.bin"] in
  let removed := remove part true ∅ manifest projection_manifest (fresh with_projection) in
  no_dot_components (root_path part) = true
  ∧ no_dot_components (part_dir part) = true
  ∧ relative_manifest manifest = true
  ∧ spelled_out_manifest manifest = true
  ∧ relative_projections projection_manifest = true
  ∧ spelled_out_projections projection_manifest = true
  ∧ under (components "store/tbl/all_1_1_0") neighbour = false
  ∧ under (components "store/tbl/delete_tmp_all_1_1_0") neighbour = false
  ∧ removed.1 = Ok ()
  ∧ disk_exists (disk removed.2) "store/tbl/all_1_1_0" = false
  ∧ with_projection !! neighbour = Some (File "01234" 0)
  ∧ disk removed.2 !! neighbour = with_projection !! neighbour.
Proof.
  intros neighbour removed.
  do 11 (split; [vm_compute; reflexivity |]).
  apply (remove_stays_within_part part true ∅ manifest projection_manifest
           (fresh with_projection) neighbour); vm_compute; reflexivity.
Defined.

(** Detaching over a stale directory: the data file arrives, the stale file
    is gone, the rest of the table is untouched. *)
Lemma rename_moves_contents_witness :
  let renamed := rename "detached/all_1_1_0" true true 5 (part, fresh with_stale_detached) in
  renamed.1 = Ok ()
  ∧ disk_exists (disk renamed.2.2) (getFullRelativePath part) = false
  ∧ disk_exists (disk renamed.2.2) (root_path renamed.2.1 // part_dir renamed.2.1) = true
  ∧ entry (disk renamed.2.2) "store/tbl/detached/all_1_1_0/" ["data.bin"]
    = Some (File "0123456789" 0)
  ∧ entry (disk renamed.2.2) "store/tbl/detached/all_1_1_0/" ["stale.bin"] = None
  ∧ disk renamed.2.2 !! ["store"; "tbl"; "detached"] = Some (Directory 0).
Proof.
  intros renamed.
  assert (renamed.1 = Ok ()) as Hrun by (vm_compute; reflexivity).
  split; [exact Hrun |].
  destruct (rename_moves_contents part renamed.2.1 (fresh with_stale_detached) renamed.2.2
              "detached/all_1_1_0" true true 5 (result_eta_pair _ _ Hrun))
    as (Hgone & Hthere & Hmoved & Hrest).
  split; [exact Hgone |]. split; [exact Hthere |].
  change "store/tbl/detached/all_1_1_0/" with (root_path part // "detached/all_1_1_0" // "").
  rewrite !Hmoved by done. split; [vm_compute; reflexivity |].
  split; [vm_compute; reflexivity |].
  rewrite Hrest by (vm_compute; reflexivity). vm_compute; reflexivity.
Defined.

(** The size of a part with a projection: six files at two depths. *)
Lemma calculateTotalSizeOnDisk_sums_files_witness :
  let dir := components (root_path part // part_dir part) in
  well_formed with_projection = true
  ∧ plain_names with_projection = true
  ∧ dir ≠ []
  ∧ is_dir with_projection dir = true
  ∧ depth with_projection < length dir + 3
  ∧ calculateTotalSizeOnDisk 3 part with_projection = Some (Ok 37%N)
  ∧ size_below with_projection dir = 37.
Proof.
  intros dir.
  assert (well_formed with_projection = true) as Hwf by (vm_compute; reflexivity).
  assert (plain_names with_projection = true) as Hplain by (vm_compute; reflexivity).
  assert (dir ≠ []) as Hdir by (vm_compute; discriminate).
  assert (is_dir with_projection dir = true) as Hexists by (vm_compute; reflexivity).
  assert (depth with_projection < length dir + 3) as Hfuel by (vm_compute; lia).
  assert (size_below with_projection dir = 37) as Hsize by (vm_compute; reflexivity).
  do 5 (split; [assumption |]). split; [| exact Hsize].
  rewrite (calculateTotalSizeOnDisk_sums_files part with_projection 3 Hwf Hplain Hdir
             Hexists Hfuel).
  fold dir. rewrite Hsize. reflexivity.
Defined.

(** The part is detached as broken for the third time. *)
Lemma detach_to_free_name_witness :
  let detached := root_path part // "detached" in
  no_slash "broken" = true
  ∧ no_slash (part_dir part) = true
  ∧ part_dir part ≠ ""
  ∧ part_dir part ≠ "detached"
  ∧ is_dir detached_twice (components (root_path part // part_dir part)) = true
  ∧ is_dir detached_twice (components detached) = true
  ∧ 2 < 10
  ∧ disk_exists detached_twice (detached // candidate part "broken" 2) = false
  ∧ ∃ res w1 this' w',
      getRelativePathForPrefix part "broken" true (fresh detached_twice) = (Ok res, w1)
      ∧ res = "broken_all_1_1_0_try2"
      ∧ rename ("detached" // res) false true 5 (part, w1) = (Ok (), (this', w'))
      ∧ part_dir this' = res
      ∧ disk_exists (disk w') (detached // res) = true
      ∧ disk_exists (disk w') (root_path part // part_dir part) = false.
Proof.
  intros detached.
  assert (no_slash "broken" = true) as H1 by reflexivity.
  assert (no_slash (part_dir part) = true) as H2 by reflexivity.
  assert (part_dir part ≠ "") as H3 by done.
  assert (part_dir part ≠ "detached") as H4 by done.
  assert (is_dir detached_twice (components (root_path part // part_dir part)) = true) as H5
    by (vm_compute; reflexivity).
  assert (is_dir detached_twice (components detached) = true) as H6
    by (vm_compute; reflexivity).
  assert (2 < 10) as H7 by lia.
  assert (disk_exists detached_twice (detached // candidate part "broken" 2) = false) as H8
    by (vm_compute; reflexivity).
  do 8 (split; [assumption |]).
  destruct (detach_to_free_name part "broken" true 5 (fresh detached_twice) 2
              H1 H2 H3 H4 H5 H6 H7 H8)
    as (res & w1 & this' & w' & Hprobe & Hrename & Hdir & Hthere & Hgone).
  exists res, w1, this', w'. split; [exact Hprobe |]. split; [| by repeat split].
  assert ((getRelativePathForPrefix part "broken" true (fresh detached_twice)).1
          = Ok "broken_all_1_1_0_try2") as Hanswer by (vm_compute; reflexivity).
  rewrite Hprobe in Hanswer. by injection Hanswer.
Defined.

(** The committed part is removed, and removed again. *)
Lemma remove_twice_witness :
  well_formed committed = true
  ∧ no_slash (part_dir part) = true
  ∧ part_dir part ≠ ""
  ∧ disk_exists committed (root_path part // part_dir part) = true
  ∧ ∃ w' w'',
      remove part true ∅ manifest [] (fresh committed) = (Ok (), w')
      ∧ remove part true ∅ manifest [] w' = (Ok (), w'')
      ∧ disk w'' = disk w'
      ∧ length (logged w'') = S (length (logged w')).
Proof.
  assert (well_formed committed = true) as Hwf by (vm_compute; reflexivity).
  assert (no_slash (part_dir part) = true) as Hplain by (vm_compute; reflexivity).
  assert (part_dir part ≠ "") as Hne by done.
  assert (disk_exists committed (root_path part // part_dir part) = true) as Hpart
    by (vm_compute; reflexivity).
  do 4 (split; [assumption |]).
  exact (remove_twice part true ∅ manifest [] (fresh committed) Hwf Hplain Hne Hpart).
Defined.

(** A version file is written and removed; the part then counts as
    prehistoric. *)
Lemma removeVersionMetadata_after_write_witness :
  let written := writeVersionMetadata part version true (fresh committed) in
  written.1 = Ok ()
  ∧ ∃ w2,
      removeVersionMetadata part written.2 = (Ok (), w2)
      ∧ disk_exists (disk w2) "store/tbl/all_1_1_0/txn_version.txt" = false
      ∧ loadVersionMetadata part (blank, w2) = (Ok (), (Prehistoric blank, w2)).
Proof.
  intros written.
  assert (written.1 = Ok ()) as Hwritten by (vm_compute; reflexivity).
  split; [exact Hwritten |].
  exact (removeVersionMetadata_after_write part version blank true (fresh committed)
           written.2 (result_eta _ _ Hwritten)).
Defined.

End FurtherWitnesses.
